(** * solbase-service: the payment-intent lifecycle, checked against its code

    A shallow embedding of [payment-intents.service.ts],
    [base-payment.service.ts], the DTO validators and the controller of the
    X402 Solana -> Base payment backend, with the properties the
    specification states about them.

    Layout: the JavaScript values the code computes with (IEEE-754 doubles
    with [parseFloat], [Number.prototype.toString], [Number(bigint)]; viem's
    [parseUnits]), the Prisma store, the two services, the controller, a
    small-step view of [triggerBasePayment] with its await points, and then
    every theorem. *)

From Stdlib Require Import ZArith String Ascii List Lia Bool.
From stdpp Require Import gmap strings.

Local Open Scope string_scope.
Local Open Scope Z_scope.

(** ** JavaScript numbers

    A [Number] is an IEEE-754 binary64 value.  A finite value is kept as
    sign, integer significand and binary exponent, [(-1)^neg * m * 2^e],
    in canonical form: [2^52 <= m < 2^53] for normal values,
    [m < 2^52] with [e = emin] for subnormal values and zero. *)

Module JS.

Inductive Number : Type :=
| NaN
| Infinity (neg : bool)
| Fin (neg : bool) (m : Z) (e : Z).

Definition emin : Z := -1074.
Definition emax : Z := 971.

(** Nearest integer to [p / q] for [0 <= p], [0 < q], ties to even. *)
Definition rne (p q : Z) : Z :=
  let d := p / q in
  match 2 * (p mod q) ?= q with
  | Lt => d
  | Gt => d + 1
  | Eq => if Z.even d then d else d + 1
  end.

(** [p / q] divided by [2^e], as a fraction. *)
Definition scale2 (p q e : Z) : Z * Z :=
  if 0 <=? e then (p, q * 2 ^ e) else (p * 2 ^ (- e), q).

(** The binary exponent at which [p / q] has a 53-bit significand, not
    below [emin]. *)
Definition exponent_of (p q : Z) : Z :=
  let e1 := Z.log2 p - Z.log2 q - 52 in
  let '(p1, q1) := scale2 p q e1 in
  let e := if 2 ^ 52 * q1 <=? p1 then e1 else e1 - 1 in
  Z.max e emin.

(** Round the non-negative rational [p / q] to the nearest double
    (round-half-to-even, overflow to Infinity). *)
Definition round_pos (neg : bool) (p q : Z) : Number :=
  if p =? 0 then Fin neg 0 emin
  else
    let e := exponent_of p q in
    let '(p1, q1) := scale2 p q e in
    let m := rne p1 q1 in
    let '(m', e') := if m =? 2 ^ 53 then (2 ^ 52, e + 1) else (m, e) in
    if emax <? e' then Infinity neg else Fin neg m' e'.

(** [Number(z)] for a BigInt [z]. *)
Definition Number_of_bigint (z : Z) : Number :=
  round_pos (z <? 0) (Z.abs z) 1.

(** The mathematical value of a finite Number as a fraction [(p, q)]. *)
Definition frac_of (m e : Z) : Z * Z :=
  if 0 <=? e then (m * 2 ^ e, 1) else (m, 2 ^ (- e)).

(** The relational operator [x < y] on Numbers. *)
Definition lt (x y : Number) : bool :=
  match x, y with
  | NaN, _ | _, NaN => false
  | Infinity sx, Infinity sy => sx && negb sy
  | Infinity sx, Fin _ _ _ => sx
  | Fin _ _ _, Infinity sy => negb sy
  | Fin sx mx ex, Fin sy my ey =>
      let lo := Z.min ex ey in
      let vx := (if sx then - mx else mx) * 2 ^ (ex - lo) in
      let vy := (if sy then - my else my) * 2 ^ (ey - lo) in
      vx <? vy
  end.

(** [x >= y] *)
Definition ge (x y : Number) : bool :=
  match x, y with
  | NaN, _ | _, NaN => false
  | _, _ => negb (lt x y)
  end.

(** [Math.round] of a finite Number: [floor (x + 1/2)]. *)
Definition Math_round (x : Number) : option Z :=
  match x with
  | Fin neg m e =>
      let '(p, q) := frac_of m e in
      Some ((2 * (if neg then - p else p) + q) / (2 * q))
  | _ => None
  end.

(** [x / y]: the exact quotient rounded to the nearest double. *)
Definition div (x y : Number) : Number :=
  match x, y with
  | NaN, _ | _, NaN => NaN
  | Infinity _, Infinity _ => NaN
  | Infinity sx, Fin sy _ _ => Infinity (xorb sx sy)
  | Fin sx _ _, Infinity sy => Fin (xorb sx sy) 0 emin
  | Fin sx mx ex, Fin sy my ey =>
      if my =? 0 then (if mx =? 0 then NaN else Infinity (xorb sx sy))
      else
        let '(px, qx) := frac_of mx ex in
        let '(py, qy) := frac_of my ey in
        round_pos (xorb sx sy) (px * qy) (qx * py)
  end.

Definition is_finite (x : Number) : bool :=
  match x with Fin _ _ _ => true | _ => false end.

(** *** Character classes and decimal digits *)

Definition digit_of (c : ascii) : option Z :=
  let n := Z.of_N (N_of_ascii c) in
  if (48 <=? n) && (n <=? 57) then Some (n - 48) else None.

Definition is_digit (c : ascii) : bool :=
  match digit_of c with Some _ => true | None => false end.

(** White space and line terminators below U+0080. *)
Definition is_white (c : ascii) : bool :=
  let n := N_of_ascii c in
  ((9 <=? n) && (n <=? 13))%N || (n =? 32)%N.

Definition digit_char (d : Z) : ascii := ascii_of_N (Z.to_N (48 + d)).

(** Scan a run of decimal digits: the integer read so far, the number of
    digits consumed, the remaining input. *)
Fixpoint scan_digits (s : string) (acc cnt : Z) : Z * Z * string :=
  match s with
  | String c r =>
      match digit_of c with
      | Some d => scan_digits r (10 * acc + d) (cnt + 1)
      | None => (acc, cnt, s)
      end
  | EmptyString => (acc, cnt, s)
  end.

Fixpoint skip_white (s : string) : string :=
  match s with
  | String c r => if is_white c then skip_white r else s
  | EmptyString => s
  end.

Definition starts_with (p s : string) : bool := String.prefix p s.

(** An optional [ExponentPart]: [e] or [E], an optional sign and at least
    one digit.  Without a well-formed exponent the literal ends before it. *)
Definition scan_exponent (s : string) : Z :=
  match s with
  | String c r =>
      if (Ascii.eqb c "e" || Ascii.eqb c "E")%bool then
        let '(neg, r') :=
          match r with
          | String "-" r' => (true, r')
          | String "+" r' => (false, r')
          | _ => (false, r)
          end in
        let '(v, n, _) := scan_digits r' 0 0 in
        if n =? 0 then 0 else if neg then - v else v
      else 0
  | EmptyString => 0
  end.

(** The double nearest to [mant * 10^dexp]. *)
Definition of_decimal (neg : bool) (mant dexp : Z) : Number :=
  if 0 <=? dexp then round_pos neg (mant * 10 ^ dexp) 1
  else round_pos neg mant (10 ^ (- dexp)).

(** The longest prefix that is a [StrUnsignedDecimalLiteral]. *)
Definition parse_unsigned (neg : bool) (s : string) : Number :=
  if starts_with "Infinity" s then Infinity neg
  else
    let '(ip, ni, r1) := scan_digits s 0 0 in
    match r1 with
    | String "." r =>
        let '(fp, nf, r2) := scan_digits r ip 0 in
        if (ni =? 0) && (nf =? 0) then NaN
        else of_decimal neg fp (scan_exponent r2 - nf)
    | _ =>
        if ni =? 0 then NaN else of_decimal neg ip (scan_exponent r1)
    end.

(** [parseFloat(s)]: leading white space is skipped, then the longest
    prefix that is a [StrDecimalLiteral] is read; NaN if there is none. *)
Definition parseFloat (s : string) : Number :=
  match skip_white s with
  | String "-" r => parse_unsigned true r
  | String "+" r => parse_unsigned false r
  | t => parse_unsigned false t
  end.

(** *** Number.prototype.toString (radix 10) *)

Fixpoint dec_digits (fuel : nat) (n : Z) (acc : string) : string :=
  match fuel with
  | O => acc
  | S f =>
      let acc' := String (digit_char (n mod 10)) acc in
      if n <? 10 then acc' else dec_digits f (n / 10) acc'
  end.

(** The decimal representation of a non-negative integer. *)
Definition Z_to_string (n : Z) : string :=
  dec_digits (S (Z.to_nat (Z.log2 n))) n "".

Fixpoint zeros (n : nat) : string :=
  match n with O => "" | S k => String "0" (zeros k) end.

(** The least [n] from [lo] upwards with [p / q < 10^n]. *)
Fixpoint decade (fuel : nat) (lo p q : Z) : Z :=
  match fuel with
  | O => lo
  | S f =>
      let below := if 0 <=? lo then p <? q * 10 ^ lo else p * 10 ^ (- lo) <? q in
      if below then lo else decade f (lo + 1) p q
  end.

(** A lower estimate of the decade of [p / q], from its binary logarithm
    ([log10 2] is about [0.30103]). *)
Definition decade_guess (p q : Z) : Z :=
  (Z.log2 p - Z.log2 q - 1) * 30103 / 100000 - 1.

(** Does the decimal [s * 10^d] round to the double [(m, e)]? *)
Definition rounds_to (s d m e : Z) : bool :=
  match of_decimal false s d with
  | Fin _ m' e' => (m' =? m) && (e' =? e)
  | _ => false
  end.

(** The shortest digit string: the least [k] for which some [k]-digit
    [s] has [s * 10^(n-k)] rounding to the value, and among those the one
    nearest to it.  Returns [(s, k, n)]. *)
Fixpoint shortest (fuel : nat) (k n m e : Z) : Z * Z * Z :=
  let '(p, q) := frac_of m e in
  let d := n - k in
  let lo := if 0 <=? d then p / (q * 10 ^ d) else (p * 10 ^ (- d)) / q in
  let hi := lo + 1 in
  let ok_lo := (10 ^ (k - 1) <=? lo) && rounds_to lo d m e in
  let ok_hi := rounds_to hi d m e in
  let pick_hi := if hi =? 10 ^ k then (10 ^ (k - 1), k, n + 1) else (hi, k, n) in
  let nearer_lo :=
    (* x - lo*10^d <= hi*10^d - x, ties to the even digit string *)
    let '(px, qx) := if 0 <=? d then (p, q * 10 ^ d) else (p * 10 ^ (- d), q) in
    match 2 * px ?= (2 * lo + 1) * qx with
    | Lt => true
    | Gt => false
    | Eq => Z.even lo
    end in
  match fuel with
  | O => (lo, k, n)
  | S f =>
      if ok_lo && ok_hi then (if nearer_lo then (lo, k, n) else pick_hi)
      else if ok_lo then (lo, k, n)
      else if ok_hi then pick_hi
      else shortest f (k + 1) n m e
  end.

Definition substr (from len : Z) (s : string) : string :=
  String.substring (Z.to_nat from) (Z.to_nat len) s.

Definition slice_from (from : Z) (s : string) : string :=
  String.substring (Z.to_nat from) (String.length s - Z.to_nat from) s.

(** The string for a positive finite value with digits [s] ([k] of them)
    and decimal point position [n]. *)
Definition format_digits (s k n : Z) : string :=
  let ds := Z_to_string s in
  if (-5 <=? n) && (n <=? 21) then
    if k <=? n then ds ++ zeros (Z.to_nat (n - k))
    else if 0 <? n then substr 0 n ds ++ "." ++ slice_from n ds
    else "0." ++ zeros (Z.to_nat (- n)) ++ ds
  else
    let ex := n - 1 in
    let tail := (if ex <? 0 then "e-" else "e+") ++ Z_to_string (Z.abs ex) in
    if k =? 1 then ds ++ tail
    else substr 0 1 ds ++ "." ++ slice_from 1 ds ++ tail.

Definition toString (x : Number) : string :=
  match x with
  | NaN => "NaN"
  | Infinity neg => if neg then "-Infinity" else "Infinity"
  | Fin neg m e =>
      if m =? 0 then "0"
      else
        let '(p, q) := frac_of m e in
        let n := decade 8 (decade_guess p q) p q in
        let '(s, k, n') := shortest 17 1 n m e in
        (if neg then "-" else "") ++ format_digits s k n'
  end.

End JS.


(** ** viem: [parseUnits]

    [parseUnits(value, decimals)] of viem (utils/unit/parseUnits.ts), the
    library call on the amount path of [executePayment].  It works on the
    text of the decimal: split at the point, drop trailing zeros of the
    fraction, round when the fraction is longer than [decimals], pad when
    shorter, and read integer and fraction glued together as a BigInt.
    [None] stands for the thrown [InvalidDecimalNumberError]. *)

Module Viem.

(** The syntax test of [parseUnits]: an optional minus sign, a run of
    digits, an optional point, a run of digits, end of input. *)
Definition decimal_syntax (value : string) : bool :=
  let s1 := match value with String "-" r => r | _ => value end in
  let '(_, _, r1) := JS.scan_digits s1 0 0 in
  let r2 := match r1 with String "." r => r | _ => r1 end in
  let '(_, _, r3) := JS.scan_digits r2 0 0 in
  match r3 with EmptyString => true | _ => false end.

(** [value.split('.')], first two parts. *)
Fixpoint split_dot (s : string) : string * option string :=
  match s with
  | EmptyString => ("", None)
  | String c r =>
      if Ascii.eqb c "." then ("", Some r)
      else let '(a, b) := split_dot r in (String c a, b)
  end.

(** [fraction.replace(/(0+)$/, '')] *)
Fixpoint strip_trailing_zeros (s : string) : string :=
  match s with
  | EmptyString => ""
  | String c r =>
      let r' := strip_trailing_zeros r in
      match r' with
      | EmptyString => if Ascii.eqb c "0" then "" else String c ""
      | _ => String c r'
      end
  end.

Definition len (s : string) : Z := Z.of_nat (String.length s).

Definition padStart (s : string) (target : Z) : string :=
  JS.zeros (Z.to_nat (target - len s)) ++ s.

Definition padEnd (s : string) (target : Z) : string :=
  s ++ JS.zeros (Z.to_nat (target - len s)).

(** [BigInt(text)] for a string of decimal digits (the empty string is 0). *)
Definition BigInt (digits : string) : Z :=
  let '(v, _, _) := JS.scan_digits digits 0 0 in v.

(** [Math.round(Number(text))] for digits-point-digits text, where
    [Number(text)] and [parseFloat(text)] agree; 0 stands in for NaN,
    which only arises for the text ["."] and compares unequal to 1. *)
Definition round_text (text : string) : Z :=
  match JS.Math_round (JS.parseFloat text) with
  | Some r => r
  | None => 0
  end.

Definition parseUnits (value : string) (decimals : Z) : option Z :=
  if negb (decimal_syntax value) then None
  else
    let '(integer0, fraction0) := split_dot value in
    let fraction1 := match fraction0 with Some f => f | None => "0" end in
    let negative := JS.starts_with "-" integer0 in
    let integer1 := if negative then JS.slice_from 1 integer0 else integer0 in
    let fraction2 := strip_trailing_zeros fraction1 in
    let '(integer, fraction) :=
      if decimals =? 0 then
        ((if round_text ("." ++ fraction2) =? 1
          then JS.Z_to_string (BigInt integer1 + 1) else integer1), "")
      else if decimals <? len fraction2 then
        let left := JS.substr 0 (decimals - 1) fraction2 in
        let unit := JS.substr (decimals - 1) 1 fraction2 in
        let right := JS.slice_from decimals fraction2 in
        let rounded := round_text (unit ++ "." ++ right) in
        let fraction3 :=
          if 9 <? rounded
          then padStart (JS.Z_to_string (BigInt left + 1) ++ "0") (len left + 1)
          else left ++ JS.Z_to_string rounded in
        let '(fraction4, integer2) :=
          if decimals <? len fraction3
          then (JS.slice_from 1 fraction3, JS.Z_to_string (BigInt integer1 + 1))
          else (fraction3, integer1) in
        (integer2, JS.substr 0 decimals fraction4)
      else (integer1, padEnd fraction2 decimals) in
    let magnitude := BigInt (integer ++ fraction) in
    Some (if negative then - magnitude else magnitude).

End Viem.

(** ** The intent record and the store

    The [PaymentIntent] model as the services read and write it.  Dates are
    milliseconds since the epoch. *)

Inductive Status : Type :=
| PENDING
| SOL_SETTLED
| BASE_SETTLING
| BASE_SETTLED
| EXPIRED.

#[export] Instance Status_eq_dec : EqDecision Status.
Proof. solve_decision. Defined.

Definition status_name (s : Status) : string :=
  match s with
  | PENDING => "PENDING"
  | SOL_SETTLED => "SOL_SETTLED"
  | BASE_SETTLING => "BASE_SETTLING"
  | BASE_SETTLED => "BASE_SETTLED"
  | EXPIRED => "EXPIRED"
  end.

Record PaymentIntent : Type := mkIntent {
  intent_id : string;
  amount : string;
  merchant_recipient : string;
  payer_chain : string;
  target_chain : string;
  status : Status;
  payer_wallet : option string;
  sol_settle_proof : option string;
  sol_tx_hash : option string;
  base_tx_hash : option string;
  base_settle_proof : option string;
  created_at : Z;
  sol_settled_at : option Z;
  base_settled_at : option Z;
  completed_at : option Z;
  expires_at : option Z
}.

(** The [data] object of a Prisma [update]: the columns it names. *)
Record IntentData : Type := mkData {
  d_status : option Status;
  d_payer_wallet : option (option string);
  d_sol_settle_proof : option string;
  d_sol_tx_hash : option string;
  d_sol_settled_at : option Z;
  d_base_tx_hash : option string;
  d_base_settle_proof : option string;
  d_base_settled_at : option Z;
  d_completed_at : option Z
}.

Definition no_data : IntentData :=
  mkData None None None None None None None None None.

Definition data_status (s : Status) : IntentData :=
  mkData (Some s) None None None None None None None None.

Definition or_keep {A : Type} (new : option A) (old : A) : A :=
  match new with Some v => v | None => old end.

Definition or_keep_opt {A : Type} (new : option A) (old : option A) : option A :=
  match new with Some v => Some v | None => old end.

Definition apply_data (d : IntentData) (i : PaymentIntent) : PaymentIntent :=
  {| intent_id := intent_id i;
     amount := amount i;
     merchant_recipient := merchant_recipient i;
     payer_chain := payer_chain i;
     target_chain := target_chain i;
     status := or_keep (d_status d) (status i);
     payer_wallet := or_keep (d_payer_wallet d) (payer_wallet i);
     sol_settle_proof := or_keep_opt (d_sol_settle_proof d) (sol_settle_proof i);
     sol_tx_hash := or_keep_opt (d_sol_tx_hash d) (sol_tx_hash i);
     base_tx_hash := or_keep_opt (d_base_tx_hash d) (base_tx_hash i);
     base_settle_proof := or_keep_opt (d_base_settle_proof d) (base_settle_proof i);
     created_at := created_at i;
     sol_settled_at := or_keep_opt (d_sol_settled_at d) (sol_settled_at i);
     base_settled_at := or_keep_opt (d_base_settled_at d) (base_settled_at i);
     completed_at := or_keep_opt (d_completed_at d) (completed_at i);
     expires_at := expires_at i |}.

(** ** Effects

    What leaves the process is recorded in a trace, oldest first: the
    request to the facilitator, the entry into [executePayment], the three
    chain calls, and the task handed to [setImmediate]. *)

Inductive Event : Type :=
| EvFetch (url : string) (proof : string)
| EvExecute (intentId : string)
| EvBalanceOf (contract : string) (owner : string)
| EvTransfer (contract : string) (to : string) (value : Z)
| EvWaitReceipt (hash : string)
| EvSetImmediate (intentId : string).

#[export] Instance Event_eq_dec : EqDecision Event.
Proof. solve_decision. Defined.

Record World : Type := mkWorld {
  db : gmap string PaymentIntent;
  trace : list Event
}.

(** [Error] stands for [Error] and for the classes that extend it
    without being HTTP exceptions (TypeError, SyntaxError, the errors of
    viem): the services read nothing of them but [message]. *)
Inductive Exception : Type :=
| Error (msg : string)
| NotFoundException (msg : string)
| BadRequestException (msg : string)
| InternalServerErrorException (msg : string)
| PrismaClientKnownRequestError (msg : string).

Definition message (e : Exception) : string :=
  match e with
  | Error m | NotFoundException m | BadRequestException m
  | InternalServerErrorException m | PrismaClientKnownRequestError m => m
  end.

Inductive Result (A : Type) : Type :=
| Ok (a : A)
| Throw (e : Exception).
Arguments Ok {A} a.
Arguments Throw {A} e.

(** A computation reads and writes the world and returns or throws. *)
Definition M (A : Type) : Type := World -> World * Result A.

Definition ret {A : Type} (a : A) : M A := fun w => (w, Ok a).

Definition throw {A : Type} (e : Exception) : M A := fun w => (w, Throw e).

Definition bind {A B : Type} (c : M A) (k : A -> M B) : M B :=
  fun w =>
    match c w with
    | (w', Ok a) => k a w'
    | (w', Throw e) => (w', Throw e)
    end.

Definition try_catch {A : Type} (c : M A) (handler : Exception -> M A) : M A :=
  fun w =>
    match c w with
    | (w', Ok a) => (w', Ok a)
    | (w', Throw e) => handler e w'
    end.

Notation "x <- c ;; k" := (bind c (fun x => k))
  (at level 20, c at level 99, k at level 200, only parsing).
Notation "'do_' c ;; k" := (bind c (fun _ => k))
  (at level 20, c at level 99, k at level 200, only parsing).

Definition emit (ev : Event) : M unit :=
  fun w => (mkWorld (db w) (trace w ++ [ev]), Ok tt).

Definition lift {A : Type} (r : Result A) : M A := fun w => (w, r).

(** *** Prisma client calls on [paymentIntent] *)

Definition findUnique (id : string) : M (option PaymentIntent) :=
  fun w => (w, Ok (db w !! id)).

(** [update] by [intent_id]; Prisma rejects when no record has the id. *)
Definition update (id : string) (d : IntentData) : M PaymentIntent :=
  fun w =>
    match db w !! id with
    | Some i =>
        let i' := apply_data d i in
        (mkWorld (<[id := i']> (db w)) (trace w), Ok i')
    | None =>
        (w, Throw (PrismaClientKnownRequestError "Record to update not found."))
    end.

(** Modelled from the spec: the Prisma schema is not among the sources.
    [intent_id] is the unique key the services look records up by, so a
    second record with the same id is rejected; [created_at] is set at
    creation and every leg-specific column starts unset (spec, section 3). *)
Definition create (i : PaymentIntent) : M PaymentIntent :=
  fun w =>
    match db w !! intent_id i with
    | Some _ =>
        (w, Throw (PrismaClientKnownRequestError "Unique constraint failed on the fields: (`intent_id`)"))
    | None => (mkWorld (<[intent_id i := i]> (db w)) (trace w), Ok i)
    end.

(** ** What the outside answers

    The clock, the UUID generator, the facilitator and the chain are
    inputs of each call, and so is the version of viem that is
    installed, which the library writes into the message of its errors. *)

(** What the service reads of a JSON body that is not null:
    [body_message] is the text [new Error] makes of its [message] when
    there is one, [body_valid] says whether its [valid] is truthy.  A
    body that is a number, a string, a boolean or an array has neither. *)
Record JsonBody : Type := mkBody {
  body_message : option string;
  body_valid : bool
}.

(** What [fetch] and [response.json()] give: a rejected request; a
    response whose body is a JSON value with its [message] and [valid]
    ([None] for the empty body, which is no JSON); a response whose body
    is the JSON value null; a response whose body is some other text
    that is no JSON, with the message of the syntax error. *)
Inductive FetchOutcome : Type :=
| FetchRejects (msg : string)
| FetchResponse (status : Z) (body : option JsonBody)
| FetchResponseNull (status : Z)
| FetchResponseNotJson (status : Z) (syntaxError : string).

Record Env : Type := mkEnv {
  now : Z;
  now_completed : Z;
  uuid : string;
  fetch_verify : string -> FetchOutcome;
  account_address : Result string;
  balanceOf : Result Z;
  writeContract : string -> Z -> Result string;
  waitForTransactionReceipt : string -> Result unit;
  viem_version : string
}.

Record Config : Type := mkConfig {
  base_network : option string;
  solana_network : option string;
  x402_facilitatorUrl : option string
}.

Definition config_get (v : option string) (dflt : string) : string :=
  match v with Some s => s | None => dflt end.

(** [a || b] on strings: the empty string is falsy. *)
Definition truthy (s : option string) : bool :=
  match s with
  | Some s' => negb (String.eqb s' "")
  | None => false
  end.

Definition or_else (s : option string) (dflt : string) : string :=
  match s with
  | Some s' => if String.eqb s' "" then dflt else s'
  | None => dflt
  end.

(** ** BasePaymentService *)

Record PaymentRequest : Type := mkRequest {
  req_intentId : string;
  req_amount : JS.Number;
  req_recipientAddress : string
}.

Record PaymentResult : Type := mkResult {
  txHash : string;
  proof : option string
}.

Definition network (cfg : Config) : string :=
  config_get (base_network cfg) "base-sepolia".

Definition usdcContractAddress (cfg : Config) : string :=
  if String.eqb (network cfg) "base"
  then "0x833589fcd6edb6e08f4c7c32d4f71b54bda02913"
  else "0x036CbD53842c5426634e7929541eC2318f3dCF7e".

Definition nl : string := String "010"%char "".

(** viem's [BaseError]: the message is the short message, a blank line
    and the version of the library. *)
Definition BaseError_message (version shortMessage : string) : string :=
  shortMessage ++ nl ++ nl ++ "Version: viem@" ++ version.

(** An error of viem's own, as it is thrown where the library is
    installed in the version of the environment. *)
Definition thrown_by_viem {A : Type} (env : Env) (r : Result A) : Result A :=
  match r with
  | Ok a => Ok a
  | Throw e => Throw (Error (BaseError_message (viem_version env) (message e)))
  end.

(** [parseUnits(request.amount.toString(), 6)]: USDC has 6 decimals.  A
    text that is no decimal number gives viem's
    [InvalidDecimalNumberError], here with its short message;
    [executePayment] throws it with the version line added. *)
Definition amountInUsdc (amount : JS.Number) : Result Z :=
  let text := JS.toString amount in
  match Viem.parseUnits text 6 with
  | Some v => Ok v
  | None => Throw (Error ("Number `" ++ text ++ "` is not a valid decimal number."))
  end.

Definition insufficient_message (balance : Z) (amount : JS.Number) : string :=
  let balanceInUsdc :=
    JS.div (JS.Number_of_bigint balance) (JS.of_decimal false 1 6) in
  "Insufficient USDC balance: " ++ JS.toString balanceInUsdc
    ++ " USDC (need " ++ JS.toString amount ++ " USDC)".

(** The [catch] of [executePayment] logs the error and throws it again. *)
Definition executePayment (cfg : Config) (env : Env) (request : PaymentRequest)
  : M PaymentResult :=
  do_ emit (EvExecute (req_intentId request)) ;;
  try_catch
    (account <- lift (account_address env) ;;
     amountUnits <- lift (thrown_by_viem env (amountInUsdc (req_amount request))) ;;
     do_ emit (EvBalanceOf (usdcContractAddress cfg) account) ;;
     balance <- lift (balanceOf env) ;;
     if JS.lt (JS.Number_of_bigint balance) (JS.Number_of_bigint amountUnits)
     then throw (Error (insufficient_message balance (req_amount request)))
     else
       do_ emit (EvTransfer (usdcContractAddress cfg)
                   (req_recipientAddress request) amountUnits) ;;
       hash <- lift (writeContract env (req_recipientAddress request) amountUnits) ;;
       do_ emit (EvWaitReceipt hash) ;;
       do_ lift (waitForTransactionReceipt env hash) ;;
       ret (mkResult hash (Some ("base_settlement_" ++ hash))))
    (fun error => throw error).

(** ** PaymentIntentsService *)

Record CreateIntentDto : Type := mkCreateDto {
  dto_amount : JS.Number;
  dto_merchant_recipient : string
}.

Record SolanaProofDto : Type := mkProofDto {
  settle_proof : string;
  tx_hash : string;
  dto_payer_wallet : option string
}.

Record CreatedIntent : Type := mkCreated {
  c_intent_id : string;
  c_amount : string;
  c_merchant_recipient : string;
  c_status : Status;
  c_created_at : Z;
  c_expires_at : option Z
}.

Record IntentView : Type := mkView {
  v_intent_id : string;
  v_amount : string;
  v_merchant_recipient : string;
  v_payer_wallet : option string;
  v_status : Status;
  v_sol_tx_hash : option string;
  v_base_tx_hash : option string;
  v_created_at : Z;
  v_sol_settled_at : option Z;
  v_base_settled_at : option Z;
  v_completed_at : option Z;
  v_expires_at : option Z
}.

Record SubmitAck : Type := mkSubmitAck {
  s_success : bool;
  s_message : string;
  s_intent_id : string;
  s_status : Status
}.

Record TriggerAck : Type := mkTriggerAck {
  t_success : bool;
  t_message : string;
  t_base_tx_hash : option string;
  t_status : Status
}.

Record LegReceipt : Type := mkLeg {
  leg_tx_hash : string;
  leg_settle_proof : option string;
  leg_settled_at : option Z;
  leg_explorer_url : string
}.

Record Receipt : Type := mkReceipt {
  r_intent_id : string;
  r_amount : string;
  r_merchant_recipient : string;
  r_payer_wallet : option string;
  r_status : Status;
  r_solana_payment : option LegReceipt;
  r_base_payment : option LegReceipt;
  r_created_at : Z;
  r_completed_at : option Z;
  r_expires_at : option Z
}.

Definition facilitatorUrl (cfg : Config) : string :=
  config_get (x402_facilitatorUrl cfg) "https://x402.org/facilitator".

Definition ten_minutes : Z := 10 * 60 * 1000.

(** The [data] of the [create] call; [created_at] is the schema default. *)
Definition new_intent (env : Env) (createIntentDto : CreateIntentDto) : PaymentIntent :=
  {| intent_id := uuid env;
     amount := JS.toString (dto_amount createIntentDto);
     merchant_recipient := dto_merchant_recipient createIntentDto;
     payer_chain := "solana";
     target_chain := "base";
     status := PENDING;
     payer_wallet := None;
     sol_settle_proof := None;
     sol_tx_hash := None;
     base_tx_hash := None;
     base_settle_proof := None;
     created_at := now env;
     sol_settled_at := None;
     base_settled_at := None;
     completed_at := None;
     expires_at := Some (now env + ten_minutes) |}.

Definition createIntent (env : Env) (createIntentDto : CreateIntentDto)
  : M CreatedIntent :=
  intent <- create (new_intent env createIntentDto) ;;
  ret {| c_intent_id := intent_id intent;
         c_amount := amount intent;
         c_merchant_recipient := merchant_recipient intent;
         c_status := status intent;
         c_created_at := created_at intent;
         c_expires_at := expires_at intent |}.

(** [intent.expires_at && new Date() > intent.expires_at] *)
Definition is_past (env : Env) (i : PaymentIntent) : bool :=
  match expires_at i with
  | Some t => t <? now env
  | None => false
  end.

Definition view_of (i : PaymentIntent) (st : Status) : IntentView :=
  {| v_intent_id := intent_id i;
     v_amount := amount i;
     v_merchant_recipient := merchant_recipient i;
     v_payer_wallet := payer_wallet i;
     v_status := st;
     v_sol_tx_hash := sol_tx_hash i;
     v_base_tx_hash := base_tx_hash i;
     v_created_at := created_at i;
     v_sol_settled_at := sol_settled_at i;
     v_base_settled_at := base_settled_at i;
     v_completed_at := completed_at i;
     v_expires_at := expires_at i |}.

Definition getIntent (env : Env) (intentId : string) : M (option IntentView) :=
  found <- findUnique intentId ;;
  match found with
  | None => ret None
  | Some intent =>
      if is_past env intent && bool_decide (status intent = PENDING) then
        do_ update intentId (data_status EXPIRED) ;;
        ret (Some (view_of intent EXPIRED))
      else ret (Some (view_of intent (status intent)))
  end.

Definition response_ok (status : Z) : bool := (200 <=? status) && (status <=? 299).

Definition status_text (status : Z) : string :=
  if status <? 0 then "-" ++ JS.Z_to_string (- status) else JS.Z_to_string status.

(** The [catch] of [verifyX402Proof] logs the error and throws it again.
    A body that is not JSON makes [response.json()] reject: on a failed
    response the rejection is replaced by the empty object, on a
    successful one it is thrown.  A body that is the JSON value null
    makes the property access throw a TypeError. *)
Definition verifyX402Proof (cfg : Config) (env : Env) (proof : string) : M unit :=
  try_catch
    (do_ emit (EvFetch (facilitatorUrl cfg ++ "/verify") proof) ;;
     match fetch_verify env proof with
     | FetchRejects msg => throw (Error msg)
     | FetchResponse st body =>
         if negb (response_ok st) then
           let errorMessage :=
             match body with Some b => body_message b | None => None end in
           throw (Error (or_else errorMessage
                           ("Verification failed with status " ++ status_text st)))
         else
           match body with
           | None => throw (Error "Unexpected end of JSON input")
           | Some data =>
               if body_valid data then ret tt
               else throw (Error "Proof verification failed")
           end
     | FetchResponseNull st =>
         if negb (response_ok st) then
           throw (Error "Cannot read properties of null (reading 'message')")
         else throw (Error "Cannot read properties of null (reading 'valid')")
     | FetchResponseNotJson st syntaxError =>
         if negb (response_ok st) then
           throw (Error ("Verification failed with status " ++ status_text st))
         else throw (Error syntaxError)
     end)
    (fun error => throw error).

(** The [data] of the [update] that records the Solana leg. *)
Definition proof_data (env : Env) (dto : SolanaProofDto) : IntentData :=
  {| d_status := Some SOL_SETTLED;
     d_payer_wallet :=
       Some (if truthy (dto_payer_wallet dto) then dto_payer_wallet dto else None);
     d_sol_settle_proof := Some (settle_proof dto);
     d_sol_tx_hash := Some (tx_hash dto);
     d_sol_settled_at := Some (now env);
     d_base_tx_hash := None;
     d_base_settle_proof := None;
     d_base_settled_at := None;
     d_completed_at := None |}.

Definition submitSolanaProof (cfg : Config) (env : Env) (intentId : string)
    (solanaProofDto : SolanaProofDto) : M SubmitAck :=
  found <- findUnique intentId ;;
  match found with
  | None => throw (NotFoundException ("Payment intent " ++ intentId ++ " not found"))
  | Some intent =>
      if negb (bool_decide (status intent = PENDING)) then
        throw (BadRequestException
                 ("Payment intent " ++ intentId
                  ++ " is not in PENDING status (current: "
                  ++ status_name (status intent) ++ ")"))
      else
        do_ try_catch (verifyX402Proof cfg env (settle_proof solanaProofDto))
              (fun error =>
                 throw (BadRequestException
                          ("Invalid settlement proof: " ++ message error))) ;;
        updatedIntent <- update intentId (proof_data env solanaProofDto) ;;
        do_ emit (EvSetImmediate intentId) ;;
        ret {| s_success := true;
               s_message := "Solana payment verified";
               s_intent_id := intent_id updatedIntent;
               s_status := status updatedIntent |}
  end.

Definition request_of (intent : PaymentIntent) : PaymentRequest :=
  {| req_intentId := intent_id intent;
     req_amount := JS.parseFloat (amount intent);
     req_recipientAddress := merchant_recipient intent |}.

Definition settled_data (env : Env) (result : PaymentResult) : IntentData :=
  {| d_status := Some BASE_SETTLED;
     d_payer_wallet := None;
     d_sol_settle_proof := None;
     d_sol_tx_hash := None;
     d_sol_settled_at := None;
     d_base_tx_hash := Some (txHash result);
     d_base_settle_proof := Some (or_else (proof result) "base_settlement_confirmed");
     d_base_settled_at := Some (now env);
     d_completed_at := Some (now_completed env) |}.

Definition triggerBasePayment (cfg : Config) (env : Env) (intentId : string)
  : M TriggerAck :=
  found <- findUnique intentId ;;
  match found with
  | None => throw (NotFoundException ("Payment intent " ++ intentId ++ " not found"))
  | Some intent =>
      if negb (bool_decide (status intent = SOL_SETTLED)) then
        throw (BadRequestException
                 ("Solana payment not settled for intent " ++ intentId
                  ++ " (current status: " ++ status_name (status intent) ++ ")"))
      else
        do_ update intentId (data_status BASE_SETTLING) ;;
        try_catch
          (result <- executePayment cfg env (request_of intent) ;;
           updatedIntent <- update intentId (settled_data env result) ;;
           ret {| t_success := true;
                  t_message := "Base payment completed";
                  t_base_tx_hash := base_tx_hash updatedIntent;
                  t_status := status updatedIntent |})
          (fun error =>
             do_ update intentId (data_status SOL_SETTLED) ;;
             throw (InternalServerErrorException
                      ("Base payment failed: " ++ message error)))
  end.

Definition leg_of (tx : option string) (settle : option string)
    (settled_at : option Z) (explorerBase : string) : option LegReceipt :=
  match tx with
  | Some h =>
      if String.eqb h "" then None
      else Some {| leg_tx_hash := h;
                   leg_settle_proof := settle;
                   leg_settled_at := settled_at;
                   leg_explorer_url := explorerBase ++ "/tx/" ++ h |}
  | None => None
  end.

Definition receipt_of (cfg : Config) (intent : PaymentIntent) : Receipt :=
  let network := config_get (solana_network cfg) "devnet" in
  let baseNetwork := config_get (base_network cfg) "base-sepolia" in
  let solanaExplorerBase :=
    if String.eqb network "mainnet-beta"
    then "https://solscan.io" else "https://solscan.io?cluster=devnet" in
  let baseExplorerBase :=
    if String.eqb baseNetwork "base"
    then "https://basescan.org" else "https://sepolia.basescan.org" in
  {| r_intent_id := intent_id intent;
     r_amount := amount intent;
     r_merchant_recipient := merchant_recipient intent;
     r_payer_wallet := payer_wallet intent;
     r_status := status intent;
     r_solana_payment :=
       leg_of (sol_tx_hash intent) (sol_settle_proof intent)
         (sol_settled_at intent) solanaExplorerBase;
     r_base_payment :=
       leg_of (base_tx_hash intent) (base_settle_proof intent)
         (base_settled_at intent) baseExplorerBase;
     r_created_at := created_at intent;
     r_completed_at := completed_at intent;
     r_expires_at := expires_at intent |}.

Definition getReceipt (cfg : Config) (intentId : string) : M (option Receipt) :=
  found <- findUnique intentId ;;
  match found with
  | None => ret None
  | Some intent => ret (Some (receipt_of cfg intent))
  end.

(** ** Request validation and the controller

    The global [ValidationPipe] checks the body of [POST /intents] against
    the decorators of [CreateIntentDto] before the controller calls the
    service, and answers a failed check with a [BadRequestException]. *)

(** [@IsNumber()] and [@Min(0.01)] *)
Definition one_cent : JS.Number := JS.of_decimal false 1 (-2).

Definition IsNumber (a : JS.Number) : bool := JS.is_finite a.

Definition Min_one_cent (a : JS.Number) : bool := JS.ge a one_cent.

Definition is_hex (c : ascii) : bool :=
  let n := N_of_ascii c in
  (((48 <=? n) && (n <=? 57)) || ((97 <=? n) && (n <=? 102))
   || ((65 <=? n) && (n <=? 70)))%N.

Fixpoint all_hex (s : string) : bool :=
  match s with
  | EmptyString => true
  | String c r => is_hex c && all_hex r
  end.

(** [@Matches] with the pattern: 0x, then exactly 40 hex characters. *)
Definition Matches_evm_address (s : string) : bool :=
  match s with
  | String "0" (String "x" r) => (String.length r =? 40)%nat && all_hex r
  | _ => false
  end.

Definition validate_CreateIntentDto (dto : CreateIntentDto) : list string :=
  (if IsNumber (dto_amount dto) then []
   else ["amount must be a number conforming to the specified constraints"])
  ++ (if Min_one_cent (dto_amount dto) then []
      else ["Amount must be at least $0.01"])
  ++ (if Matches_evm_address (dto_merchant_recipient dto) then []
      else ["merchant_recipient must be a valid EVM address (0x + 40 hex chars)"]).

Definition valid_CreateIntentDto (dto : CreateIntentDto) : bool :=
  IsNumber (dto_amount dto) && Min_one_cent (dto_amount dto)
  && Matches_evm_address (dto_merchant_recipient dto).

Definition post_intents (env : Env) (dto : CreateIntentDto) : M CreatedIntent :=
  match validate_CreateIntentDto dto with
  | [] => createIntent env dto
  | errors => throw (BadRequestException (String.concat ", " errors))
  end.

(** ** Sequences of calls *)

Inductive Op : Type :=
| OpCreate (env : Env) (dto : CreateIntentDto)
| OpGet (env : Env) (intentId : string)
| OpSubmit (env : Env) (intentId : string) (dto : SolanaProofDto)
| OpTrigger (env : Env) (intentId : string)
| OpReceipt (intentId : string).

Definition run_op (cfg : Config) (o : Op) (w : World) : World :=
  match o with
  | OpCreate env dto => fst (post_intents env dto w)
  | OpGet env id => fst (getIntent env id w)
  | OpSubmit env id dto => fst (submitSolanaProof cfg env id dto w)
  | OpTrigger env id => fst (triggerBasePayment cfg env id w)
  | OpReceipt id => fst (getReceipt cfg id w)
  end.

Definition run_ops (cfg : Config) (ops : list Op) (w : World) : World :=
  fold_left (fun w o => run_op cfg o w) ops w.

Definition empty_world : World := mkWorld ∅ [].

(** [triggerBasePayment] called once per environment, each call finished
    before the next starts. *)
Fixpoint trigger_each (cfg : Config) (envs : list Env) (intentId : string)
    (w : World) : World * list (Result TriggerAck) :=
  match envs with
  | [] => (w, [])
  | env :: rest =>
      let '(w1, r) := triggerBasePayment cfg env intentId w in
      let '(w2, rs) := trigger_each cfg rest intentId w1 in
      (w2, r :: rs)
  end.

Definition count_execute (intentId : string) (tr : list Event) : nat :=
  length (List.filter (fun ev => bool_decide (ev = EvExecute intentId)) tr).

Definition is_transfer (ev : Event) : bool :=
  match ev with EvTransfer _ _ _ => true | _ => false end.

Definition transfers (tr : list Event) : list Event :=
  List.filter is_transfer tr.

(** ** [triggerBasePayment] between its await points

    The function gives up control at every [await]; another request can
    run there.  A task is what remains of one call: its next store or
    chain action and the values it already holds, among them the
    [intent] it read at the start. *)

Inductive TriggerTask : Type :=
| TFind (intentId : string)
| TMark (intentId : string) (intent : PaymentIntent)
| TExec (intentId : string) (intent : PaymentIntent)
| TSettle (intentId : string) (result : PaymentResult)
| TRollback (intentId : string) (error : Exception)
| TDone (outcome : Result TriggerAck).

Definition step_trigger (cfg : Config) (env : Env) (t : TriggerTask) (w : World)
  : World * TriggerTask :=
  match t with
  | TFind intentId =>
      match findUnique intentId w with
      | (w', Ok None) =>
          (w', TDone (Throw (NotFoundException
                               ("Payment intent " ++ intentId ++ " not found"))))
      | (w', Ok (Some intent)) =>
          if negb (bool_decide (status intent = SOL_SETTLED)) then
            (w', TDone (Throw (BadRequestException
               ("Solana payment not settled for intent " ++ intentId
                ++ " (current status: " ++ status_name (status intent) ++ ")"))))
          else (w', TMark intentId intent)
      | (w', Throw e) => (w', TDone (Throw e))
      end
  | TMark intentId intent =>
      match update intentId (data_status BASE_SETTLING) w with
      | (w', Ok _) => (w', TExec intentId intent)
      | (w', Throw e) => (w', TDone (Throw e))
      end
  | TExec intentId intent =>
      match executePayment cfg env (request_of intent) w with
      | (w', Ok result) => (w', TSettle intentId result)
      | (w', Throw e) => (w', TRollback intentId e)
      end
  | TSettle intentId result =>
      match update intentId (settled_data env result) w with
      | (w', Ok updatedIntent) =>
          (w', TDone (Ok {| t_success := true;
                            t_message := "Base payment completed";
                            t_base_tx_hash := base_tx_hash updatedIntent;
                            t_status := status updatedIntent |}))
      | (w', Throw e) => (w', TRollback intentId e)
      end
  | TRollback intentId error =>
      match update intentId (data_status SOL_SETTLED) w with
      | (w', Ok _) =>
          (w', TDone (Throw (InternalServerErrorException
                               ("Base payment failed: " ++ message error))))
      | (w', Throw e) => (w', TDone (Throw e))
      end
  | TDone r => (w, TDone r)
  end.

Definition is_done (t : TriggerTask) : bool :=
  match t with TDone _ => true | _ => false end.

(** One step of the task at position [i] of the pool. *)
Definition step_pool (cfg : Config) (env : Env) (i : nat)
    (st : list TriggerTask * World) : list TriggerTask * World :=
  let '(pool, w) := st in
  match pool !! i with
  | Some t =>
      let '(w', t') := step_trigger cfg env t w in
      (<[i := t']> pool, w')
  | None => (pool, w)
  end.

(** A schedule names, step by step, the task that runs next. *)
Definition run_schedule (cfg : Config) (env : Env) (schedule : list nat)
    (st : list TriggerTask * World) : list TriggerTask * World :=
  fold_left (fun st i => step_pool cfg env i st) schedule st.

(** The schedule that runs [n] tasks one after another, each to its end
    (a task needs at most five steps). *)
Definition sequential_schedule (n : nat) : list nat :=
  flat_map (fun i => replicate 5 i) (seq 0 n).

Fixpoint run_alone (cfg : Config) (env : Env) (fuel : nat) (t : TriggerTask)
    (w : World) : World * TriggerTask :=
  match fuel with
  | O => (w, t)
  | S f =>
      let '(w', t') := step_trigger cfg env t w in
      run_alone cfg env f t' w'
  end.

(** The specification's reading of concurrent triggers: whatever the
    interleaving of [n] calls on an intent that is SOL_SETTLED, once all
    have finished [executePayment] was entered exactly once. *)
Definition executes_once_under_every_schedule : Prop :=
  forall cfg env w intentId intent (n : nat) schedule pool' w',
    db w !! intentId = Some intent ->
    status intent = SOL_SETTLED ->
    (0 < n)%nat ->
    run_schedule cfg env schedule (replicate n (TFind intentId), w) = (pool', w') ->
    forallb is_done pool' = true ->
    (count_execute intentId (trace w') = count_execute intentId (trace w) + 1)%nat.

(** What a call of [executePayment] sends out and answers, and what a call
    of [verifyX402Proof] answers: neither reads the store. *)
Definition execute_events (cfg : Config) (env : Env) (request : PaymentRequest)
  : list Event :=
  trace (fst (executePayment cfg env request empty_world)).

Definition execute_result (cfg : Config) (env : Env) (request : PaymentRequest)
  : Result PaymentResult :=
  snd (executePayment cfg env request empty_world).

Definition verify_result (cfg : Config) (env : Env) (proof : string) : Result unit :=
  snd (verifyX402Proof cfg env proof empty_world).

(** Two records that agree on every column but [status]. *)
Definition same_but_status (a b : PaymentIntent) : Prop :=
  intent_id a = intent_id b /\ amount a = amount b
  /\ merchant_recipient a = merchant_recipient b
  /\ payer_chain a = payer_chain b /\ target_chain a = target_chain b
  /\ payer_wallet a = payer_wallet b
  /\ sol_settle_proof a = sol_settle_proof b /\ sol_tx_hash a = sol_tx_hash b
  /\ base_tx_hash a = base_tx_hash b /\ base_settle_proof a = base_settle_proof b
  /\ created_at a = created_at b /\ sol_settled_at a = sol_settled_at b
  /\ base_settled_at a = base_settled_at b /\ completed_at a = completed_at b
  /\ expires_at a = expires_at b.

(** The chain pair every stored intent carries. *)
Definition chain_pair_fixed (w : World) : Prop :=
  forall id i, db w !! id = Some i ->
    payer_chain i = "solana" /\ target_chain i = "base".


(** ** What a finished call may have done to the store

    The status moves a call makes from start to end (BASE_SETTLING is
    entered and left inside [triggerBasePayment]). *)
Inductive transition : Status -> Status -> Prop :=
| stay s : transition s s
| expire : transition PENDING EXPIRED
| settle_source : transition PENDING SOL_SETTLED
| settle_target : transition SOL_SETTLED BASE_SETTLED.

Definition creation_fields_same (a b : PaymentIntent) : Prop :=
  intent_id a = intent_id b /\ amount a = amount b
  /\ merchant_recipient a = merchant_recipient b
  /\ payer_chain a = payer_chain b /\ target_chain a = target_chain b
  /\ created_at a = created_at b /\ expires_at a = expires_at b.

Inductive db_change (m : gmap string PaymentIntent)
  : gmap string PaymentIntent -> Prop :=
| change_none : db_change m m
| change_update id i i' :
    m !! id = Some i ->
    creation_fields_same i' i ->
    transition (status i) (status i') ->
    db_change m (<[id := i']> m)
| change_create i :
    m !! intent_id i = None ->
    payer_chain i = "solana" -> target_chain i = "base" ->
    status i = PENDING ->
    db_change m (<[intent_id i := i]> m).

(** ** Concrete inputs *)

Definition recipient_1 : string := "0x00112233445566778899aabbccddeeff00112233".

Definition id_1 : string := "550e8400-e29b-41d4-a716-446655440000".

Definition verifier_accepts : string -> FetchOutcome :=
  fun _ => FetchResponse 200 (Some (mkBody None true)).

(** A facilitator that accepts, a wallet holding [balance] base units and
    a chain that confirms every transfer. *)
Definition env_funded (t : Z) (balance : Z) : Env :=
  {| now := t;
     now_completed := t;
     uuid := id_1;
     fetch_verify := verifier_accepts;
     account_address := Ok "0x1111111111111111111111111111111111111111";
     balanceOf := Ok balance;
     writeContract := fun _ _ => Ok "0xfeed";
     waitForTransactionReceipt := fun _ => Ok tt;
     viem_version := "2.21.0" |}.

Definition cfg_default : Config := mkConfig None None None.

Definition intent_pending (amt : string) (expires : Z) : PaymentIntent :=
  {| intent_id := id_1;
     amount := amt;
     merchant_recipient := recipient_1;
     payer_chain := "solana";
     target_chain := "base";
     status := PENDING;
     payer_wallet := None;
     sol_settle_proof := None;
     sol_tx_hash := None;
     base_tx_hash := None;
     base_settle_proof := None;
     created_at := 0;
     sol_settled_at := None;
     base_settled_at := None;
     completed_at := None;
     expires_at := Some expires |}.

Definition intent_settled (amt : string) : PaymentIntent :=
  {| intent_id := id_1;
     amount := amt;
     merchant_recipient := recipient_1;
     payer_chain := "solana";
     target_chain := "base";
     status := SOL_SETTLED;
     payer_wallet := Some "CmGgLQL36Y9ubtTsy2zmE46TAxwCBm66onZmPPhUWNqv";
     sol_settle_proof := Some "proof-1";
     sol_tx_hash := Some "S1";
     base_tx_hash := None;
     base_settle_proof := None;
     created_at := 0;
     sol_settled_at := Some 100;
     base_settled_at := None;
     completed_at := None;
     expires_at := Some 600000 |}.

Definition world_of (i : PaymentIntent) : World :=
  mkWorld {[ intent_id i := i ]} [].


(** The specification's reading of lazy expiry: a PENDING intent is
    reported EXPIRED by every [getIntent] at or after [expires_at]. *)
Definition expired_at_or_after : Prop :=
  forall env id w i t,
    db w !! id = Some i ->
    status i = PENDING ->
    expires_at i = Some t ->
    t <= now env ->
    snd (getIntent env id w) = Ok (Some (view_of i EXPIRED)).


(** The specification's reading of [CreateIntent]: every amount above
    zero with a well-formed recipient is accepted. *)
Definition accepts_every_positive_amount : Prop :=
  forall env dto w,
    db w !! uuid env = None ->
    JS.is_finite (dto_amount dto) = true ->
    JS.lt (JS.Fin false 0 JS.emin) (dto_amount dto) = true ->
    Matches_evm_address (dto_merchant_recipient dto) = true ->
    exists created, snd (post_intents env dto w) = Ok created.

(** The facilitator cannot be reached or answers outside 2xx. *)
Definition verifier_unavailable (o : FetchOutcome) : Prop :=
  match o with
  | FetchRejects _ => True
  | FetchResponse st _ | FetchResponseNull st | FetchResponseNotJson st _ =>
      response_ok st = false
  end.

(** The facilitator answers 2xx with [valid] false. *)
Definition verifier_rejects (o : FetchOutcome) : Prop :=
  match o with
  | FetchResponse st (Some b) => response_ok st = true /\ body_valid b = false
  | _ => False
  end.

(** The specification's reading of the two verifier failures: the caller
    can tell them apart by the error [submitSolanaProof] throws. *)
Definition unavailable_told_apart : Prop :=
  forall cfg env1 env2 id dto w i,
    db w !! id = Some i ->
    status i = PENDING ->
    verifier_unavailable (fetch_verify env1 (settle_proof dto)) ->
    verifier_rejects (fetch_verify env2 (settle_proof dto)) ->
    snd (submitSolanaProof cfg env1 id dto w)
      <> snd (submitSolanaProof cfg env2 id dto w).

Definition env_verifier (t : Z) (answer : FetchOutcome) : Env :=
  {| now := t;
     now_completed := t;
     uuid := id_1;
     fetch_verify := fun _ => answer;
     account_address := Ok "0x1111111111111111111111111111111111111111";
     balanceOf := Ok 0;
     writeContract := fun _ _ => Ok "0xfeed";
     waitForTransactionReceipt := fun _ => Ok tt;
     viem_version := "2.21.0" |}.

Definition proof_dto_1 : SolanaProofDto :=
  {| settle_proof := "proof-1"; tx_hash := "S1"; dto_payer_wallet := None |}.


(** The double [Fin false m e] is exactly the integer [z]. *)
Definition same_value (z m e : Z) : Prop :=
  JS.emin <= e /\ m * 2 ^ (e - JS.emin) = z * 2 ^ (- JS.emin).

(** A wallet one base unit short of 9007199254.740993 USDC, on a chain
    that reverts a transfer above the balance. *)
Definition env_one_unit_short : Env :=
  {| now := 5000;
     now_completed := 5000;
     uuid := id_1;
     fetch_verify := verifier_accepts;
     account_address := Ok "0x1111111111111111111111111111111111111111";
     balanceOf := Ok 9007199254740992;
     writeContract := fun _ _ =>
       Throw (Error "execution reverted: ERC20: transfer amount exceeds balance");
     waitForTransactionReceipt := fun _ => Ok tt;
     viem_version := "2.21.0" |}.


(** ** The amount as a decimal

    The value the specification scales: a stored amount written as
    digits, optionally a point and more digits, read as the integer of
    all its digits and the number of digits after the point. *)
Fixpoint all_digits (s : string) : bool :=
  match s with
  | EmptyString => true
  | String c r => JS.is_digit c && all_digits r
  end.

Definition plain_decimal (s : string) : option (Z * Z) :=
  let '(ip, ni, r1) := JS.scan_digits s 0 0 in
  if ni =? 0 then None
  else
    match r1 with
    | EmptyString => Some (ip, 0)
    | String "." r =>
        let '(fp, nf, r2) := JS.scan_digits r ip 0 in
        match r2 with
        | EmptyString => Some (fp, nf)
        | _ => None
        end
    | _ => None
    end.

(** The integer [triggerBasePayment] has [executePayment] hand to the
    token contract for a stored intent: [parseFloat] of the stored
    amount, [toString] of that number, [parseUnits] of that text. *)
Definition transfer_units (intent : PaymentIntent) : Result Z :=
  amountInUsdc (req_amount (request_of intent)).

(** The amount of a request body: the JSON number [text] read as a
    double, as [JSON.parse] hands it to the route.  On the text of a
    decimal number [JSON.parse] and [parseFloat] give the same double,
    the nearest one. *)
Definition JSON_number (text : string) : JS.Number := JS.parseFloat text.

(** The specification's reading of the amount path: the integer handed to
    the token contract is the requested decimal times [10^6], for every
    request the route accepts whose amount is a decimal with at most 6
    fractional digits. *)
Definition requested_amount_scaled_exactly : Prop :=
  forall env text recipient mant nf,
    plain_decimal text = Some (mant, nf) ->
    nf <= 6 ->
    valid_CreateIntentDto (mkCreateDto (JSON_number text) recipient) = true ->
    transfer_units (new_intent env (mkCreateDto (JSON_number text) recipient))
      = Ok (mant * 10 ^ (6 - nf)).

(** The input of a digit scan that reads nothing: empty, or starting
    with a character that is no digit. *)
Definition stops (r : string) : Prop :=
  match r with
  | EmptyString => True
  | String c _ => JS.digit_of c = None
  end.


(** ** The calls, by what they write

    A finished call leaves the store alone or rewrites the one record it was
    called for, in one of four ways: [getIntent] stores EXPIRED over
    PENDING, [submitSolanaProof] records the Solana leg over PENDING,
    [triggerBasePayment] records the Base leg over SOL_SETTLED, and
    [createIntent] adds a record under a fresh id. *)

Definition op_target (o : Op) : string :=
  match o with
  | OpCreate env _ => uuid env
  | OpGet _ id | OpSubmit _ id _ | OpTrigger _ id | OpReceipt id => id
  end.

Inductive db_effect (target : string) (m : gmap string PaymentIntent)
  : gmap string PaymentIntent -> Prop :=
| effect_none : db_effect target m m
| effect_expire i :
    m !! target = Some i -> status i = PENDING ->
    db_effect target m (<[target := apply_data (data_status EXPIRED) i]> m)
| effect_proof i env dto :
    m !! target = Some i -> status i = PENDING ->
    db_effect target m (<[target := apply_data (proof_data env dto) i]> m)
| effect_settle i env res :
    m !! target = Some i -> status i = SOL_SETTLED ->
    proof res = Some ("base_settlement_" ++ txHash res) ->
    db_effect target m
      (<[target := apply_data (settled_data env res)
                     (apply_data (data_status BASE_SETTLING) i)]> m)
| effect_create env dto :
    m !! target = None -> uuid env = target ->
    valid_CreateIntentDto dto = true ->
    db_effect target m (<[target := new_intent env dto]> m).

(** What the columns of a stored intent look like in each status. *)
Definition legs_match_status (i : PaymentIntent) : Prop :=
  match status i with
  | PENDING | EXPIRED =>
      payer_wallet i = None /\ sol_settle_proof i = None
      /\ sol_tx_hash i = None /\ sol_settled_at i = None
      /\ base_tx_hash i = None /\ base_settle_proof i = None
      /\ base_settled_at i = None /\ completed_at i = None
  | SOL_SETTLED =>
      is_Some (sol_settle_proof i) /\ is_Some (sol_tx_hash i)
      /\ is_Some (sol_settled_at i)
      /\ base_tx_hash i = None /\ base_settle_proof i = None
      /\ base_settled_at i = None /\ completed_at i = None
  | BASE_SETTLED =>
      is_Some (sol_settle_proof i) /\ is_Some (sol_tx_hash i)
      /\ is_Some (sol_settled_at i)
      /\ (exists h, base_tx_hash i = Some h
                    /\ base_settle_proof i = Some ("base_settlement_" ++ h))
      /\ is_Some (base_settled_at i) /\ is_Some (completed_at i)
  | BASE_SETTLING => False
  end.

(** What [createIntent] fixed and nothing changes afterwards. *)
Definition created_well (id : string) (i : PaymentIntent) : Prop :=
  intent_id i = id
  /\ payer_chain i = "solana" /\ target_chain i = "base"
  /\ Matches_evm_address (merchant_recipient i) = true
  /\ (exists a, amount i = JS.toString a
                /\ IsNumber a = true /\ Min_one_cent a = true)
  /\ expires_at i = Some (created_at i + ten_minutes).

Definition store_well_formed (w : World) : Prop :=
  forall id i, db w !! id = Some i -> created_well id i /\ legs_match_status i.

(** The source-leg columns. *)
Definition source_leg_same (a b : PaymentIntent) : Prop :=
  payer_wallet a = payer_wallet b
  /\ sol_settle_proof a = sol_settle_proof b
  /\ sol_tx_hash a = sol_tx_hash b
  /\ sol_settled_at a = sol_settled_at b.

(** A status no call moves a record out of. *)
Definition frozen_status (s : Status) : Prop :=
  s = EXPIRED \/ s = BASE_SETTLED \/ s = BASE_SETTLING.

(** The transfers in a trace that a call for [intent] would have made. *)
Definition is_transfer_of (cfg : Config) (intent : PaymentIntent) (ev : Event) : Prop :=
  exists units,
    transfer_units intent = Ok units
    /\ ev = EvTransfer (usdcContractAddress cfg) (merchant_recipient intent) units.

(** The statuses in which a transfer may have been made for an intent. *)
Definition paid_status (s : Status) : Prop :=
  s = SOL_SETTLED \/ s = BASE_SETTLED.

(** Every transfer in the trace is the transfer of a stored intent that is
    past its Solana leg. *)
Definition paid_to_stored (cfg : Config) (w : World) : Prop :=
  forall ev, In ev (transfers (trace w)) ->
    exists id i, db w !! id = Some i /\ paid_status (status i)
                 /\ is_transfer_of cfg i ev.

(** A task that has not yet been through [executePayment]. *)
Definition before_execute (t : TriggerTask) : nat :=
  match t with
  | TFind _ | TMark _ _ | TExec _ _ => 1
  | _ => 0
  end.

Definition is_execute (ev : Event) : bool :=
  match ev with EvExecute _ => true | _ => false end.

(** The number of times [executePayment] was entered, for any intent. *)
Definition executions (tr : list Event) : nat :=
  length (List.filter is_execute tr).

(** ** Concurrent triggers, each with its own answers

    Every [triggerBasePayment] call of the pool runs with the answers the
    outside gives to it and to no other call; a schedule names, step by
    step, the call that runs next, from one await to the following. *)
Definition step_call (cfg : Config) (k : nat)
    (st : list (Env * TriggerTask) * World) : list (Env * TriggerTask) * World :=
  let '(pool, w) := st in
  match pool !! k with
  | Some (env, t) =>
      let '(w', t') := step_trigger cfg env t w in
      (<[k := (env, t')]> pool, w')
  | None => (pool, w)
  end.

Definition run_calls (cfg : Config) (schedule : list nat)
    (st : list (Env * TriggerTask) * World) : list (Env * TriggerTask) * World :=
  fold_left (fun st k => step_call cfg k st) schedule st.

(** The calls as they start: each for an intent id of its own choice. *)
Definition start_calls (calls : list (Env * string)) : list (Env * TriggerTask) :=
  map (fun c => (fst c, TFind (snd c))) calls.

Definition enters_execute (pool : list (Env * TriggerTask)) (k : nat) : bool :=
  match pool !! k with
  | Some (_, TExec _ _) => true
  | _ => false
  end.

(** The calls that took the step into [executePayment] during a run, in
    the order in which they took it. *)
Fixpoint entries (cfg : Config) (schedule : list nat)
    (st : list (Env * TriggerTask) * World) : list nat :=
  match schedule with
  | [] => []
  | k :: rest =>
      (if enters_execute (fst st) k then [k] else [])
        ++ entries cfg rest (step_call cfg k st)
  end.

(** ** The service, one write at a time

    Whatever calls are in flight and however they interleave, the store
    changes by the six Prisma writes of the service and by nothing else:
    the [create] of [createIntent], the EXPIRED update of [getIntent],
    the proof update of [submitSolanaProof], and the BASE_SETTLING, the
    settlement and the rollback update of [triggerBasePayment].  Each is
    keyed by [intent_id] alone.  Calls to the outside add to the trace. *)
Inductive Action : Type :=
| WCreate (env : Env) (dto : CreateIntentDto)
| WExpire (intentId : string)
| WProof (env : Env) (intentId : string) (dto : SolanaProofDto)
| WMark (intentId : string)
| WSettle (env : Env) (intentId : string) (result : PaymentResult)
| WRollback (intentId : string)
| Outside (ev : Event).

Definition act (a : Action) (w : World) : World :=
  match a with
  | WCreate env dto => fst (create (new_intent env dto) w)
  | WExpire id => fst (update id (data_status EXPIRED) w)
  | WProof env id dto => fst (update id (proof_data env dto) w)
  | WMark id => fst (update id (data_status BASE_SETTLING) w)
  | WSettle env id result => fst (update id (settled_data env result) w)
  | WRollback id => fst (update id (data_status SOL_SETTLED) w)
  | Outside ev => fst (emit ev w)
  end.

Definition run_actions (actions : list Action) (w : World) : World :=
  fold_left (fun w a => act a w) actions w.

(** The proof update for the intent [id]. *)
Definition writes_proof_for (id : string) (a : Action) : bool :=
  match a with
  | WProof _ id' _ => bool_decide (id' = id)
  | _ => false
  end.

(** What one step of a task may write: [status] alone, or the Base leg. *)
Definition base_leg_write (d : IntentData) : Prop :=
  d_payer_wallet d = None /\ d_sol_settle_proof d = None
  /\ d_sol_tx_hash d = None /\ d_sol_settled_at d = None.

(** * The solana-proof route *)

(** [@IsNotEmpty]: the value is not the empty string.  ([@IsString] holds
    of every value of the field's type.) *)
Definition IsNotEmpty (s : string) : bool := negb (String.eqb s "").

Definition validate_SolanaProofDto (dto : SolanaProofDto) : list string :=
  (if IsNotEmpty (settle_proof dto) then [] else ["settle_proof is required"])
  ++ (if IsNotEmpty (tx_hash dto) then [] else ["tx_hash is required"]).

(** POST intents/:id/solana-proof: the validation pipe runs on the body
    before the handler; the path parameter is passed on as it is. *)
Definition post_solana_proof (cfg : Config) (env : Env) (intentId : string)
    (dto : SolanaProofDto) : M SubmitAck :=
  match validate_SolanaProofDto dto with
  | [] => submitSolanaProof cfg env intentId dto
  | errors => throw (BadRequestException (String.concat ", " errors))
  end.

(** * Configuration *)

(** [process.env]: the variables that are set, by name. *)
Definition ProcessEnv : Type := gmap string string.

#[warnings="-register-all"]
Inductive JSValue : Type :=
| JUndefined
| JNumber (n : JS.Number)
| JString (s : string)
| JArray (items : list string)
| JObject (fields : list (string * JSValue)).

(** [parseInt(v, 10)]: white space is skipped, then an optional sign and
    the longest run of decimal digits are read; NaN if there is no digit.
    An unset variable reads as the text "undefined", which has none. *)
Definition parseInt10 (v : option string) : JS.Number :=
  match v with
  | None => JS.NaN
  | Some s =>
      let t := JS.skip_white s in
      let '(neg, r) :=
        match t with
        | String "-" r => (true, r)
        | String "+" r => (false, r)
        | _ => (false, t)
        end in
      let '(value, count, _) := JS.scan_digits r 0 0 in
      if count =? 0 then JS.NaN else JS.round_pos neg value 1
  end.

(** NaN, [+0] and [-0] are the falsy Numbers. *)
Definition Number_truthy (n : JS.Number) : bool :=
  match n with
  | JS.NaN => false
  | JS.Infinity _ => true
  | JS.Fin _ m _ => negb (m =? 0)
  end.

(** [n || dflt] *)
Definition number_or (n : JS.Number) (dflt : Z) : JS.Number :=
  if Number_truthy n then n else JS.Number_of_bigint dflt.

(** [s.split(sep)] for a separator of one character: the pieces between
    the separators, in order; the empty string gives one empty piece. *)
Fixpoint str_split (sep : ascii) (s : string) : list string :=
  match s with
  | EmptyString => [""]
  | String c r =>
      if Ascii.eqb c sep then "" :: str_split sep r
      else
        match str_split sep r with
        | piece :: pieces => String c piece :: pieces
        | [] => [String c ""]
        end
  end.

(** A variable as it is read: [undefined] when unset. *)
Definition env_value (v : option string) : JSValue :=
  match v with Some s => JString s | None => JUndefined end.

(** [process.env.CORS_ORIGINS?.split(',') || [dflt]]: every array is
    truthy, so the default is taken only when the variable is unset. *)
Definition origins_or (v : option string) (dflt : string) : list string :=
  match v with
  | Some s => str_split "," s
  | None => [dflt]
  end.

Definition configuration (penv : ProcessEnv) : JSValue :=
  JObject
    [ ("port", JNumber (number_or (parseInt10 (penv !! "PORT")) 3001));
      ("nodeEnv", JString (or_else (penv !! "NODE_ENV") "development"));
      ("apiPrefix", JString (or_else (penv !! "API_PREFIX") "api"));
      ("database", JObject [ ("url", env_value (penv !! "DATABASE_URL")) ]);
      ("solana",
        JObject
          [ ("receiverAddress", env_value (penv !! "SOLANA_RECEIVER_ADDRESS"));
            ("network",
              JString (or_else (penv !! "SOLANA_NETWORK") "solana-devnet")) ]);
      ("base",
        JObject
          [ ("network", JString (or_else (penv !! "BASE_NETWORK") "base-sepolia"));
            ("proxyPrivateKey", env_value (penv !! "BASE_PROXY_PRIVATE_KEY")) ]);
      ("cors",
        JObject
          [ ("origins",
              JArray (origins_or (penv !! "CORS_ORIGINS") "http://localhost:3000")) ]);
      ("facilitator",
        JObject
          [ ("url",
              JString (or_else (penv !! "FACILITATOR_URL")
                         "https://x402.org/facilitator")) ]);
      ("rateLimit",
        JObject
          [ ("ttl", JNumber (number_or (parseInt10 (penv !! "RATE_LIMIT_TTL")) 60));
            ("max", JNumber (number_or (parseInt10 (penv !! "RATE_LIMIT_MAX")) 10)) ]);
      ("logging",
        JObject [ ("level", JString (or_else (penv !! "LOG_LEVEL") "debug")) ]) ].

(** Property access [v.name]; [undefined] when [v] has no such property. *)
Fixpoint field_of (name : string) (fields : list (string * JSValue)) : JSValue :=
  match fields with
  | [] => JUndefined
  | (k, v) :: rest => if String.eqb k name then v else field_of name rest
  end.

Definition get_field (v : JSValue) (name : string) : JSValue :=
  match v with
  | JObject fields => field_of name fields
  | _ => JUndefined
  end.

Definition get_path (v : JSValue) (path : list string) : JSValue :=
  fold_left get_field path v.

(** [ConfigService.get(path)]: a variable of the environment that is
    named exactly [path] comes first, then the value at the dotted path
    in the loaded [configuration()]. *)
Definition ConfigService_get (penv : ProcessEnv) (path : string) : JSValue :=
  match penv !! path with
  | Some v => JString v
  | None => get_path (configuration penv) (str_split "." path)
  end.

Definition get_string (penv : ProcessEnv) (path : string) : option string :=
  match ConfigService_get penv path with
  | JString s => Some s
  | _ => None
  end.

(** The three settings the two services read in their constructors and
    in [getReceipt], each with the key it is read under. *)
Definition config_of (penv : ProcessEnv) : Config :=
  {| base_network := get_string penv "base.network";
     solana_network := get_string penv "solana.network";
     x402_facilitatorUrl := get_string penv "x402.facilitatorUrl" |}.


Definition has_comma (s : string) : bool :=
  existsb (Ascii.eqb ",") (list_ascii_of_string s).

Definition setting_truthy (v : JSValue) : bool :=
  match v with
  | JUndefined => false
  | JNumber n => Number_truthy n
  | JString s => negb (String.eqb s "")
  | JArray _ | JObject _ => true
  end.

(** The settings that [configuration()] gives a default. *)
Definition defaulted_settings : list (list string) :=
  [ ["port"]; ["nodeEnv"]; ["apiPrefix"]; ["solana"; "network"];
    ["base"; "network"]; ["cors"; "origins"]; ["facilitator"; "url"];
    ["rateLimit"; "ttl"]; ["rateLimit"; "max"]; ["logging"; "level"] ].

Definition comma_count (s : string) : nat :=
  length (List.filter (Ascii.eqb ",") (list_ascii_of_string s)).

(** * Properties *)

Ltac unfold_M :=
  unfold bind, ret, throw, try_catch, emit, lift, findUnique, update, create in *.

(** ** The JavaScript values, on known cases *)

Example parseFloat_toString_cent : JS.toString (JS.parseFloat "0.05") = "0.05".
Proof. vm_compute. reflexivity. Qed.

Example toString_shortest :
  JS.toString (JS.div (JS.parseFloat "1") (JS.parseFloat "3"))
    = "0.3333333333333333".
Proof. vm_compute. reflexivity. Qed.

Example toString_exponent :
  JS.toString (JS.parseFloat "1000000000000000000000") = "1e+21"
  /\ JS.toString (JS.parseFloat "0.0000001") = "1e-7"
  /\ JS.toString (JS.parseFloat "123456789012345678901") = "123456789012345680000".
Proof. vm_compute. repeat split; reflexivity. Qed.

Example parseFloat_prefix :
  JS.toString (JS.parseFloat "  12.5px") = "12.5"
  /\ JS.toString (JS.parseFloat "abc") = "NaN"
  /\ JS.toString (JS.parseFloat "-.5e1") = "-5".
Proof. vm_compute. repeat split; reflexivity. Qed.

Example Number_of_bigint_ties_to_even :
  JS.Number_of_bigint 9007199254740993 = JS.Number_of_bigint 9007199254740992
  /\ JS.Number_of_bigint 9007199254740995 = JS.Number_of_bigint 9007199254740996.
Proof. vm_compute. split; reflexivity. Qed.

Example parseUnits_cases :
  Viem.parseUnits "0.05" 6 = Some 50000
  /\ Viem.parseUnits "12" 6 = Some 12000000
  /\ Viem.parseUnits "1.2345678" 6 = Some 1234568
  /\ Viem.parseUnits "0.9999995" 6 = Some 1000000
  /\ Viem.parseUnits "-1.5" 6 = Some (-1500000)
  /\ Viem.parseUnits "1e+21" 6 = None.
Proof. vm_compute. repeat split; reflexivity. Qed.

(** The end-to-end scenario of the specification: create an intent for
    0.05, submit a valid proof with reference S1, trigger the Base payment
    with a funded wallet; the receipt then shows both legs. *)
Example end_to_end_scenario :
  let env := env_funded 1000 1000000 in
  let dto := mkCreateDto (JS.parseFloat "0.05") recipient_1 in
  let w := run_ops cfg_default
             [OpCreate env dto; OpSubmit env id_1 proof_dto_1; OpTrigger env id_1]
             empty_world in
  trace w
    = [EvFetch "https://x402.org/facilitator/verify" "proof-1";
       EvSetImmediate id_1;
       EvExecute id_1;
       EvBalanceOf "0x036CbD53842c5426634e7929541eC2318f3dCF7e"
         "0x1111111111111111111111111111111111111111";
       EvTransfer "0x036CbD53842c5426634e7929541eC2318f3dCF7e" recipient_1 50000;
       EvWaitReceipt "0xfeed"]
  /\ (r_status <$> (receipt_of cfg_default <$> db w !! id_1)) = Some BASE_SETTLED
  /\ (leg_tx_hash <$> (receipt_of cfg_default <$> db w !! id_1) ≫= r_solana_payment)
     = Some "S1"
  /\ (leg_tx_hash <$> (receipt_of cfg_default <$> db w !! id_1) ≫= r_base_payment)
     = Some "0xfeed".
Proof. vm_compute. repeat split; reflexivity. Qed.

(** ** The executor and the verifier leave the store alone *)

Lemma executePayment_frame cfg env request w :
  executePayment cfg env request w =
    (mkWorld (db w) (trace w ++ execute_events cfg env request),
     execute_result cfg env request).
Proof.
  unfold execute_events, execute_result, executePayment.
  unfold_M; simpl.
  destruct (account_address env); simpl; [|reflexivity].
  destruct (amountInUsdc (req_amount request)); simpl; [|reflexivity].
  destruct (balanceOf env); simpl;
    [|by rewrite <- app_assoc].
  destruct (JS.lt _ _); simpl; [by rewrite <- app_assoc|].
  destruct (writeContract env _ _); simpl;
    [|by rewrite <- !app_assoc].
  destruct (waitForTransactionReceipt env _); simpl;
    by rewrite <- !app_assoc.
Qed.

Lemma verifyX402Proof_frame cfg env proof w :
  verifyX402Proof cfg env proof w =
    (mkWorld (db w) (trace w ++ [EvFetch (facilitatorUrl cfg ++ "/verify") proof]),
     verify_result cfg env proof).
Proof.
  unfold verify_result, verifyX402Proof. unfold_M; simpl.
  destruct (fetch_verify env proof) as [msg|st body|st|st msg]; simpl;
    [reflexivity| |by destruct (negb (response_ok st))
    |by destruct (negb (response_ok st))].
  destruct (negb (response_ok st)); simpl; [reflexivity|].
  destruct body as [data|]; simpl; [|reflexivity].
  destruct (body_valid data); reflexivity.
Qed.

Lemma apply_status_same d_st i :
  same_but_status (apply_data (data_status d_st) i) i.
Proof. unfold same_but_status; simpl. repeat split. Qed.

Lemma rollback_restores i :
  status i = SOL_SETTLED ->
  apply_data (data_status SOL_SETTLED) (apply_data (data_status BASE_SETTLING) i) = i.
Proof. destruct i; simpl; intros ->; reflexivity. Qed.

(** ** [triggerBasePayment], case by case *)

Section TriggerCases.
Context (cfg : Config) (env : Env) (id : string) (w : World).

Lemma trigger_not_found :
  db w !! id = None ->
  triggerBasePayment cfg env id w =
    (w, Throw (NotFoundException ("Payment intent " ++ id ++ " not found"))).
Proof. intros H. unfold triggerBasePayment. unfold_M. by rewrite H. Qed.

Lemma trigger_wrong_status i :
  db w !! id = Some i -> status i <> SOL_SETTLED ->
  triggerBasePayment cfg env id w =
    (w, Throw (BadRequestException
                 ("Solana payment not settled for intent " ++ id
                  ++ " (current status: " ++ status_name (status i) ++ ")"))).
Proof.
  intros H Hs. unfold triggerBasePayment. unfold_M. rewrite H.
  by rewrite bool_decide_eq_false_2.
Qed.

(** The stored intent is SOL_SETTLED: the call reaches the executor. *)
Section Settled.
Context (i : PaymentIntent).
Hypothesis Hi : db w !! id = Some i.
Hypothesis Hs : status i = SOL_SETTLED.

Lemma trigger_reaches_executor :
  triggerBasePayment cfg env id w =
    try_catch
      (result <- executePayment cfg env (request_of i) ;;
       updatedIntent <- update id (settled_data env result) ;;
       ret {| t_success := true;
              t_message := "Base payment completed";
              t_base_tx_hash := base_tx_hash updatedIntent;
              t_status := status updatedIntent |})
      (fun error =>
         do_ update id (data_status SOL_SETTLED) ;;
         throw (InternalServerErrorException
                  ("Base payment failed: " ++ message error)))
      (mkWorld (<[id := apply_data (data_status BASE_SETTLING) i]> (db w))
         (trace w)).
Proof.
  unfold triggerBasePayment.
  unfold bind at 1. unfold findUnique at 1. rewrite Hi.
  rewrite bool_decide_eq_true_2 by done. cbn [negb].
  unfold bind at 1. unfold update at 1. by rewrite Hi.
Qed.

Lemma trigger_settles res :
  execute_result cfg env (request_of i) = Ok res ->
  triggerBasePayment cfg env id w =
    (mkWorld
       (<[id := apply_data (settled_data env res)
                  (apply_data (data_status BASE_SETTLING) i)]> (db w))
       (trace w ++ execute_events cfg env (request_of i)),
     Ok {| t_success := true;
           t_message := "Base payment completed";
           t_base_tx_hash := Some (txHash res);
           t_status := BASE_SETTLED |}).
Proof.
  intros Hr. rewrite trigger_reaches_executor.
  unfold try_catch, bind. rewrite executePayment_frame, Hr. simpl.
  unfold update, ret. simpl. rewrite lookup_insert_eq.
  by rewrite insert_insert_eq.
Qed.

Lemma trigger_rolls_back e :
  execute_result cfg env (request_of i) = Throw e ->
  triggerBasePayment cfg env id w =
    (mkWorld (db w) (trace w ++ execute_events cfg env (request_of i)),
     Throw (InternalServerErrorException
              ("Base payment failed: " ++ message e))).
Proof.
  intros Hr. rewrite trigger_reaches_executor.
  unfold try_catch, bind. rewrite executePayment_frame, Hr. simpl.
  unfold update, throw. simpl. rewrite lookup_insert_eq.
  rewrite insert_insert_eq, rollback_restores by done.
  by rewrite insert_id.
Qed.
End Settled.
End TriggerCases.

(** ** Rollback (C8) *)

(** C8.  When [executePayment] throws during [triggerBasePayment], the call
    fails with the internal-server error, and the rollback writes nothing
    but [status]: a data object naming only [status] leaves every other
    column as it was, and the stored record, hence the whole store, is
    again exactly what it was before the call, with the source-leg and
    creation-time columns untouched. *)
Theorem rollback_changes_only_status cfg env id w i e :
  db w !! id = Some i ->
  status i = SOL_SETTLED ->
  execute_result cfg env (request_of i) = Throw e ->
  snd (triggerBasePayment cfg env id w)
    = Throw (InternalServerErrorException ("Base payment failed: " ++ message e))
  /\ same_but_status
       (apply_data (data_status SOL_SETTLED)
          (apply_data (data_status BASE_SETTLING) i)) i
  /\ db (fst (triggerBasePayment cfg env id w)) !! id = Some i
  /\ db (fst (triggerBasePayment cfg env id w)) = db w.
Proof.
  intros H Hs Hr.
  rewrite (trigger_rolls_back _ _ _ _ _ H Hs _ Hr); simpl.
  rewrite rollback_restores by done.
  repeat split; done.
Qed.

Lemma rollback_changes_only_status_witness :
  let env := {| now := 5000; now_completed := 5000; uuid := id_1;
                fetch_verify := verifier_accepts;
                account_address := Ok "0x1111111111111111111111111111111111111111";
                balanceOf := Throw (Error "HTTP request failed.");
                writeContract := fun _ _ => Ok "0xfeed";
                waitForTransactionReceipt := fun _ => Ok tt;
                viem_version := "2.21.0" |} in
  let w := world_of (intent_settled "0.05") in
  db (fst (triggerBasePayment cfg_default env id_1 w)) = db w.
Proof.
  intros env w.
  apply (rollback_changes_only_status cfg_default env id_1 w
           (intent_settled "0.05") (Error "HTTP request failed.")).
  - reflexivity.
  - reflexivity.
  - vm_compute. reflexivity.
Defined.

(** ** Receipts (C9) *)

(** A receipt before either leg has settled: both legs are null. *)
Lemma receipt_before_settlement cfg intent :
  sol_tx_hash intent = None -> base_tx_hash intent = None ->
  r_status (receipt_of cfg intent) = status intent
  /\ r_solana_payment (receipt_of cfg intent) = None
  /\ r_base_payment (receipt_of cfg intent) = None.
Proof. unfold receipt_of. simpl. by intros -> ->. Qed.

(** C9.  [getReceipt] leaves the world as it found it and a second call
    returns what the first returned.  For an id that is not stored it
    answers null.  For a stored record, whatever its status, it answers
    a receipt read off the record: id, amount, recipient, payer wallet,
    status and the three times are the record's columns; a leg is null
    when the record has no transaction hash for it (so before either leg
    has settled both are null), and otherwise carries the record's hash,
    proof and settlement time for that leg, and the explorer link built
    from the hash. *)
Theorem getReceipt_pure_projection cfg id w :
  fst (getReceipt cfg id w) = w
  /\ getReceipt cfg id (fst (getReceipt cfg id w)) = getReceipt cfg id w
  /\ (db w !! id = None -> snd (getReceipt cfg id w) = Ok None)
  /\ forall i,
       db w !! id = Some i ->
       exists r,
         snd (getReceipt cfg id w) = Ok (Some r)
         /\ r_intent_id r = intent_id i
         /\ r_amount r = amount i
         /\ r_merchant_recipient r = merchant_recipient i
         /\ r_payer_wallet r = payer_wallet i
         /\ r_status r = status i
         /\ r_created_at r = created_at i
         /\ r_completed_at r = completed_at i
         /\ r_expires_at r = expires_at i
         /\ (sol_tx_hash i = None \/ sol_tx_hash i = Some "" ->
             r_solana_payment r = None)
         /\ (forall h,
               sol_tx_hash i = Some h -> h <> "" ->
               r_solana_payment r
               = Some {| leg_tx_hash := h;
                         leg_settle_proof := sol_settle_proof i;
                         leg_settled_at := sol_settled_at i;
                         leg_explorer_url :=
                           (if String.eqb (config_get (solana_network cfg) "devnet")
                                 "mainnet-beta"
                            then "https://solscan.io"
                            else "https://solscan.io?cluster=devnet")
                           ++ "/tx/" ++ h |})
         /\ (base_tx_hash i = None \/ base_tx_hash i = Some "" ->
             r_base_payment r = None)
         /\ (forall h,
               base_tx_hash i = Some h -> h <> "" ->
               r_base_payment r
               = Some {| leg_tx_hash := h;
                         leg_settle_proof := base_settle_proof i;
                         leg_settled_at := base_settled_at i;
                         leg_explorer_url :=
                           (if String.eqb (config_get (base_network cfg) "base-sepolia")
                                 "base"
                            then "https://basescan.org"
                            else "https://sepolia.basescan.org")
                           ++ "/tx/" ++ h |}).
Proof.
  unfold getReceipt. unfold_M.
  destruct (db w !! id) as [i|] eqn:H; simpl; rewrite ?H;
    (split; [reflexivity|]); (split; [reflexivity|]);
    (split; [done|]); [|done].
  intros ? [= <-]. eexists. split; [reflexivity|].
  unfold receipt_of, leg_of. simpl.
  do 8 (split; [reflexivity|]).
  split; [by intros [->| ->]|].
  split; [intros h -> Hh; apply String.eqb_neq in Hh; by rewrite Hh|].
  split; [by intros [->| ->]|].
  intros h -> Hh. apply String.eqb_neq in Hh. by rewrite Hh.
Qed.

Lemma getReceipt_pure_projection_witness :
  let i := intent_pending "0.05" 600000 in
  exists r,
    snd (getReceipt cfg_default id_1 (world_of i)) = Ok (Some r)
    /\ r_intent_id r = id_1
    /\ r_amount r = "0.05"
    /\ r_status r = PENDING
    /\ r_solana_payment r = None
    /\ r_base_payment r = None.
Proof.
  intros i.
  destruct (getReceipt_pure_projection cfg_default id_1 (world_of i))
    as (_ & _ & _ & H).
  destruct (H i) as (r & Hr & Hid & Ham & _ & _ & Hst & _ & _ & _ & Hsol & _ & Hbase & _);
    [reflexivity|].
  exists r. split; [exact Hr|]. split; [exact Hid|]. split; [exact Ham|].
  split; [exact Hst|]. split; [apply Hsol; by left|apply Hbase; by left].
Defined.

(** ** [getIntent], [submitSolanaProof] and [createIntent], case by case *)

Lemma getIntent_not_found env id w :
  db w !! id = None -> getIntent env id w = (w, Ok None).
Proof. intros H. unfold getIntent. unfold_M. by rewrite H. Qed.

Lemma getIntent_expires env id w i :
  db w !! id = Some i -> status i = PENDING -> is_past env i = true ->
  getIntent env id w =
    (mkWorld (<[id := apply_data (data_status EXPIRED) i]> (db w)) (trace w),
     Ok (Some (view_of i EXPIRED))).
Proof.
  intros H Hs Hp. unfold getIntent. unfold_M. rewrite H, Hp.
  rewrite bool_decide_eq_true_2 by done. simpl. by rewrite H.
Qed.

Lemma getIntent_reads env id w i :
  db w !! id = Some i -> status i <> PENDING \/ is_past env i = false ->
  getIntent env id w = (w, Ok (Some (view_of i (status i)))).
Proof.
  intros H Hc. unfold getIntent. unfold_M. rewrite H.
  destruct Hc as [Hs|Hp].
  - rewrite (bool_decide_eq_false_2 _ Hs). by rewrite andb_false_r.
  - by rewrite Hp.
Qed.

Lemma submit_not_found cfg env id dto w :
  db w !! id = None ->
  submitSolanaProof cfg env id dto w =
    (w, Throw (NotFoundException ("Payment intent " ++ id ++ " not found"))).
Proof. intros H. unfold submitSolanaProof. unfold_M. by rewrite H. Qed.

Lemma submit_wrong_status cfg env id dto w i :
  db w !! id = Some i -> status i <> PENDING ->
  submitSolanaProof cfg env id dto w =
    (w, Throw (BadRequestException
                 ("Payment intent " ++ id ++ " is not in PENDING status (current: "
                  ++ status_name (status i) ++ ")"))).
Proof.
  intros H Hs. unfold submitSolanaProof. unfold_M. rewrite H.
  by rewrite bool_decide_eq_false_2.
Qed.

Lemma submit_rejected cfg env id dto w i e :
  db w !! id = Some i -> status i = PENDING ->
  verify_result cfg env (settle_proof dto) = Throw e ->
  submitSolanaProof cfg env id dto w =
    (mkWorld (db w)
       (trace w ++ [EvFetch (facilitatorUrl cfg ++ "/verify") (settle_proof dto)]),
     Throw (BadRequestException ("Invalid settlement proof: " ++ message e))).
Proof.
  intros H Hs Hv. unfold submitSolanaProof.
  unfold bind at 1. unfold findUnique at 1. rewrite H.
  rewrite bool_decide_eq_true_2 by done. simpl.
  unfold bind at 1. unfold try_catch.
  by rewrite verifyX402Proof_frame, Hv.
Qed.

Lemma submit_accepted cfg env id dto w i :
  db w !! id = Some i -> status i = PENDING ->
  verify_result cfg env (settle_proof dto) = Ok tt ->
  submitSolanaProof cfg env id dto w =
    (mkWorld (<[id := apply_data (proof_data env dto) i]> (db w))
       (trace w ++ [EvFetch (facilitatorUrl cfg ++ "/verify") (settle_proof dto);
                    EvSetImmediate id]),
     Ok {| s_success := true;
           s_message := "Solana payment verified";
           s_intent_id := intent_id i;
           s_status := SOL_SETTLED |}).
Proof.
  intros H Hs Hv. unfold submitSolanaProof.
  unfold bind at 1. unfold findUnique at 1. rewrite H.
  rewrite bool_decide_eq_true_2 by done. simpl.
  unfold bind at 1. unfold try_catch.
  rewrite verifyX402Proof_frame, Hv.
  unfold_M; simpl. rewrite H. simpl.
  by rewrite <- app_assoc.
Qed.

Lemma createIntent_fresh env dto w :
  db w !! uuid env = None ->
  createIntent env dto w =
    (mkWorld (<[uuid env := new_intent env dto]> (db w)) (trace w),
     Ok {| c_intent_id := uuid env;
           c_amount := JS.toString (dto_amount dto);
           c_merchant_recipient := dto_merchant_recipient dto;
           c_status := PENDING;
           c_created_at := now env;
           c_expires_at := Some (now env + ten_minutes) |}).
Proof. intros H. unfold createIntent. unfold_M; simpl. by rewrite H. Qed.

Lemma createIntent_taken env dto w i :
  db w !! uuid env = Some i ->
  fst (createIntent env dto w) = w.
Proof. intros H. unfold createIntent. unfold_M; simpl. by rewrite H. Qed.

Lemma validate_nil dto :
  validate_CreateIntentDto dto = [] <-> valid_CreateIntentDto dto = true.
Proof.
  unfold validate_CreateIntentDto, valid_CreateIntentDto.
  destruct (IsNumber _), (Min_one_cent _), (Matches_evm_address _); simpl;
    split; intros; try done.
Qed.

Lemma post_intents_invalid env dto w :
  valid_CreateIntentDto dto = false ->
  post_intents env dto w =
    (w, Throw (BadRequestException
                 (String.concat ", " (validate_CreateIntentDto dto)))).
Proof.
  intros Hv. unfold post_intents.
  destruct (validate_CreateIntentDto dto) eqn:E; [|reflexivity].
  apply validate_nil in E. congruence.
Qed.

Lemma post_intents_valid env dto w :
  valid_CreateIntentDto dto = true ->
  post_intents env dto w = createIntent env dto w.
Proof.
  intros Hv. unfold post_intents.
  apply validate_nil in Hv. by rewrite Hv.
Qed.

(** ** Every call changes the store along the transition graph *)

Lemma run_op_change cfg o w : db_change (db w) (db (run_op cfg o w)).
Proof.
  destruct o as [env dto|env id|env id dto|env id|id]; simpl.
  - destruct (valid_CreateIntentDto dto) eqn:Hv.
    + rewrite post_intents_valid by done.
      destruct (db w !! uuid env) as [i|] eqn:H.
      * rewrite (createIntent_taken _ _ _ _ H). constructor.
      * rewrite createIntent_fresh by done. simpl.
        apply (change_create _ (new_intent env dto)); done.
    + rewrite post_intents_invalid by done. constructor.
  - destruct (db w !! id) as [i|] eqn:H.
    + destruct (decide (status i = PENDING)) as [Hs|Hs];
        [destruct (is_past env i) eqn:Hp|].
      * rewrite (getIntent_expires _ _ _ _ H Hs Hp). simpl.
        eapply change_update; [done|repeat split|].
        simpl. rewrite Hs. constructor.
      * rewrite (getIntent_reads _ _ _ _ H) by auto. constructor.
      * rewrite (getIntent_reads _ _ _ _ H) by auto. constructor.
    + rewrite getIntent_not_found by done. constructor.
  - destruct (db w !! id) as [i|] eqn:H.
    + destruct (decide (status i = PENDING)) as [Hs|Hs].
      * destruct (verify_result cfg env (settle_proof dto)) as [[]|e] eqn:Hv.
        -- rewrite (submit_accepted _ _ _ _ _ _ H Hs Hv). simpl.
           eapply change_update; [done|repeat split|].
           simpl. rewrite Hs. constructor.
        -- rewrite (submit_rejected _ _ _ _ _ _ _ H Hs Hv). constructor.
      * rewrite (submit_wrong_status _ _ _ _ _ _ H Hs). constructor.
    + rewrite submit_not_found by done. constructor.
  - destruct (db w !! id) as [i|] eqn:H.
    + destruct (decide (status i = SOL_SETTLED)) as [Hs|Hs].
      * destruct (execute_result cfg env (request_of i)) as [res|e] eqn:Hr.
        -- rewrite (trigger_settles _ _ _ _ _ H Hs _ Hr). simpl.
           eapply change_update; [done|repeat split|].
           simpl. rewrite Hs. constructor.
        -- rewrite (trigger_rolls_back _ _ _ _ _ H Hs _ Hr). constructor.
      * rewrite (trigger_wrong_status _ _ _ _ _ H Hs). constructor.
    + rewrite trigger_not_found by done. constructor.
  - unfold getReceipt. unfold_M. destruct (db w !! id); constructor.
Qed.

Lemma db_change_keeps_chain_pair m m' :
  db_change m m' ->
  (forall id i, m !! id = Some i -> payer_chain i = "solana" /\ target_chain i = "base") ->
  forall id i, m' !! id = Some i -> payer_chain i = "solana" /\ target_chain i = "base".
Proof.
  intros Hc Hm id i. destruct Hc as [|id0 i0 i0' H0 Hf Ht|i0 H0 Hp Hq Hs].
  - apply Hm.
  - destruct (decide (id0 = id)) as [->|Hne].
    + rewrite lookup_insert_eq. intros [= <-].
      destruct Hf as (_ & _ & _ & -> & -> & _). eauto.
    + rewrite lookup_insert_ne by done. apply Hm.
  - destruct (decide (intent_id i0 = id)) as [<-|Hne].
    + rewrite lookup_insert_eq. by intros [= <-].
    + rewrite lookup_insert_ne by done. apply Hm.
Qed.

Lemma db_change_keeps_expired m m' id i :
  db_change m m' ->
  m !! id = Some i -> status i = EXPIRED ->
  exists i', m' !! id = Some i' /\ status i' = EXPIRED /\ creation_fields_same i' i.
Proof.
  intros Hc Hi Hs. destruct Hc as [|id0 i0 i0' H0 Hf Ht|i0 H0 Hp Hq Hs0].
  - exists i. repeat split; done.
  - destruct (decide (id0 = id)) as [->|Hne].
    + rewrite lookup_insert_eq. exists i0'.
      assert (i0 = i) as -> by congruence.
      rewrite Hs in Ht. inversion Ht. done.
    + rewrite lookup_insert_ne by done. exists i. repeat split; done.
  - destruct (decide (intent_id i0 = id)) as [<-|Hne]; [congruence|].
    rewrite lookup_insert_ne by done. exists i. repeat split; done.
Qed.

Lemma run_ops_snoc cfg ops o w :
  run_ops cfg (ops ++ [o]) w = run_op cfg o (run_ops cfg ops w).
Proof. unfold run_ops. by rewrite fold_left_app. Qed.

(** Records are stored under their own [intent_id]. *)
Lemma db_change_keeps_keys m m' :
  db_change m m' ->
  (forall id i, m !! id = Some i -> intent_id i = id) ->
  forall id i, m' !! id = Some i -> intent_id i = id.
Proof.
  intros Hc Hm id i. destruct Hc as [|id0 i0 i0' H0 Hf Ht|i0 H0 Hp Hq Hs].
  - apply Hm.
  - destruct (decide (id0 = id)) as [->|Hne].
    + rewrite lookup_insert_eq. intros [= <-].
      destruct Hf as (-> & _). eauto.
    + rewrite lookup_insert_ne by done. apply Hm.
  - destruct (decide (intent_id i0 = id)) as [<-|Hne].
    + rewrite lookup_insert_eq. by intros [= <-].
    + rewrite lookup_insert_ne by done. apply Hm.
Qed.

Lemma run_ops_keys cfg ops id i :
  db (run_ops cfg ops empty_world) !! id = Some i -> intent_id i = id.
Proof.
  revert id i. induction ops as [|o ops IH] using rev_ind.
  - intros id i. simpl. by rewrite lookup_empty.
  - rewrite run_ops_snoc.
    eapply db_change_keeps_keys; [apply run_op_change|exact IH].
Qed.

(** ** The chain pair (C10) *)

Lemma run_ops_chain_pair cfg ops w :
  chain_pair_fixed w -> chain_pair_fixed (run_ops cfg ops w).
Proof.
  induction ops as [|o ops IH] using rev_ind; [done|].
  intros Hw. rewrite run_ops_snoc.
  unfold chain_pair_fixed.
  eapply db_change_keeps_chain_pair; [apply run_op_change|].
  by apply IH.
Qed.

(** C10.  The record [createIntent] stores has [payer_chain] "solana" and
    [target_chain] "base" whatever the request carries, and after any
    sequence of calls on an empty store every stored intent still has
    exactly this pair. *)
Theorem chain_pair_is_solana_base cfg :
  (forall env dto w w' created,
      createIntent env dto w = (w', Ok created) ->
      exists i, db w' !! c_intent_id created = Some i
                /\ payer_chain i = "solana" /\ target_chain i = "base")
  /\ (forall ops id i,
        db (run_ops cfg ops empty_world) !! id = Some i ->
        payer_chain i = "solana" /\ target_chain i = "base").
Proof.
  split.
  - intros env dto w w' created.
    destruct (db w !! uuid env) as [j|] eqn:H.
    + unfold createIntent. unfold_M; simpl. rewrite H. discriminate.
    + rewrite createIntent_fresh by done. intros [= <- <-]. simpl.
      exists (new_intent env dto). by rewrite lookup_insert_eq.
  - intros ops. apply run_ops_chain_pair.
    intros id i. simpl. by rewrite lookup_empty.
Qed.

Lemma chain_pair_is_solana_base_witness :
  let dto := mkCreateDto (JS.parseFloat "0.05") recipient_1 in
  let env := env_funded 1000 0 in
  payer_chain (new_intent env dto) = "solana"
  /\ target_chain (new_intent env dto) = "base".
Proof.
  intros dto env.
  apply (proj2 (chain_pair_is_solana_base cfg_default) [OpCreate env dto] id_1).
  vm_compute. reflexivity.
Defined.

(** ** Expiry (C5) *)

Lemma run_ops_keep_expired cfg ops w id i :
  db w !! id = Some i -> status i = EXPIRED ->
  exists i', db (run_ops cfg ops w) !! id = Some i' /\ status i' = EXPIRED.
Proof.
  intros Hi Hs.
  induction ops as [|o ops IH] using rev_ind; [by exists i|].
  destruct IH as (i1 & H1 & Hs1). rewrite run_ops_snoc.
  destruct (db_change_keeps_expired _ _ _ _ (run_op_change cfg o _) H1 Hs1)
    as (i2 & H2 & Hs2 & _).
  by exists i2.
Qed.

(** C5, as the code has it.  With calls executed one at a time, an intent
    whose status is EXPIRED is EXPIRED after any sequence of calls.
    [getIntent] on a PENDING intent reports PENDING and writes nothing as
    long as the clock is not past [expires_at] (at [expires_at] itself
    still PENDING); on the first call strictly after [expires_at] it
    stores EXPIRED, changing no other column, and reports EXPIRED. *)
Theorem expired_is_final_and_expiry_is_lazy cfg :
  (forall ops w id i,
      db w !! id = Some i -> status i = EXPIRED ->
      exists i', db (run_ops cfg ops w) !! id = Some i' /\ status i' = EXPIRED)
  /\ (forall env id w i t,
        db w !! id = Some i -> status i = PENDING -> expires_at i = Some t ->
        (now env <= t ->
           getIntent env id w = (w, Ok (Some (view_of i PENDING))))
        /\ (t < now env ->
              exists i',
                getIntent env id w =
                  (mkWorld (<[id := i']> (db w)) (trace w),
                   Ok (Some (view_of i EXPIRED)))
                /\ status i' = EXPIRED /\ same_but_status i' i)).
Proof.
  split.
  - intros ops w id i. apply run_ops_keep_expired.
  - intros env id w i t Hi Hs Ht. split; intros Hnow.
    + rewrite (getIntent_reads _ _ _ _ Hi), Hs; [done|].
      right. unfold is_past. rewrite Ht. lia.
    + exists (apply_data (data_status EXPIRED) i).
      rewrite (getIntent_expires _ _ _ _ Hi Hs).
      * repeat split.
      * unfold is_past. rewrite Ht. lia.
Qed.

Lemma expired_is_final_and_expiry_is_lazy_witness :
  let i := intent_pending "0.05" 600000 in
  getIntent (env_funded 600000 0) id_1 (world_of i)
    = (world_of i, Ok (Some (view_of i PENDING)))
  /\ exists i',
       getIntent (env_funded 600001 0) id_1 (world_of i)
         = (mkWorld (<[id_1 := i']> (db (world_of i))) [],
            Ok (Some (view_of i EXPIRED)))
       /\ status i' = EXPIRED /\ same_but_status i' i.
Proof.
  intros i.
  pose proof (proj2 (expired_is_final_and_expiry_is_lazy cfg_default)) as H.
  split.
  - apply (H (env_funded 600000 0) id_1 (world_of i) i 600000);
      [reflexivity|reflexivity|reflexivity|simpl; lia].
  - apply (H (env_funded 600001 0) id_1 (world_of i) i 600000);
      [reflexivity|reflexivity|reflexivity|simpl; lia].
Defined.

(** C5, counterexample to the claim as stated: called exactly at
    [expires_at], [getIntent] still reports PENDING and stores nothing. *)
Lemma expired_at_or_after_fails : ~ expired_at_or_after.
Proof.
  intros H.
  specialize (H (env_funded 600000 0) id_1
                (world_of (intent_pending "0.05" 600000))
                (intent_pending "0.05" 600000) 600000).
  assert (Hget : snd (getIntent (env_funded 600000 0) id_1
                        (world_of (intent_pending "0.05" 600000)))
                 = Ok (Some (view_of (intent_pending "0.05" 600000) PENDING))).
  { vm_compute. reflexivity. }
  rewrite Hget in H.
  specialize (H eq_refl eq_refl eq_refl ltac:(simpl; lia)).
  discriminate H.
Qed.

(** ** Creation (C7) *)

(** C7, as the code has it.  With a fresh UUID, [POST /intents] succeeds
    exactly when the amount is a finite number of at least 0.01 and the
    recipient is 0x followed by 40 hex characters, and otherwise fails with
    a [BadRequestException] and stores nothing.  On success the record is
    stored with status PENDING, [expires_at] ten minutes after the creation
    time and every leg-specific column unset, and a [getIntent] not later
    than [expires_at] reports PENDING with those columns unset. *)
Theorem createIntent_validates_and_persists env dto w :
  db w !! uuid env = None ->
  (valid_CreateIntentDto dto = true <->
     JS.is_finite (dto_amount dto) = true
     /\ JS.ge (dto_amount dto) one_cent = true
     /\ Matches_evm_address (dto_merchant_recipient dto) = true)
  /\ (valid_CreateIntentDto dto = false ->
        exists msg, post_intents env dto w = (w, Throw (BadRequestException msg)))
  /\ (valid_CreateIntentDto dto = true ->
        exists created i,
          post_intents env dto w
            = (mkWorld (<[uuid env := i]> (db w)) (trace w), Ok created)
          /\ c_status created = PENDING
          /\ c_expires_at created = Some (now env + 600000)
          /\ status i = PENDING
          /\ expires_at i = Some (created_at i + 600000)
          /\ created_at i = now env
          /\ payer_wallet i = None /\ sol_settle_proof i = None
          /\ sol_tx_hash i = None /\ sol_settled_at i = None
          /\ base_tx_hash i = None /\ base_settle_proof i = None
          /\ base_settled_at i = None /\ completed_at i = None
          /\ forall env',
               now env' <= now env + 600000 ->
               exists v,
                 snd (getIntent env' (uuid env) (fst (post_intents env dto w)))
                   = Ok (Some v)
                 /\ v_status v = PENDING
                 /\ v_payer_wallet v = None /\ v_sol_tx_hash v = None
                 /\ v_base_tx_hash v = None /\ v_sol_settled_at v = None
                 /\ v_base_settled_at v = None /\ v_completed_at v = None).
Proof.
  intros Hfresh. split; [|split].
  - unfold valid_CreateIntentDto, IsNumber, Min_one_cent.
    rewrite !andb_true_iff. tauto.
  - intros Hv. eexists. by apply post_intents_invalid.
  - intros Hv. rewrite post_intents_valid, createIntent_fresh by done.
    eexists _, (new_intent env dto). split; [reflexivity|].
    simpl. repeat split.
    intros env' Hnow.
    exists (view_of (new_intent env dto) PENDING).
    rewrite (getIntent_reads env' (uuid env) _ (new_intent env dto)).
    + repeat split.
    + simpl. apply lookup_insert_eq.
    + right. unfold is_past. simpl. unfold ten_minutes. lia.
Qed.

Lemma createIntent_validates_and_persists_witness :
  let dto := mkCreateDto (JS.parseFloat "0.05") recipient_1 in
  let env := env_funded 1000 0 in
  exists created i,
    post_intents env dto empty_world
      = (mkWorld (<[uuid env := i]> ∅) [], Ok created)
    /\ c_status created = PENDING
    /\ c_expires_at created = Some 601000
    /\ status i = PENDING.
Proof.
  intros dto env.
  destruct (createIntent_validates_and_persists env dto empty_world)
    as (_ & _ & H); [reflexivity|].
  destruct H as (created & i & H1 & H2 & H3 & H4 & _); [vm_compute; reflexivity|].
  exists created, i. auto.
Defined.

(** C7, counterexample to the claim as stated: the amount 0.005 is above
    zero and the recipient is well formed, yet the request is refused. *)
Lemma accepts_every_positive_amount_fails : ~ accepts_every_positive_amount.
Proof.
  intros H.
  destruct (H (env_funded 1000 0)
              (mkCreateDto (JS.parseFloat "0.005") recipient_1) empty_world)
    as [created Hc]; try (vm_compute; reflexivity).
  vm_compute in Hc. discriminate Hc.
Qed.

(** ** Proof submission (C6, C2) *)

Lemma unavailable_throws cfg env proof :
  verifier_unavailable (fetch_verify env proof)
  \/ verifier_rejects (fetch_verify env proof) ->
  exists msg, verify_result cfg env proof = Throw (Error msg).
Proof.
  unfold verify_result, verifyX402Proof. unfold_M; simpl.
  destruct (fetch_verify env proof) as [msg|st [b|]|st|st msg]; simpl.
  - eauto.
  - intros [->|[-> ->]]; simpl; eauto.
  - intros [->|[]]; simpl; eauto.
  - intros [->|[]]; simpl; eauto.
  - intros [->|[]]; simpl; eauto.
Qed.

(** C6, as the code has it.  When the facilitator is unreachable, answers
    outside 2xx, or answers that the proof is not valid,
    [submitSolanaProof] on a PENDING intent throws a [BadRequestException]
    whose message starts with "Invalid settlement proof: " in every one of
    these cases, the store is left exactly as it was (the intent stays
    PENDING, no column written) and no Base payment is scheduled. *)
Theorem verifier_failure_is_bad_request cfg env id dto w i :
  db w !! id = Some i ->
  status i = PENDING ->
  verifier_unavailable (fetch_verify env (settle_proof dto))
  \/ verifier_rejects (fetch_verify env (settle_proof dto)) ->
  exists msg,
    snd (submitSolanaProof cfg env id dto w)
      = Throw (BadRequestException ("Invalid settlement proof: " ++ msg))
    /\ db (fst (submitSolanaProof cfg env id dto w)) = db w
    /\ db (fst (submitSolanaProof cfg env id dto w)) !! id = Some i
    /\ trace (fst (submitSolanaProof cfg env id dto w))
       = (trace w ++ [EvFetch (facilitatorUrl cfg ++ "/verify") (settle_proof dto)])%list.
Proof.
  intros Hi Hs Hv.
  destruct (unavailable_throws cfg env _ Hv) as [msg Hr].
  rewrite (submit_rejected _ _ _ _ _ _ _ Hi Hs Hr). simpl.
  exists msg. repeat split; done.
Qed.

Lemma verifier_failure_is_bad_request_witness :
  let w := world_of (intent_pending "0.05" 600000) in
  let env := env_verifier 1000 (FetchRejects "fetch failed") in
  exists msg,
    snd (submitSolanaProof cfg_default env id_1 proof_dto_1 w)
      = Throw (BadRequestException ("Invalid settlement proof: " ++ msg))
    /\ db (fst (submitSolanaProof cfg_default env id_1 proof_dto_1 w)) = db w.
Proof.
  intros w env.
  destruct (verifier_failure_is_bad_request cfg_default env id_1 proof_dto_1 w
              (intent_pending "0.05" 600000))
    as (msg & H1 & H2 & _).
  - reflexivity.
  - reflexivity.
  - left. simpl. exact I.
  - exists msg. split; assumption.
Defined.

(** C6, counterexample to the claim as stated: a 503 answer whose body
    carries the message "Proof verification failed" and a 200 answer with
    [valid] false make [submitSolanaProof] throw the very same error. *)
Lemma unavailable_told_apart_fails : ~ unavailable_told_apart.
Proof.
  intros H.
  apply (H cfg_default
           (env_verifier 1000
              (FetchResponse 503 (Some (mkBody (Some "Proof verification failed") false))))
           (env_verifier 1000 (FetchResponse 200 (Some (mkBody None false))))
           id_1 proof_dto_1
           (world_of (intent_pending "0.05" 600000))
           (intent_pending "0.05" 600000)).
  - reflexivity.
  - reflexivity.
  - reflexivity.
  - split; reflexivity.
  - vm_compute. reflexivity.
Qed.

(** C2, what the code does: [submitSolanaProof] never looks at
    [expires_at].  For an intent stored as PENDING whose [expires_at] is
    already past, a proof the facilitator accepts is sent for
    verification, the source-leg columns are written and the status
    becomes SOL_SETTLED. *)
Theorem submit_ignores_expiry cfg env id dto w i :
  db w !! id = Some i ->
  status i = PENDING ->
  is_past env i = true ->
  verify_result cfg env (settle_proof dto) = Ok tt ->
  exists ack i',
    submitSolanaProof cfg env id dto w
      = (mkWorld (<[id := i']> (db w))
           (trace w ++ [EvFetch (facilitatorUrl cfg ++ "/verify") (settle_proof dto);
                        EvSetImmediate id]),
         Ok ack)
    /\ s_status ack = SOL_SETTLED
    /\ status i' = SOL_SETTLED
    /\ sol_settle_proof i' = Some (settle_proof dto)
    /\ sol_tx_hash i' = Some (tx_hash dto)
    /\ sol_settled_at i' = Some (now env).
Proof.
  intros Hi Hs _ Hv.
  rewrite (submit_accepted _ _ _ _ _ _ Hi Hs Hv).
  eexists _, _. split; [reflexivity|]. simpl. repeat split.
Qed.

Lemma submit_ignores_expiry_witness :
  let i := intent_pending "0.05" 600000 in
  let env := env_funded 900000 0 in
  exists ack i',
    submitSolanaProof cfg_default env id_1 proof_dto_1 (world_of i)
      = (mkWorld (<[id_1 := i']> (db (world_of i)))
           [EvFetch "https://x402.org/facilitator/verify" "proof-1";
            EvSetImmediate id_1],
         Ok ack)
    /\ s_status ack = SOL_SETTLED
    /\ status i' = SOL_SETTLED
    /\ sol_settle_proof i' = Some "proof-1"
    /\ sol_tx_hash i' = Some "S1"
    /\ sol_settled_at i' = Some 900000.
Proof.
  intros i env.
  apply (submit_ignores_expiry cfg_default env id_1 proof_dto_1 (world_of i) i).
  - reflexivity.
  - reflexivity.
  - reflexivity.
  - reflexivity.
Defined.

(** ** Triggers, one after another and interleaved (C1) *)

Lemma count_execute_app id (l1 l2 : list Event) :
  count_execute id (l1 ++ l2) = (count_execute id l1 + count_execute id l2)%nat.
Proof. unfold count_execute. by rewrite List.filter_app, length_app. Qed.

Lemma execute_events_count cfg env request :
  count_execute (req_intentId request) (execute_events cfg env request) = 1%nat.
Proof.
  unfold execute_events, executePayment, count_execute. unfold_M; simpl.
  destruct (account_address env); simpl;
    [destruct (amountInUsdc (req_amount request)); simpl;
     [destruct (balanceOf env); simpl;
      [destruct (JS.lt _ _); simpl;
       [|destruct (writeContract env _ _); simpl;
         [destruct (waitForTransactionReceipt env _); simpl|]]|]|]|];
    rewrite bool_decide_eq_true_2 by done;
    rewrite ?bool_decide_eq_false_2 by done; reflexivity.
Qed.

(** A task run without interruption is the call itself. *)
Lemma run_alone_is_call cfg env id w :
  run_alone cfg env 5 (TFind id) w =
    (fst (triggerBasePayment cfg env id w),
     TDone (snd (triggerBasePayment cfg env id w))).
Proof.
  destruct (db w !! id) as [i|] eqn:Hi.
  - destruct (decide (status i = SOL_SETTLED)) as [Hs|Hs].
    + destruct (execute_result cfg env (request_of i)) as [res|e] eqn:Hr.
      * rewrite (trigger_settles _ _ _ _ _ Hi Hs _ Hr).
        cbn [run_alone step_trigger fst snd].
        unfold findUnique. rewrite Hi, bool_decide_eq_true_2 by done.
        cbn [negb run_alone step_trigger].
        unfold update at 1. rewrite Hi.
        cbn [run_alone step_trigger].
        rewrite executePayment_frame, Hr.
        cbn [run_alone step_trigger db trace].
        unfold update. cbn [db trace]. rewrite lookup_insert_eq.
        by rewrite insert_insert_eq.
      * rewrite (trigger_rolls_back _ _ _ _ _ Hi Hs _ Hr).
        cbn [run_alone step_trigger fst snd].
        unfold findUnique. rewrite Hi, bool_decide_eq_true_2 by done.
        cbn [negb run_alone step_trigger].
        unfold update at 1. rewrite Hi.
        cbn [run_alone step_trigger].
        rewrite executePayment_frame, Hr.
        cbn [run_alone step_trigger db trace].
        unfold update. cbn [db trace]. rewrite lookup_insert_eq.
        rewrite insert_insert_eq, rollback_restores by done.
        by rewrite insert_id.
    + rewrite (trigger_wrong_status _ _ _ _ _ Hi Hs).
      cbn [run_alone step_trigger fst snd].
      unfold findUnique. rewrite Hi, bool_decide_eq_false_2 by done.
      reflexivity.
  - rewrite trigger_not_found by done.
    cbn [run_alone step_trigger fst snd].
    unfold findUnique. by rewrite Hi.
Qed.

Lemma trigger_each_rejected cfg envs id w i :
  db w !! id = Some i -> status i <> SOL_SETTLED ->
  trigger_each cfg envs id w =
    (w, map (fun _ => Throw (BadRequestException
                        ("Solana payment not settled for intent " ++ id
                         ++ " (current status: " ++ status_name (status i) ++ ")")))
          envs).
Proof.
  intros Hi Hs. induction envs as [|env envs IH]; [reflexivity|].
  simpl. rewrite (trigger_wrong_status _ _ _ _ _ Hi Hs). by rewrite IH.
Qed.

(** Calls one after another: the first settles, the others are refused. *)
Lemma trigger_each_first_settles cfg env envs id w i res :
  db w !! id = Some i ->
  intent_id i = id ->
  status i = SOL_SETTLED ->
  execute_result cfg env (request_of i) = Ok res ->
  snd (trigger_each cfg (env :: envs) id w)
     = Ok {| t_success := true;
             t_message := "Base payment completed";
             t_base_tx_hash := Some (txHash res);
             t_status := BASE_SETTLED |}
       :: map (fun _ => Throw (BadRequestException
                  ("Solana payment not settled for intent " ++ id
                   ++ " (current status: BASE_SETTLED)")))
            envs
  /\ count_execute id (trace (fst (trigger_each cfg (env :: envs) id w)))
     = (count_execute id (trace w) + 1)%nat
  /\ exists i',
       db (fst (trigger_each cfg (env :: envs) id w)) !! id = Some i'
       /\ status i' = BASE_SETTLED
       /\ base_tx_hash i' = Some (txHash res).
Proof.
  intros Hi Hid Hs Hr.
  simpl. rewrite (trigger_settles _ _ _ _ _ Hi Hs _ Hr).
  set (i' := apply_data (settled_data env res)
               (apply_data (data_status BASE_SETTLING) i)).
  set (w1 := mkWorld _ _).
  assert (H1 : db w1 !! id = Some i') by apply lookup_insert_eq.
  assert (Hs1 : status i' <> SOL_SETTLED) by done.
  rewrite (trigger_each_rejected cfg envs id w1 i' H1 Hs1). simpl.
  repeat split.
  - rewrite count_execute_app. f_equal.
    rewrite <- Hid at 1. apply (execute_events_count cfg env (request_of i)).
  - exists i'. repeat split. exact H1.
Qed.

Lemma run_schedule_app cfg env s1 s2 st :
  run_schedule cfg env (s1 ++ s2) st
    = run_schedule cfg env s2 (run_schedule cfg env s1 st).
Proof. unfold run_schedule. by rewrite fold_left_app. Qed.

Lemma run_schedule_one_task cfg env i fuel :
  forall pool t w,
    pool !! i = Some t ->
    run_schedule cfg env (replicate fuel i) (pool, w)
      = (<[i := snd (run_alone cfg env fuel t w)]> pool,
         fst (run_alone cfg env fuel t w)).
Proof.
  induction fuel as [|fuel IH]; intros pool t w Hi.
  - simpl. by rewrite list_insert_id.
  - cbn [replicate run_schedule fold_left step_pool]. rewrite Hi.
    destruct (step_trigger cfg env t w) as [w1 t1] eqn:Hstep.
    fold (run_schedule cfg env (replicate fuel i) (<[i:=t1]> pool, w1)).
    rewrite (IH _ t1).
    + cbn [run_alone]. rewrite Hstep. by rewrite list_insert_insert_eq.
    + apply list_lookup_insert_eq. by eapply lookup_lt_Some.
Qed.

(** Run one after another, the tasks are the calls of [trigger_each]. *)
Lemma sequential_schedule_is_trigger_each cfg env id (done_ : list TriggerTask) n :
  forall w,
    run_schedule cfg env (flat_map (fun i => replicate 5 i) (seq (length done_) n))
      ((done_ ++ replicate n (TFind id))%list, w)
    = ((done_ ++ map TDone (snd (trigger_each cfg (replicate n env) id w)))%list,
       fst (trigger_each cfg (replicate n env) id w)).
Proof.
  revert done_. induction n as [|n IH]; intros done_ w.
  - reflexivity.
  - cbn [seq flat_map]. rewrite run_schedule_app.
    rewrite (run_schedule_one_task cfg env _ 5 _ (TFind id)).
    2:{ rewrite lookup_app_r by lia. by rewrite Nat.sub_diag. }
    rewrite run_alone_is_call. cbn [fst snd].
    cbn [replicate trigger_each].
    destruct (triggerBasePayment cfg env id w) as [w1 r] eqn:Hcall.
    cbn [fst snd].
    replace (<[length done_:=TDone r]> (done_ ++ TFind id :: replicate n (TFind id))%list)
      with ((done_ ++ [TDone r]) ++ replicate n (TFind id))%list.
    2:{ rewrite insert_app_r_alt by lia. rewrite Nat.sub_diag. simpl.
        by rewrite <- app_assoc. }
    replace (S (length done_)) with (length (done_ ++ [TDone r])%list)
      by (rewrite length_app; simpl; lia).
    rewrite IH.
    destruct (trigger_each cfg (replicate n env) id w1) as [w2 rs].
    cbn [fst snd map]. by rewrite <- app_assoc.
Qed.

Lemma sequential_schedule_executes_once cfg env id w i res (n : nat) :
  db w !! id = Some i ->
  intent_id i = id ->
  status i = SOL_SETTLED ->
  execute_result cfg env (request_of i) = Ok res ->
  let final := run_schedule cfg env (sequential_schedule (S n))
                 (replicate (S n) (TFind id), w) in
  forallb is_done (fst final) = true
  /\ count_execute id (trace (snd final)) = (count_execute id (trace w) + 1)%nat.
Proof.
  intros Hi Hid Hs Hr. unfold sequential_schedule.
  pose proof (sequential_schedule_is_trigger_each cfg env id [] (S n) w) as H.
  change (length (@nil TriggerTask)) with 0%nat in H.
  rewrite !app_nil_l in H. rewrite H. cbn [fst snd].
  split.
  - apply forallb_forall. intros t [r [<- _]]%in_map_iff. reflexivity.
  - change (replicate (S n) env) with (env :: replicate n env).
    apply (trigger_each_first_settles cfg env (replicate n env) id w i res
             Hi Hid Hs Hr).
Qed.

(** C1, as the code has it.  The move to BASE_SETTLING is a write keyed on
    [intent_id] alone, made after a separate read: whatever the stored
    status is by then, the task that passed the check on its own snapshot
    overwrites it.  When the calls run one after another and the first
    [executePayment] succeeds, [executePayment] is entered exactly once,
    the first call completes the intent and every later call fails with
    the [BadRequestException] for a status that is not SOL_SETTLED; the
    same holds of the tasks under the schedule that runs each to its end
    before the next starts.  (The record is stored under its own
    [intent_id], as [run_ops_keys] shows for every store the service
    builds.) *)
Theorem sequential_triggers_execute_once cfg env envs id w i res :
  db w !! id = Some i ->
  intent_id i = id ->
  status i = SOL_SETTLED ->
  execute_result cfg env (request_of i) = Ok res ->
  (forall w0 now_stored snapshot,
      db w0 !! id = Some now_stored ->
      step_trigger cfg env (TMark id snapshot) w0
        = (mkWorld (<[id := apply_data (data_status BASE_SETTLING) now_stored]> (db w0))
             (trace w0),
           TExec id snapshot))
  /\ snd (trigger_each cfg (env :: envs) id w)
     = Ok {| t_success := true;
             t_message := "Base payment completed";
             t_base_tx_hash := Some (txHash res);
             t_status := BASE_SETTLED |}
       :: map (fun _ => Throw (BadRequestException
                  ("Solana payment not settled for intent " ++ id
                   ++ " (current status: BASE_SETTLED)")))
            envs
  /\ count_execute id (trace (fst (trigger_each cfg (env :: envs) id w)))
     = (count_execute id (trace w) + 1)%nat
  /\ (exists i',
        db (fst (trigger_each cfg (env :: envs) id w)) !! id = Some i'
        /\ status i' = BASE_SETTLED
        /\ base_tx_hash i' = Some (txHash res))
  /\ (forall n : nat,
        forallb is_done
          (fst (run_schedule cfg env (sequential_schedule (S n))
                  (replicate (S n) (TFind id), w))) = true
        /\ count_execute id
             (trace (snd (run_schedule cfg env (sequential_schedule (S n))
                            (replicate (S n) (TFind id), w))))
           = (count_execute id (trace w) + 1)%nat).
Proof.
  intros Hi Hid Hs Hr. split.
  { intros w0 now_stored snapshot H0. simpl. unfold update. by rewrite H0. }
  destruct (trigger_each_first_settles cfg env envs id w i res Hi Hid Hs Hr)
    as (H1 & H2 & H3).
  repeat (split; [assumption|]).
  intros n. apply (sequential_schedule_executes_once cfg env id w i res n);
    assumption.
Qed.

Lemma sequential_triggers_execute_once_witness :
  let w := world_of (intent_settled "0.05") in
  let env := env_funded 5000 1000000 in
  count_execute id_1 (trace (fst (trigger_each cfg_default [env; env; env] id_1 w)))
    = 1%nat.
Proof.
  intros w env.
  destruct (sequential_triggers_execute_once cfg_default env [env; env] id_1 w
              (intent_settled "0.05")
              (mkResult "0xfeed" (Some "base_settlement_0xfeed")))
    as (_ & _ & H & _).
  - reflexivity.
  - reflexivity.
  - reflexivity.
  - vm_compute. reflexivity.
  - exact H.
Defined.

(** C1, counterexample to the claim as stated: two calls whose steps
    alternate both read SOL_SETTLED before either writes, both write
    BASE_SETTLING and both enter [executePayment]. *)
Lemma executes_once_under_every_schedule_fails :
  ~ executes_once_under_every_schedule.
Proof.
  intros H.
  pose (w := world_of (intent_settled "0.05")).
  pose (env := env_funded 5000 1000000).
  pose (schedule := [0; 1; 0; 1; 0; 1; 0; 1]%nat).
  pose (final := run_schedule cfg_default env schedule
                   (replicate 2 (TFind id_1), w)).
  specialize (H cfg_default env w id_1 (intent_settled "0.05") 2%nat schedule
                (fst final) (snd final)).
  assert (Hcount : count_execute id_1 (trace (snd final)) = 2%nat)
    by (vm_compute; reflexivity).
  rewrite Hcount in H.
  specialize (H eq_refl eq_refl ltac:(lia) (surjective_pairing final)
                ltac:(vm_compute; reflexivity)).
  discriminate H.
Qed.

(** ** The balance check (C3) *)

Lemma round_pos_small z :
  0 < z < 2 ^ 53 ->
  JS.round_pos false z 1
    = JS.Fin false (z * 2 ^ (52 - Z.log2 z)) (Z.log2 z - 52).
Proof.
  intros Hz.
  pose proof (Z.log2_spec z ltac:(lia)) as Hl.
  pose proof (Z.log2_nonneg z) as Hl0.
  assert (Hl52 : Z.log2 z < 53) by (apply Z.log2_lt_pow2; lia).
  set (l := Z.log2 z) in *.
  assert (Hpow : 2 ^ l * 2 ^ (52 - l) = 2 ^ 52)
    by (rewrite <- Z.pow_add_r by lia; f_equal; lia).
  assert (Hsucc : 2 ^ Z.succ l = 2 * 2 ^ l) by (apply Z.pow_succ_r; lia).
  assert (HK : 0 < 2 ^ (52 - l)) by (apply Z.pow_pos_nonneg; lia).
  assert (Hlo : 2 ^ 52 <= z * 2 ^ (52 - l)) by nia.
  assert (Hhi : z * 2 ^ (52 - l) < 2 ^ 53).
  { change (2 ^ 53) with (2 * 2 ^ 52). nia. }
  assert (Hscale : JS.scale2 z 1 (l - 52) = (z * 2 ^ (52 - l), 1)).
  { unfold JS.scale2. destruct (Z.leb_spec 0 (l - 52)) as [H|H].
    - assert (l = 52) as -> by lia. simpl. f_equal. lia.
    - f_equal. f_equal. f_equal. lia. }
  unfold JS.round_pos.
  destruct (Z.eqb_spec z 0) as [?|_]; [lia|].
  assert (He : JS.exponent_of z 1 = l - 52).
  { unfold JS.exponent_of. fold l. change (Z.log2 1) with 0.
    replace (l - 0 - 52) with (l - 52) by lia. rewrite Hscale.
    destruct (Z.leb_spec (2 ^ 52 * 1) (z * 2 ^ (52 - l))) as [_|H]; [|lia].
    unfold JS.emin. lia. }
  rewrite He, Hscale.
  assert (Hr : JS.rne (z * 2 ^ (52 - l)) 1 = z * 2 ^ (52 - l)).
  { unfold JS.rne. rewrite Z.mod_1_r, Z.div_1_r. reflexivity. }
  rewrite Hr.
  destruct (Z.eqb_spec (z * 2 ^ (52 - l)) (2 ^ 53)) as [H|_]; [lia|].
  destruct (Z.ltb_spec JS.emax (l - 52)) as [H|_];
    [unfold JS.emax in H; lia|].
  reflexivity.
Qed.

Lemma Number_of_bigint_exact z :
  0 <= z <= 2 ^ 53 ->
  exists m e, JS.Number_of_bigint z = JS.Fin false m e /\ same_value z m e.
Proof.
  intros Hz.
  destruct (decide (z = 0)) as [->|H0];
    [exists 0, JS.emin; split; [reflexivity|split; [lia|reflexivity]]|].
  destruct (decide (z = 2 ^ 53)) as [->|H53].
  { exists (2 ^ 52), 1. split; [vm_compute; reflexivity|].
    split; [unfold JS.emin; lia|vm_compute; reflexivity]. }
  unfold JS.Number_of_bigint.
  destruct (Z.ltb_spec z 0) as [?|_]; [lia|].
  rewrite Z.abs_eq by lia. rewrite round_pos_small by lia.
  eexists _, _. split; [reflexivity|].
  pose proof (Z.log2_nonneg z).
  assert (Z.log2 z < 53) by (apply Z.log2_lt_pow2; lia).
  unfold same_value, JS.emin. split; [lia|].
  rewrite <- Z.mul_assoc, <- Z.pow_add_r by lia.
  f_equal. f_equal. lia.
Qed.

Lemma lt_same_value a b ma ea mb eb :
  same_value a ma ea -> same_value b mb eb ->
  JS.lt (JS.Fin false ma ea) (JS.Fin false mb eb) = (a <? b).
Proof.
  unfold same_value, JS.emin. intros [Hea Ha] [Heb Hb]. unfold JS.lt.
  set (lo := Z.min ea eb).
  assert (Hlo : -1074 <= lo) by (unfold lo; lia).
  assert (HP : 0 < 2 ^ (lo - -1074)) by (apply Z.pow_pos_nonneg; lia).
  assert (HQ : 0 < 2 ^ (- -1074)) by (apply Z.pow_pos_nonneg; lia).
  assert (Hxa : ma * 2 ^ (ea - lo) * 2 ^ (lo - -1074) = a * 2 ^ (- -1074)).
  { rewrite <- Ha, <- Z.mul_assoc, <- Z.pow_add_r by (unfold lo; lia).
    f_equal. f_equal. lia. }
  assert (Hxb : mb * 2 ^ (eb - lo) * 2 ^ (lo - -1074) = b * 2 ^ (- -1074)).
  { rewrite <- Hb, <- Z.mul_assoc, <- Z.pow_add_r by (unfold lo; lia).
    f_equal. f_equal. lia. }
  destruct (Z.ltb_spec (ma * 2 ^ (ea - lo)) (mb * 2 ^ (eb - lo)));
    destruct (Z.ltb_spec a b); try reflexivity; nia.
Qed.

(** Below [2^53] base units the comparison through [Number] is the
    comparison of the integers. *)
Lemma balance_check_exact balance amountUnits :
  0 <= balance <= 2 ^ 53 -> 0 <= amountUnits <= 2 ^ 53 ->
  JS.lt (JS.Number_of_bigint balance) (JS.Number_of_bigint amountUnits)
    = (balance <? amountUnits).
Proof.
  intros Hb Ha.
  destruct (Number_of_bigint_exact _ Hb) as (mb & eb & -> & Hvb).
  destruct (Number_of_bigint_exact _ Ha) as (ma & ea & -> & Hva).
  by apply lt_same_value.
Qed.

(** Up to [2^53] base units an underfunded wallet stops [executePayment]
    after the balance query: the error names the shortfall and
    [writeContract] is never called. *)
Lemma insufficient_balance_fails_fast cfg env request acct amountUnits balance :
  account_address env = Ok acct ->
  amountInUsdc (req_amount request) = Ok amountUnits ->
  balanceOf env = Ok balance ->
  0 <= balance < amountUnits ->
  amountUnits <= 2 ^ 53 ->
  execute_result cfg env request
    = Throw (Error (insufficient_message balance (req_amount request)))
  /\ execute_events cfg env request
     = [EvExecute (req_intentId request);
        EvBalanceOf (usdcContractAddress cfg) acct].
Proof.
  intros Hacct Hamt Hbal Hlt Hmax.
  unfold execute_result, execute_events, executePayment. unfold_M; simpl.
  rewrite Hacct, Hamt. simpl. rewrite Hbal. simpl.
  rewrite balance_check_exact by lia.
  destruct (Z.ltb_spec balance amountUnits); [|lia].
  split; reflexivity.
Qed.

(** In that range the enclosing [triggerBasePayment] fails with the
    internal-server error and the store is as before the call, so that a
    second call, once the wallet is funded and the transfer confirmed,
    completes the intent. *)
Lemma underfunded_trigger_rolls_back_then_retries
    cfg env env' id w i acct amountUnits balance res :
  db w !! id = Some i ->
  status i = SOL_SETTLED ->
  account_address env = Ok acct ->
  amountInUsdc (req_amount (request_of i)) = Ok amountUnits ->
  balanceOf env = Ok balance ->
  0 <= balance < amountUnits ->
  amountUnits <= 2 ^ 53 ->
  execute_result cfg env' (request_of i) = Ok res ->
  let w1 := fst (triggerBasePayment cfg env id w) in
  snd (triggerBasePayment cfg env id w)
    = Throw (InternalServerErrorException
               ("Base payment failed: "
                ++ insufficient_message balance (req_amount (request_of i))))
  /\ db w1 = db w
  /\ transfers (trace w1) = transfers (trace w)
  /\ exists ack i',
       snd (triggerBasePayment cfg env' id w1) = Ok ack
       /\ t_status ack = BASE_SETTLED
       /\ db (fst (triggerBasePayment cfg env' id w1)) !! id = Some i'
       /\ status i' = BASE_SETTLED.
Proof.
  intros Hi Hs Hacct Hamt Hbal Hlt Hmax Hres.
  destruct (insufficient_balance_fails_fast cfg env (request_of i) acct
              amountUnits balance Hacct Hamt Hbal Hlt Hmax) as [Hr Hev].
  rewrite (trigger_rolls_back _ _ _ _ _ Hi Hs _ Hr). simpl.
  repeat split.
  - rewrite Hev. unfold transfers. rewrite List.filter_app. simpl.
    by rewrite app_nil_r.
  - set (w1 := mkWorld _ _).
    rewrite (trigger_settles cfg env' id w1 i Hi Hs res Hres). simpl.
    eexists _, _. repeat split; [apply lookup_insert_eq|reflexivity].
Qed.

(** C3, the failing input.  The intent asks for 9007199254.740993 USDC (an
    amount [POST /intents] accepts and stores as this very text), that is
    [2^53 + 1] base units; the wallet holds [2^53].  Both become
    the same double under [Number], the comparison is false, and
    [executePayment] calls [writeContract] for the full amount; the error
    that comes back is the chain's, not the balance check's. *)
Theorem balance_check_misses_one_unit :
  let i := intent_settled "9007199254.740993" in
  valid_CreateIntentDto
    (mkCreateDto (JS.parseFloat "9007199254.740993") recipient_1) = true
  /\ amount (new_intent (env_funded 0 0)
               (mkCreateDto (JS.parseFloat "9007199254.740993") recipient_1))
     = "9007199254.740993"
  /\ amountInUsdc (req_amount (request_of i)) = Ok 9007199254740993
  /\ balanceOf env_one_unit_short = Ok 9007199254740992
  /\ JS.lt (JS.Number_of_bigint 9007199254740992)
           (JS.Number_of_bigint 9007199254740993) = false
  /\ execute_events cfg_default env_one_unit_short (request_of i)
     = [EvExecute id_1;
        EvBalanceOf "0x036CbD53842c5426634e7929541eC2318f3dCF7e"
          "0x1111111111111111111111111111111111111111";
        EvTransfer "0x036CbD53842c5426634e7929541eC2318f3dCF7e"
          recipient_1 9007199254740993]
  /\ snd (triggerBasePayment cfg_default env_one_unit_short id_1 (world_of i))
     = Throw (InternalServerErrorException
                "Base payment failed: execution reverted: ERC20: transfer amount exceeds balance").
Proof. vm_compute. repeat split; reflexivity. Qed.


(** ** The amount path (C4) *)

Lemma triple_eq {A B C : Type} (a a' : A) (b b' : B) (c c' : C) :
  a = a' -> b = b' -> c = c' -> (a, b, c) = (a', b', c').
Proof. by intros -> -> ->. Qed.

Lemma app_nil_l_s (t : string) : ("" ++ t)%string = t.
Proof. reflexivity. Qed.

Lemma app_cons_s c (s t : string) : (String c s ++ t)%string = String c (s ++ t).
Proof. reflexivity. Qed.

Lemma app_nil_r_s (s : string) : (s ++ "")%string = s.
Proof. induction s; rewrite ?app_cons_s; [reflexivity|congruence]. Qed.

Lemma len_nil : Viem.len "" = 0.
Proof. reflexivity. Qed.

Lemma len_cons c s : Viem.len (String c s) = Viem.len s + 1.
Proof. unfold Viem.len. simpl String.length. lia. Qed.

Lemma len_nonneg s : 0 <= Viem.len s.
Proof. unfold Viem.len. lia. Qed.

Lemma len_app a b : Viem.len (a ++ b) = Viem.len a + Viem.len b.
Proof.
  induction a; rewrite ?app_cons_s, ?app_nil_l_s, ?len_cons, ?len_nil; lia.
Qed.

Lemma all_digits_app a b :
  all_digits (a ++ b) = all_digits a && all_digits b.
Proof.
  induction a; rewrite ?app_cons_s, ?app_nil_l_s; simpl; [done|].
  by rewrite IHa, andb_assoc.
Qed.

Lemma scan_digits_stops r acc cnt :
  stops r -> JS.scan_digits r acc cnt = (acc, cnt, r).
Proof. destruct r as [|c r]; simpl; [done|]. by intros ->. Qed.

Lemma BigInt_nil : Viem.BigInt "" = 0.
Proof. reflexivity. Qed.

(** Reading digits: the accumulator shifts by the digits read. *)
Lemma scan_digits_app ds r :
  all_digits ds = true -> stops r ->
  forall acc cnt,
    JS.scan_digits (ds ++ r) acc cnt
      = (acc * 10 ^ Viem.len ds + Viem.BigInt (ds ++ r), cnt + Viem.len ds, r).
Proof.
  intros Hds Hr. induction ds as [|c ds IH]; intros acc cnt.
  - rewrite app_nil_l_s. unfold Viem.BigInt. rewrite !scan_digits_stops by done.
    rewrite len_nil. apply triple_eq; [lia|lia|done].
  - simpl in Hds. apply andb_true_iff in Hds as [Hc Hds].
    unfold JS.is_digit in Hc.
    destruct (JS.digit_of c) as [d|] eqn:Hd; [|done].
    specialize (IH Hds). rewrite app_cons_s.
    unfold Viem.BigInt. simpl. rewrite Hd, !IH.
    rewrite len_cons, Z.pow_add_r, Z.pow_1_r by (pose proof (len_nonneg ds); lia).
    apply triple_eq; [lia|lia|done].
Qed.

Lemma BigInt_prefix ds r :
  all_digits ds = true -> stops r -> Viem.BigInt (ds ++ r) = Viem.BigInt ds.
Proof.
  intros Hds Hr. induction ds as [|c ds IH].
  - rewrite app_nil_l_s. unfold Viem.BigInt. by rewrite scan_digits_stops.
  - simpl in Hds. apply andb_true_iff in Hds as [Hc Hds].
    unfold JS.is_digit in Hc.
    destruct (JS.digit_of c) as [d|] eqn:Hd; [|done].
    rewrite app_cons_s. unfold Viem.BigInt at 1 2. simpl. rewrite Hd.
    rewrite (scan_digits_app ds r Hds Hr).
    pose proof (scan_digits_app ds "" Hds I (10 * 0 + d) (0 + 1)) as H0.
    rewrite app_nil_r_s in H0. rewrite H0.
    by rewrite IH.
Qed.

Lemma scan_all_digits ds acc cnt :
  all_digits ds = true ->
  JS.scan_digits ds acc cnt
    = (acc * 10 ^ Viem.len ds + Viem.BigInt ds, cnt + Viem.len ds, "").
Proof.
  intros Hds. pose proof (scan_digits_app ds "" Hds I acc cnt) as H.
  by rewrite app_nil_r_s in H.
Qed.

(** The integer of two runs of digits written one after the other. *)
Lemma BigInt_app a b :
  all_digits a = true -> all_digits b = true ->
  Viem.BigInt (a ++ b) = Viem.BigInt a * 10 ^ Viem.len b + Viem.BigInt b.
Proof.
  intros Ha Hb. induction a as [|c a IH].
  - rewrite app_nil_l_s, BigInt_nil. lia.
  - simpl in Ha. apply andb_true_iff in Ha as [Hc Ha].
    unfold JS.is_digit in Hc.
    destruct (JS.digit_of c) as [d|] eqn:Hd; [|done].
    specialize (IH Ha). rewrite app_cons_s.
    assert (Hab : all_digits (a ++ b) = true) by (by rewrite all_digits_app, Ha, Hb).
    unfold Viem.BigInt at 1 2. simpl. rewrite Hd.
    rewrite (scan_all_digits (a ++ b)), (scan_all_digits a) by done.
    rewrite IH, len_app, Z.pow_add_r by apply len_nonneg.
    lia.
Qed.

Lemma zeros_digits n : all_digits (JS.zeros n) = true.
Proof. induction n; simpl; done. Qed.

Lemma zeros_len n : Viem.len (JS.zeros n) = Z.of_nat n.
Proof. induction n; simpl JS.zeros; rewrite ?len_cons, ?len_nil; lia. Qed.

Lemma zeros_BigInt n : Viem.BigInt (JS.zeros n) = 0.
Proof.
  induction n; [reflexivity|].
  change (JS.zeros (S n)) with (String "0" "" ++ JS.zeros n)%string.
  rewrite BigInt_app, IHn by (apply zeros_digits || done).
  reflexivity.
Qed.

Create Rewrite HintDb digits.
#[local] Hint Rewrite app_nil_l_s app_cons_s app_nil_r_s
  len_nil len_cons len_app zeros_len zeros_BigInt BigInt_nil : digits.

(** Dropping the trailing zeros of a run of digits. *)
Lemma strip_trailing_zeros_spec fp :
  all_digits fp = true ->
  exists j : nat,
    fp = (Viem.strip_trailing_zeros fp ++ JS.zeros j)%string
    /\ all_digits (Viem.strip_trailing_zeros fp) = true.
Proof.
  induction fp as [|c fp IH]; intros Hfp.
  - by exists 0%nat.
  - simpl in Hfp. apply andb_true_iff in Hfp as [Hc Hfp].
    destruct (IH Hfp) as (j & Heq & Hd). simpl.
    destruct (Viem.strip_trailing_zeros fp) as [|c' r'] eqn:Hs.
    + destruct (Ascii.eqb_spec c "0") as [->|Hne].
      * exists (S j). rewrite app_nil_l_s in *. simpl. by rewrite <- Heq.
      * exists j. rewrite app_cons_s. split; [by rewrite <- Heq|].
        simpl. by rewrite Hc.
    + exists j. rewrite app_cons_s. split; [by rewrite <- Heq|].
      cbn [all_digits]. by rewrite Hc.
Qed.

Lemma split_dot_digits ds :
  all_digits ds = true -> Viem.split_dot ds = (ds, None).
Proof.
  induction ds as [|c ds IH]; [done|]. simpl.
  intros [Hc Hds]%andb_true_iff. rewrite (IH Hds).
  destruct (Ascii.eqb_spec c "."); [by subst|done].
Qed.

Lemma split_dot_point ip fp :
  all_digits ip = true ->
  Viem.split_dot (ip ++ String "." fp) = (ip, Some fp).
Proof.
  induction ip as [|c ip IH]; [done|]. rewrite app_cons_s. simpl.
  intros [Hc Hds]%andb_true_iff. rewrite (IH Hds).
  destruct (Ascii.eqb_spec c "."); [by subst|done].
Qed.

Lemma digit_not_minus c r :
  JS.is_digit c = true ->
  match String c r with String "-" r' => r' | _ => String c r end = String c r.
Proof.
  intros Hc. destruct (Ascii.eqb_spec c "-") as [->|Hne]; [done|].
  destruct c as [[] [] [] [] [] [] [] []]; try reflexivity. done.
Qed.

Lemma digits_decompose s :
  exists ds r, s = (ds ++ r)%string /\ all_digits ds = true /\ stops r.
Proof.
  induction s as [|c s (ds & r & -> & Hds & Hr)].
  - by exists "", "".
  - destruct (JS.digit_of c) as [d|] eqn:Hd.
    + exists (String c ds), r. rewrite app_cons_s. repeat split; [|done].
      simpl. unfold JS.is_digit. by rewrite Hd.
    + by exists "", (String c (ds ++ r)).
Qed.

Lemma digits_not_negative ip :
  all_digits ip = true -> JS.starts_with "-" ip = false.
Proof.
  destruct ip as [|c ip]; [done|]. cbn [all_digits].
  intros [Hc _]%andb_true_iff. unfold JS.starts_with.
  change (String.prefix "-" (String c ip))
    with (if ascii_dec "-" c then String.prefix "" ip else false).
  destruct (ascii_dec "-" c) as [<-|]; [|done].
  vm_compute in Hc. discriminate Hc.
Qed.

Lemma syntax_digits ip :
  all_digits ip = true -> ip <> "" -> Viem.decimal_syntax ip = true.
Proof.
  intros Hip Hne. unfold Viem.decimal_syntax.
  destruct ip as [|c ip']; [done|].
  rewrite digit_not_minus by (simpl in Hip; by apply andb_true_iff in Hip as [? _]).
  rewrite scan_all_digits by done. reflexivity.
Qed.

Lemma syntax_point ip fp :
  all_digits ip = true -> ip <> "" -> all_digits fp = true ->
  Viem.decimal_syntax (ip ++ String "." fp) = true.
Proof.
  intros Hip Hne Hfp. unfold Viem.decimal_syntax.
  destruct ip as [|c ip']; [done|]. rewrite app_cons_s.
  rewrite digit_not_minus by (simpl in Hip; by apply andb_true_iff in Hip as [? _]).
  rewrite <- app_cons_s, scan_digits_app by done.
  rewrite scan_all_digits by done. reflexivity.
Qed.

(** [parseUnits] on digits: six zeros are appended. *)
Lemma parseUnits_digits ip :
  all_digits ip = true -> ip <> "" ->
  Viem.parseUnits ip 6 = Some (Viem.BigInt ip * 10 ^ 6).
Proof.
  intros Hip Hne. unfold Viem.parseUnits.
  rewrite syntax_digits, split_dot_digits, digits_not_negative by done.
  cbn [negb]. change (Viem.strip_trailing_zeros "0") with "".
  change (6 =? 0) with false. change (6 <? Viem.len "") with false.
  cbv iota. unfold Viem.padEnd. autorewrite with digits.
  rewrite BigInt_app by (apply zeros_digits || done).
  autorewrite with digits.
  f_equal. change (Z.of_nat (Z.to_nat (6 - 0))) with 6. lia.
Qed.

(** [parseUnits] on digits, a point and at most six digits: the fraction
    is padded to six digits. *)
Lemma parseUnits_point ip fp :
  all_digits ip = true -> ip <> "" -> all_digits fp = true ->
  Viem.len fp <= 6 ->
  Viem.parseUnits (ip ++ String "." fp) 6
    = Some ((Viem.BigInt ip * 10 ^ Viem.len fp + Viem.BigInt fp)
            * 10 ^ (6 - Viem.len fp)).
Proof.
  intros Hip Hne Hfp Hlen. unfold Viem.parseUnits.
  rewrite syntax_point, split_dot_point, digits_not_negative by done.
  cbn [negb]. change (6 =? 0) with false. cbv iota.
  destruct (strip_trailing_zeros_spec fp Hfp) as (j & Hfp_eq & Hs).
  set (f2 := Viem.strip_trailing_zeros fp) in *.
  assert (Hl : Viem.len fp = Viem.len f2 + Z.of_nat j)
    by (rewrite Hfp_eq at 1; by rewrite len_app, zeros_len).
  pose proof (len_nonneg f2) as Hf2.
  destruct (Z.ltb_spec 6 (Viem.len f2)) as [?|_]; [lia|].
  unfold Viem.padEnd.
  assert (Hfp_val : Viem.BigInt fp = Viem.BigInt f2 * 10 ^ Z.of_nat j).
  { rewrite Hfp_eq at 1.
    rewrite BigInt_app, zeros_len, zeros_BigInt by (apply zeros_digits || done).
    lia. }
  rewrite BigInt_app
    by (rewrite ?all_digits_app, ?Hs, ?zeros_digits; done).
  rewrite (BigInt_app f2), len_app, zeros_len, zeros_BigInt
    by (apply zeros_digits || done).
  rewrite Hfp_val, Hl. rewrite Z2Nat.id by lia.
  f_equal.
  replace (6 - (Viem.len f2 + Z.of_nat j)) with (6 - Viem.len f2 - Z.of_nat j) by lia.
  set (a := Viem.len f2) in *. set (b := Z.of_nat j) in *.
  assert (Hb : 0 <= b) by (unfold b; lia).
  rewrite (Z.pow_add_r 10 a b) by lia.
  rewrite (Z.pow_add_r 10 a (6 - a)) by lia.
  replace (6 - a) with (b + (6 - a - b)) at 1 2 by lia.
  rewrite (Z.pow_add_r 10 b (6 - a - b)) by lia.
  ring.
Qed.

Lemma plain_decimal_inv s mant nf :
  plain_decimal s = Some (mant, nf) ->
  (all_digits s = true /\ s <> "" /\ mant = Viem.BigInt s /\ nf = 0)
  \/ (exists ip fp,
        s = (ip ++ String "." fp)%string /\ all_digits ip = true /\ ip <> ""
        /\ all_digits fp = true
        /\ mant = Viem.BigInt ip * 10 ^ Viem.len fp + Viem.BigInt fp
        /\ nf = Viem.len fp).
Proof.
  destruct (digits_decompose s) as (ip & r & -> & Hip & Hr).
  unfold plain_decimal. rewrite scan_digits_app by done.
  destruct (Z.eqb_spec (0 + Viem.len ip) 0) as [?|Hlen]; [done|].
  assert (Hne : ip <> "") by (intros ->; by rewrite len_nil in Hlen).
  destruct r as [|c r].
  - rewrite app_nil_r_s. intros [= <- <-]. left.
    split; [done|]. split; [done|]. split; lia.
  - destruct (Ascii.eqb_spec c ".") as [->|Hc].
    + destruct (digits_decompose r) as (fp & r2 & -> & Hfp & Hr2).
      rewrite scan_digits_app by done.
      destruct r2; [|done]. rewrite app_nil_r_s. intros [= <- <-].
      right. exists ip, fp.
      split; [done|]. split; [done|]. split; [done|]. split; [done|].
      split; [|lia].
      rewrite BigInt_prefix by done. lia.
    + intros H. exfalso. revert H.
      destruct c as [[] [] [] [] [] [] [] []]; try done.
Qed.


(** Every transfer [executePayment] submits carries [transfer_units]. *)
Lemma execute_transfers cfg env intent :
  transfers (execute_events cfg env (request_of intent)) = []
  \/ exists units,
       transfer_units intent = Ok units
       /\ transfers (execute_events cfg env (request_of intent))
          = [EvTransfer (usdcContractAddress cfg) (merchant_recipient intent) units].
Proof.
  unfold transfer_units, execute_events, executePayment, transfers.
  unfold_M; simpl.
  destruct (account_address env); simpl; [|by left].
  destruct (amountInUsdc _) as [units|]; simpl; [|by left].
  destruct (balanceOf env); simpl; [|by left].
  destruct (JS.lt _ _); simpl; [by left|].
  right. exists units. split; [done|].
  destruct (writeContract env _ _); simpl; [|done].
  destruct (waitForTransactionReceipt env _); done.
Qed.

(** The double is already there at intake: the request text
    123456789012.345678 denotes a number whose shortest decimal text,
    the one [createIntent] stores, is 123456789012.34567, and the
    transfer is for that stored amount. *)
Example amount_rounded_at_intake :
  let dto := mkCreateDto (JS.parseFloat "123456789012.345678") recipient_1 in
  valid_CreateIntentDto dto = true
  /\ amount (new_intent (env_funded 0 0) dto) = "123456789012.34567"
  /\ transfer_units (new_intent (env_funded 0 0) dto) = Ok 123456789012345670.
Proof. vm_compute. repeat split; reflexivity. Qed.

(** Two stored amounts that are the same double are transferred alike. *)
Lemma transfer_units_through_double a b :
  JS.parseFloat (amount a) = JS.parseFloat (amount b) ->
  transfer_units a = transfer_units b.
Proof. unfold transfer_units, request_of. simpl. by intros ->. Qed.

(** A stored decimal with at most 6 fractional digits that comes back
    from the double unchanged is scaled exactly. *)
Lemma stored_amount_scaled_when_roundtrip intent mant nf :
  plain_decimal (amount intent) = Some (mant, nf) ->
  nf <= 6 ->
  JS.toString (JS.parseFloat (amount intent)) = amount intent ->
  transfer_units intent = Ok (mant * 10 ^ (6 - nf)).
Proof.
  intros Hs Hnf Hround.
  unfold transfer_units, request_of, amountInUsdc. simpl.
  rewrite Hround.
  destruct (plain_decimal_inv _ _ _ Hs)
    as [(Hd & Hne & -> & ->)|(ip & fp & -> & Hip & Hne & Hfp & -> & ->)].
  - by rewrite parseUnits_digits.
  - by rewrite parseUnits_point.
Qed.

(** C4, as the code has it.  The amount is a double from the request on:
    [createIntent] stores [toString] of the number in the body,
    [triggerBasePayment] reads the stored text back with [parseFloat],
    and [executePayment] scales [toString] of that number by [10^6] with
    [parseUnits], integer arithmetic on the text.  For a requested
    decimal with at most 6 fractional digits that the double gives back
    unchanged, the stored amount is the requested text and the integer
    handed to the token contract, for the record in any later state, is
    the requested amount times [10^6] exactly; no transfer for another
    value is submitted. *)
Theorem requested_amount_scaled_exactly_when_roundtrip
    cfg env env' text recipient intent mant nf :
  plain_decimal text = Some (mant, nf) ->
  nf <= 6 ->
  JS.toString (JSON_number text) = text ->
  creation_fields_same intent
    (new_intent env (mkCreateDto (JSON_number text) recipient)) ->
  amount intent = text
  /\ transfer_units intent = Ok (mant * 10 ^ (6 - nf))
  /\ (transfers (execute_events cfg env' (request_of intent)) = []
      \/ transfers (execute_events cfg env' (request_of intent))
         = [EvTransfer (usdcContractAddress cfg) recipient
              (mant * 10 ^ (6 - nf))]).
Proof.
  intros Hs Hnf Hround Hsame.
  assert (Ha : amount intent = text).
  { destruct Hsame as (_ & -> & _). simpl. exact Hround. }
  assert (Hr : merchant_recipient intent = recipient).
  { destruct Hsame as (_ & _ & -> & _). reflexivity. }
  assert (Hunits : transfer_units intent = Ok (mant * 10 ^ (6 - nf))).
  { apply stored_amount_scaled_when_roundtrip; rewrite ?Ha; done. }
  split; [exact Ha|]. split; [exact Hunits|].
  destruct (execute_transfers cfg env' intent) as [H|(units & Hu & H)];
    [by left|right].
  rewrite Hunits in Hu. injection Hu as <-. by rewrite <- Hr.
Qed.

Lemma requested_amount_scaled_exactly_when_roundtrip_witness :
  let intent := intent_settled "0.05" in
  amount intent = "0.05"
  /\ transfer_units intent = Ok 50000
  /\ (transfers (execute_events cfg_default (env_funded 5000 1000000)
                   (request_of intent)) = []
      \/ transfers (execute_events cfg_default (env_funded 5000 1000000)
                      (request_of intent))
         = [EvTransfer (usdcContractAddress cfg_default) recipient_1 50000]).
Proof.
  intros intent.
  apply (requested_amount_scaled_exactly_when_roundtrip cfg_default
           (env_funded 0 0) (env_funded 5000 1000000) "0.05" recipient_1
           intent 5 2).
  - vm_compute. reflexivity.
  - lia.
  - vm_compute. reflexivity.
  - vm_compute. repeat split; reflexivity.
Defined.

(** C4, counterexample to the claim as stated: the route accepts a
    request for 123456789012.345678, a decimal with 6 fractional digits;
    the number in the body is the nearest double, the stored amount is
    its text 123456789012.34567, and the integer handed to the token
    contract is 8 base units below the requested amount times [10^6]. *)
Lemma requested_amount_scaled_exactly_fails : ~ requested_amount_scaled_exactly.
Proof.
  intros H.
  specialize (H (env_funded 0 0) "123456789012.345678" recipient_1
                123456789012345678 6).
  specialize (H ltac:(vm_compute; reflexivity) ltac:(lia)
                ltac:(vm_compute; reflexivity)).
  vm_compute in H. discriminate H.
Qed.

(** * Invariants of the service

    What every sequence and every interleaving of calls preserves, the
    executor and the verifier case by case, and the solana-proof route
    and the configuration loader around them. *)

(** ** What a call writes *)

Lemma execute_result_proof cfg env request res :
  execute_result cfg env request = Ok res ->
  proof res = Some ("base_settlement_" ++ txHash res).
Proof.
  unfold execute_result, executePayment. unfold_M; simpl.
  destruct (account_address env); simpl; [|done].
  destruct (amountInUsdc _); simpl; [|done].
  destruct (balanceOf env); simpl; [|done].
  destruct (JS.lt _ _); simpl; [done|].
  destruct (writeContract env _ _); simpl; [|done].
  destruct (waitForTransactionReceipt env _); simpl; [|done].
  by intros [= <-].
Qed.

Lemma run_op_effect cfg o w :
  db_effect (op_target o) (db w) (db (run_op cfg o w)).
Proof.
  destruct o as [env dto|env id|env id dto|env id|id]; simpl.
  - destruct (valid_CreateIntentDto dto) eqn:Hv.
    + rewrite post_intents_valid by done.
      destruct (db w !! uuid env) as [i|] eqn:H.
      * rewrite (createIntent_taken _ _ _ _ H). constructor.
      * rewrite createIntent_fresh by done. simpl.
        by apply effect_create.
    + rewrite post_intents_invalid by done. constructor.
  - destruct (db w !! id) as [i|] eqn:H.
    + destruct (decide (status i = PENDING)) as [Hs|Hs];
        [destruct (is_past env i) eqn:Hp|].
      * rewrite (getIntent_expires _ _ _ _ H Hs Hp). simpl.
        by apply effect_expire.
      * rewrite (getIntent_reads _ _ _ _ H) by auto. constructor.
      * rewrite (getIntent_reads _ _ _ _ H) by auto. constructor.
    + rewrite getIntent_not_found by done. constructor.
  - destruct (db w !! id) as [i|] eqn:H.
    + destruct (decide (status i = PENDING)) as [Hs|Hs].
      * destruct (verify_result cfg env (settle_proof dto)) as [[]|e] eqn:Hv.
        -- rewrite (submit_accepted _ _ _ _ _ _ H Hs Hv). simpl.
           by apply effect_proof.
        -- rewrite (submit_rejected _ _ _ _ _ _ _ H Hs Hv). constructor.
      * rewrite (submit_wrong_status _ _ _ _ _ _ H Hs). constructor.
    + rewrite submit_not_found by done. constructor.
  - destruct (db w !! id) as [i|] eqn:H.
    + destruct (decide (status i = SOL_SETTLED)) as [Hs|Hs].
      * destruct (execute_result cfg env (request_of i)) as [res|e] eqn:Hr.
        -- rewrite (trigger_settles _ _ _ _ _ H Hs _ Hr). simpl.
           apply effect_settle; [done|done|].
           by eapply execute_result_proof.
        -- rewrite (trigger_rolls_back _ _ _ _ _ H Hs _ Hr). constructor.
      * rewrite (trigger_wrong_status _ _ _ _ _ H Hs). constructor.
    + rewrite trigger_not_found by done. constructor.
  - unfold getReceipt. unfold_M. destruct (db w !! id); constructor.
Qed.

Lemma db_effect_elsewhere target m m' id :
  db_effect target m m' -> id <> target -> m' !! id = m !! id.
Proof.
  intros He Hne.
  destruct He; [done|..]; by rewrite lookup_insert_ne.
Qed.

Lemma run_ops_cons cfg o ops w :
  run_ops cfg (o :: ops) w = run_ops cfg ops (run_op cfg o w).
Proof. reflexivity. Qed.

(** X1.  A call reads and writes the record of its own intent only: every
    other record is, after any sequence of calls that are not for it,
    exactly what it was. *)
Theorem calls_leave_other_intents_alone cfg ops w id :
  Forall (fun o => op_target o <> id) ops ->
  db (run_ops cfg ops w) !! id = db w !! id.
Proof.
  intros Hall. revert w.
  induction Hall as [|o ops Ho _ IH]; intros w; [done|].
  rewrite run_ops_cons, IH.
  eapply db_effect_elsewhere; [apply run_op_effect|done].
Qed.

Lemma calls_leave_other_intents_alone_witness :
  db (run_ops cfg_default
        [OpCreate (env_funded 1000 0)
           (mkCreateDto (JS.parseFloat "0.05") recipient_1);
         OpSubmit (env_funded 2000 0) id_1 proof_dto_1;
         OpTrigger (env_funded 3000 1000000) id_1]
        (mkWorld {[ "other" := intent_pending "7" 600000 ]} [])) !! "other"
  = Some (intent_pending "7" 600000).
Proof.
  rewrite calls_leave_other_intents_alone; [reflexivity|].
  repeat constructor; simpl; discriminate.
Defined.

Lemma db_effect_frozen target m m' id i :
  db_effect target m m' ->
  m !! id = Some i -> frozen_status (status i) -> m' !! id = Some i.
Proof.
  intros He Hi Hf.
  destruct (decide (id = target)) as [->|Hne];
    [|by rewrite (db_effect_elsewhere _ _ _ _ He Hne)].
  destruct He as [|j Hj Hs|j ? ? Hj Hs|j ? ? Hj Hs _|? ? Hj _ _]; try done;
    rewrite Hj in Hi; simplify_eq;
    destruct Hf as [Hf|[Hf|Hf]]; congruence.
Qed.

(** X2.  A record whose status is EXPIRED or BASE_SETTLED (or that is left
    in BASE_SETTLING) is never written again: after any sequence of calls
    it is column for column what it was, so the Base transaction hash of a
    completed intent is set once and for all. *)
Theorem settled_and_expired_records_are_frozen cfg ops w id i :
  db w !! id = Some i ->
  frozen_status (status i) ->
  db (run_ops cfg ops w) !! id = Some i.
Proof.
  intros Hi Hf. revert w Hi.
  induction ops as [|o ops IH]; intros w Hi; [done|].
  rewrite run_ops_cons. apply IH.
  eapply db_effect_frozen; [apply run_op_effect|done..].
Qed.

Lemma settled_and_expired_records_are_frozen_witness :
  let done_ := apply_data
                 (settled_data (env_funded 3000 0)
                    (mkResult "0xfeed" (Some "base_settlement_0xfeed")))
                 (intent_settled "0.05") in
  db (run_ops cfg_default
        [OpTrigger (env_funded 4000 1000000) id_1;
         OpSubmit (env_funded 5000 0) id_1 proof_dto_1;
         OpGet (env_funded 999999999 0) id_1]
        (world_of done_)) !! id_1
  = Some done_.
Proof.
  intros done_.
  apply (settled_and_expired_records_are_frozen cfg_default _
           (world_of done_) id_1 done_).
  - reflexivity.
  - right. left. reflexivity.
Defined.

Lemma db_effect_keeps target m m' id i :
  db_effect target m m' ->
  m !! id = Some i ->
  exists i', m' !! id = Some i' /\ creation_fields_same i' i
             /\ (status i <> PENDING ->
                 status i' <> PENDING /\ source_leg_same i' i).
Proof.
  intros He Hi.
  destruct (decide (id = target)) as [->|Hne].
  2:{ exists i. rewrite (db_effect_elsewhere _ _ _ _ He Hne).
      repeat split; done. }
  destruct He as [|j Hj Hs|j ? ? Hj Hs|j ? ? Hj Hs _|? ? Hj _ _].
  - exists i. repeat split; done.
  - rewrite Hj in Hi. simplify_eq. eexists. rewrite lookup_insert_eq.
    split; [done|]. split; [repeat split|]. intros; congruence.
  - rewrite Hj in Hi. simplify_eq. eexists. rewrite lookup_insert_eq.
    split; [done|]. split; [repeat split|]. intros; congruence.
  - rewrite Hj in Hi. simplify_eq. eexists. rewrite lookup_insert_eq.
    split; [done|]. split; [repeat split|]. intros _. split; [done|].
    repeat split.
  - congruence.
Qed.

Lemma creation_fields_same_trans a b c :
  creation_fields_same a b -> creation_fields_same b c ->
  creation_fields_same a c.
Proof.
  unfold creation_fields_same.
  intros (?&?&?&?&?&?&?) (?&?&?&?&?&?&?). repeat split; congruence.
Qed.

Lemma source_leg_same_trans a b c :
  source_leg_same a b -> source_leg_same b c -> source_leg_same a c.
Proof.
  unfold source_leg_same.
  intros (?&?&?&?) (?&?&?&?). repeat split; congruence.
Qed.

Lemma run_ops_keeps cfg ops w id i :
  db w !! id = Some i ->
  exists i', db (run_ops cfg ops w) !! id = Some i'
             /\ creation_fields_same i' i
             /\ (status i <> PENDING ->
                 status i' <> PENDING /\ source_leg_same i' i).
Proof.
  revert w i. induction ops as [|o ops IH]; intros w i Hi.
  - exists i. repeat split; done.
  - rewrite run_ops_cons.
    destruct (db_effect_keeps _ _ _ _ _ (run_op_effect cfg o w) Hi)
      as (i1 & H1 & Hc1 & Hs1).
    destruct (IH _ _ H1) as (i2 & H2 & Hc2 & Hs2).
    exists i2. split; [done|]. split; [by eapply creation_fields_same_trans|].
    intros Hne. destruct (Hs1 Hne) as [Hne1 Hl1].
    destruct (Hs2 Hne1) as [Hne2 Hl2].
    split; [done|]. by eapply source_leg_same_trans.
Qed.

(** X3.  An intent is never deleted and what [createIntent] wrote never
    changes: after any sequence of calls the record is still there with
    the same id, amount, recipient, chain pair, creation time and expiry
    time. *)
Theorem intents_are_kept_with_their_creation_fields cfg ops w id i :
  db w !! id = Some i ->
  exists i', db (run_ops cfg ops w) !! id = Some i'
             /\ creation_fields_same i' i.
Proof.
  intros Hi. destruct (run_ops_keeps cfg ops w id i Hi) as (i' & ? & ? & _).
  by exists i'.
Qed.

Lemma intents_are_kept_with_their_creation_fields_witness :
  exists i',
    db (run_ops cfg_default
          [OpSubmit (env_funded 2000 0) id_1 proof_dto_1;
           OpTrigger (env_funded 3000 1000000) id_1]
          (world_of (intent_pending "0.05" 600000))) !! id_1 = Some i'
    /\ creation_fields_same i' (intent_pending "0.05" 600000).
Proof.
  apply (intents_are_kept_with_their_creation_fields cfg_default _
           (world_of (intent_pending "0.05" 600000)) id_1).
  reflexivity.
Defined.

(** X4.  The Solana leg is written once: as soon as an intent is past
    PENDING, no later call changes its payer wallet, settlement proof,
    Solana transaction hash or Solana settlement time, and it never
    returns to PENDING; a second proof cannot replace the first. *)
Theorem source_leg_is_written_once cfg ops w id i :
  db w !! id = Some i ->
  status i <> PENDING ->
  exists i', db (run_ops cfg ops w) !! id = Some i'
             /\ status i' <> PENDING
             /\ source_leg_same i' i.
Proof.
  intros Hi Hs. destruct (run_ops_keeps cfg ops w id i Hi) as (i' & ? & _ & H).
  exists i'. split; [done|]. by apply H.
Qed.

Lemma source_leg_is_written_once_witness :
  exists i',
    db (run_ops cfg_default
          [OpSubmit (env_funded 2000 0) id_1
             (mkProofDto "proof-2" "S2" (Some "someone-else"));
           OpTrigger (env_funded 3000 1000000) id_1]
          (world_of (intent_settled "0.05"))) !! id_1 = Some i'
    /\ status i' <> PENDING
    /\ source_leg_same i' (intent_settled "0.05").
Proof.
  apply (source_leg_is_written_once cfg_default _
           (world_of (intent_settled "0.05")) id_1).
  - reflexivity.
  - discriminate.
Defined.

(** ** The shape of every stored intent *)

Lemma settled_proof_kept h :
  or_else (Some ("base_settlement_" ++ h)) "base_settlement_confirmed"
    = "base_settlement_" ++ h.
Proof. reflexivity. Qed.

Lemma db_effect_well_formed target m m' :
  db_effect target m m' ->
  (forall id i, m !! id = Some i -> created_well id i /\ legs_match_status i) ->
  forall id i, m' !! id = Some i -> created_well id i /\ legs_match_status i.
Proof.
  intros He Hm id i.
  destruct (decide (id = target)) as [->|Hne];
    [|rewrite (db_effect_elsewhere _ _ _ _ He Hne); apply Hm].
  destruct He as [|j Hj Hs|j env dto Hj Hs|j env res Hj Hs Hp|env dto Hj Hu Hv].
  - apply Hm.
  - rewrite lookup_insert_eq. intros [= <-].
    destruct (Hm _ _ Hj) as [Hc Hl]. split; [exact Hc|].
    unfold legs_match_status in *. rewrite Hs in Hl. exact Hl.
  - rewrite lookup_insert_eq. intros [= <-].
    destruct (Hm _ _ Hj) as [Hc Hl]. split; [exact Hc|].
    unfold legs_match_status in *. rewrite Hs in Hl.
    destruct Hl as (_ & _ & _ & _ & ? & ? & ? & ?).
    simpl. repeat split; by eauto.
  - rewrite lookup_insert_eq. intros [= <-].
    destruct (Hm _ _ Hj) as [Hc Hl]. split; [exact Hc|].
    unfold legs_match_status in *. rewrite Hs in Hl.
    destruct Hl as (? & ? & ? & _).
    simpl. rewrite Hp, settled_proof_kept.
    repeat split; by eauto.
  - rewrite lookup_insert_eq. intros [= <-].
    unfold valid_CreateIntentDto in Hv.
    apply andb_true_iff in Hv as [[Hn Hmin]%andb_true_iff Hr].
    split; [|simpl; repeat split].
    unfold created_well. simpl. repeat split; eauto.
Qed.

(** X5.  Whatever sequence of calls built the store, every record in it
    is stored under its own id, has the chain pair solana/base, a
    recipient that passes the address pattern, an amount that is the text
    of a finite number of at least 0.01 and an expiry ten minutes after
    its creation, and its columns fit its status: no leg column while
    PENDING or EXPIRED, exactly the Solana leg while SOL_SETTLED, both
    legs with the proof string derived from the Base hash once
    BASE_SETTLED (the fall-back proof text is never stored), and no
    record is left in BASE_SETTLING. *)
Theorem every_stored_intent_is_well_formed cfg ops id i :
  db (run_ops cfg ops empty_world) !! id = Some i ->
  created_well id i /\ legs_match_status i.
Proof.
  revert id i. induction ops as [|o ops IH] using rev_ind.
  - intros id i. simpl. by rewrite lookup_empty.
  - rewrite run_ops_snoc.
    eapply db_effect_well_formed; [apply run_op_effect|exact IH].
Qed.

Lemma every_stored_intent_is_well_formed_witness :
  let ops := [OpCreate (env_funded 1000 0)
                (mkCreateDto (JS.parseFloat "0.05") recipient_1);
              OpSubmit (env_funded 2000 0) id_1 proof_dto_1;
              OpTrigger (env_funded 3000 1000000) id_1] in
  exists i, db (run_ops cfg_default ops empty_world) !! id_1 = Some i
            /\ created_well id_1 i /\ legs_match_status i.
Proof.
  intros ops.
  destruct (db (run_ops cfg_default ops empty_world) !! id_1) as [i|] eqn:Hi.
  - exists i. split; [reflexivity|].
    exact (every_stored_intent_is_well_formed cfg_default ops id_1 i Hi).
  - vm_compute in Hi. discriminate Hi.
Defined.

(** ** Where the money goes *)

Lemma run_op_transfers cfg o w :
  transfers (trace (run_op cfg o w)) = transfers (trace w)
  \/ exists env id i,
       o = OpTrigger env id /\ db w !! id = Some i /\ status i = SOL_SETTLED
       /\ transfers (trace (run_op cfg o w))
          = (transfers (trace w)
             ++ transfers (execute_events cfg env (request_of i)))%list.
Proof.
  destruct o as [env dto|env id|env id dto|env id|id]; simpl.
  - left. destruct (valid_CreateIntentDto dto) eqn:Hv.
    + rewrite post_intents_valid by done.
      destruct (db w !! uuid env) as [i|] eqn:H.
      * by rewrite (createIntent_taken _ _ _ _ H).
      * by rewrite createIntent_fresh.
    + by rewrite post_intents_invalid.
  - left. destruct (db w !! id) as [i|] eqn:H.
    + destruct (decide (status i = PENDING)) as [Hs|Hs];
        [destruct (is_past env i) eqn:Hp|].
      * by rewrite (getIntent_expires _ _ _ _ H Hs Hp).
      * by rewrite (getIntent_reads _ _ _ _ H) by auto.
      * by rewrite (getIntent_reads _ _ _ _ H) by auto.
    + by rewrite getIntent_not_found.
  - left. destruct (db w !! id) as [i|] eqn:H.
    + destruct (decide (status i = PENDING)) as [Hs|Hs].
      * destruct (verify_result cfg env (settle_proof dto)) as [[]|e] eqn:Hv.
        -- rewrite (submit_accepted _ _ _ _ _ _ H Hs Hv). simpl.
           unfold transfers. rewrite List.filter_app. simpl.
           by rewrite app_nil_r.
        -- rewrite (submit_rejected _ _ _ _ _ _ _ H Hs Hv). simpl.
           unfold transfers. rewrite List.filter_app. simpl.
           by rewrite app_nil_r.
      * by rewrite (submit_wrong_status _ _ _ _ _ _ H Hs).
    + by rewrite submit_not_found.
  - destruct (db w !! id) as [i|] eqn:H.
    + destruct (decide (status i = SOL_SETTLED)) as [Hs|Hs].
      * right. exists env, id, i. repeat split; try done.
        destruct (execute_result cfg env (request_of i)) as [res|e] eqn:Hr.
        -- rewrite (trigger_settles _ _ _ _ _ H Hs _ Hr). simpl.
           unfold transfers. by rewrite List.filter_app.
        -- rewrite (trigger_rolls_back _ _ _ _ _ H Hs _ Hr). simpl.
           unfold transfers. by rewrite List.filter_app.
      * left. by rewrite (trigger_wrong_status _ _ _ _ _ H Hs).
    + left. by rewrite trigger_not_found.
  - left. unfold getReceipt. unfold_M. by destruct (db w !! id).
Qed.

Lemma is_transfer_of_same cfg a b ev :
  creation_fields_same b a -> is_transfer_of cfg a ev -> is_transfer_of cfg b ev.
Proof.
  intros (_ & Ha & Hr & _) (units & Hu & ->).
  exists units. unfold transfer_units, request_of in *. simpl in *.
  by rewrite Ha, Hr.
Qed.

Lemma db_effect_keeps_paid target m m' id i :
  db_effect target m m' ->
  m !! id = Some i -> paid_status (status i) ->
  exists i', m' !! id = Some i' /\ paid_status (status i')
             /\ creation_fields_same i' i.
Proof.
  intros He Hi Hp.
  destruct (db_effect_keeps _ _ _ _ _ He Hi) as (i' & Hi' & Hc & _).
  exists i'. split; [done|]. split; [|done].
  destruct (decide (id = target)) as [->|Hne].
  2:{ rewrite (db_effect_elsewhere _ _ _ _ He Hne), Hi in Hi'. by simplify_eq. }
  destruct He as [|j Hj Hs|j ? ? Hj Hs|j ? ? Hj Hs _|? ? Hj _ _];
    rewrite ?lookup_insert_eq in Hi'; simplify_eq; try done;
    try (destruct Hp; congruence).
  by right.
Qed.

Lemma run_op_paid_to_stored cfg o w :
  paid_to_stored cfg w -> paid_to_stored cfg (run_op cfg o w).
Proof.
  intros Hw ev Hev.
  assert (Hold : In ev (transfers (trace w)) ->
                 exists id i, db (run_op cfg o w) !! id = Some i
                              /\ paid_status (status i) /\ is_transfer_of cfg i ev).
  { intros (id & i & Hi & Hs & Ht)%Hw.
    destruct (db_effect_keeps_paid _ _ _ _ _ (run_op_effect cfg o w) Hi Hs)
      as (i' & Hi' & Hp & Hc).
    exists id, i'. split; [done|]. split; [done|].
    by eapply is_transfer_of_same. }
  destruct (run_op_transfers cfg o w) as [Heq|(env & id & i & -> & Hi & Hs & Heq)].
  - rewrite Heq in Hev. by apply Hold.
  - rewrite Heq in Hev. apply in_app_or in Hev as [Hev|Hev]; [by apply Hold|].
    destruct (db_effect_keeps_paid _ _ _ _ _
                (run_op_effect cfg (OpTrigger env id) w) Hi)
      as (i' & Hi' & Hp & Hc); [by left|].
    exists id, i'. split; [done|]. split; [done|].
    eapply is_transfer_of_same; [done|].
    destruct (execute_transfers cfg env i) as [Hnil|(units & Hu & Hone)].
    + rewrite Hnil in Hev. destruct Hev.
    + rewrite Hone in Hev. destruct Hev as [<-|[]]. by exists units.
Qed.

(** X6.  Money only leaves for stored, source-settled intents: whatever
    sequence of calls ran, every transfer handed to the token contract
    names the USDC contract, the recipient of a stored intent whose status
    is SOL_SETTLED or BASE_SETTLED, and the base units of that intent's
    stored amount. *)
Theorem every_transfer_pays_a_settled_intent cfg ops ev :
  In ev (transfers (trace (run_ops cfg ops empty_world))) ->
  exists id i,
    db (run_ops cfg ops empty_world) !! id = Some i
    /\ paid_status (status i)
    /\ is_transfer_of cfg i ev.
Proof.
  revert ev. change (paid_to_stored cfg (run_ops cfg ops empty_world)).
  induction ops as [|o ops IH] using rev_ind.
  - intros ev [].
  - rewrite run_ops_snoc. by apply run_op_paid_to_stored.
Qed.

Lemma every_transfer_pays_a_settled_intent_witness :
  let ops := [OpCreate (env_funded 1000 0)
                (mkCreateDto (JS.parseFloat "0.05") recipient_1);
              OpSubmit (env_funded 2000 0) id_1 proof_dto_1;
              OpTrigger (env_funded 3000 1000000) id_1] in
  exists id i,
    db (run_ops cfg_default ops empty_world) !! id = Some i
    /\ paid_status (status i)
    /\ is_transfer_of cfg_default i
         (EvTransfer "0x036CbD53842c5426634e7929541eC2318f3dCF7e" recipient_1 50000).
Proof.
  intros ops.
  apply (every_transfer_pays_a_settled_intent cfg_default ops).
  vm_compute. left. reflexivity.
Defined.

(** ** [executePayment], step by step *)

Lemma execute_ok_inv cfg env request res :
  execute_result cfg env request = Ok res ->
  exists acct units balance,
    account_address env = Ok acct
    /\ amountInUsdc (req_amount request) = Ok units
    /\ balanceOf env = Ok balance
    /\ JS.lt (JS.Number_of_bigint balance) (JS.Number_of_bigint units) = false
    /\ writeContract env (req_recipientAddress request) units = Ok (txHash res)
    /\ waitForTransactionReceipt env (txHash res) = Ok tt
    /\ proof res = Some ("base_settlement_" ++ txHash res)
    /\ execute_events cfg env request
       = [EvExecute (req_intentId request);
          EvBalanceOf (usdcContractAddress cfg) acct;
          EvTransfer (usdcContractAddress cfg) (req_recipientAddress request) units;
          EvWaitReceipt (txHash res)].
Proof.
  unfold execute_result, execute_events, executePayment. unfold_M; simpl.
  destruct (account_address env) as [acct|]; simpl; [|discriminate].
  destruct (amountInUsdc _) as [units|]; simpl; [|discriminate].
  destruct (balanceOf env) as [balance|]; simpl; [|discriminate].
  destruct (JS.lt _ _) eqn:Hlt; simpl; [discriminate|].
  destruct (writeContract env _ _) as [hash|] eqn:Hw; simpl; [|discriminate].
  destruct (waitForTransactionReceipt env _) as [[]|] eqn:Hwait; simpl;
    [|discriminate].
  intros [= <-]. simpl. exists acct, units, balance. repeat split; done.
Qed.

(** X7.  A transfer that was submitted but whose confirmation wait failed
    is paid again on retry: the failed call rolls the intent back to
    SOL_SETTLED without recording the transaction hash, so the next
    successful call submits a second transfer of the same amount to the
    same recipient. *)
Theorem unconfirmed_transfer_is_paid_twice
    cfg env env' id w i acct units balance hash e res :
  db w !! id = Some i ->
  status i = SOL_SETTLED ->
  account_address env = Ok acct ->
  transfer_units i = Ok units ->
  balanceOf env = Ok balance ->
  JS.lt (JS.Number_of_bigint balance) (JS.Number_of_bigint units) = false ->
  writeContract env (merchant_recipient i) units = Ok hash ->
  waitForTransactionReceipt env hash = Throw e ->
  execute_result cfg env' (request_of i) = Ok res ->
  let w1 := fst (triggerBasePayment cfg env id w) in
  let w2 := fst (triggerBasePayment cfg env' id w1) in
  snd (triggerBasePayment cfg env id w)
    = Throw (InternalServerErrorException ("Base payment failed: " ++ message e))
  /\ db w1 = db w
  /\ (exists ack, snd (triggerBasePayment cfg env' id w1) = Ok ack)
  /\ transfers (trace w2)
     = (transfers (trace w)
        ++ [EvTransfer (usdcContractAddress cfg) (merchant_recipient i) units;
            EvTransfer (usdcContractAddress cfg) (merchant_recipient i) units])%list.
Proof.
  intros Hi Hs Hacct Hu Hbal Hlt Hwrite Hwait Hres.
  assert (Hr : execute_result cfg env (request_of i) = Throw e
               /\ transfers (execute_events cfg env (request_of i))
                  = [EvTransfer (usdcContractAddress cfg) (merchant_recipient i) units]).
  { unfold transfer_units, request_of in Hu. simpl in Hu.
    unfold execute_result, execute_events, executePayment. unfold_M; simpl.
    rewrite Hacct. simpl. rewrite Hu. simpl. rewrite Hbal. simpl.
    rewrite Hlt. simpl. rewrite Hwrite. simpl. rewrite Hwait. by simpl. }
  destruct Hr as [Hr Hev].
  rewrite (trigger_rolls_back _ _ _ _ _ Hi Hs _ Hr). simpl.
  set (w1 := mkWorld _ _).
  rewrite (trigger_settles cfg env' id w1 i Hi Hs res Hres). simpl.
  split; [done|]. split; [done|]. split; [by eexists|].
  unfold transfers in *. rewrite !List.filter_app, Hev.
  destruct (execute_ok_inv _ _ _ _ Hres)
    as (acct' & units' & bal' & _ & Hu' & _ & _ & _ & _ & _ & Hev').
  rewrite Hev'. fold (transfer_units i) in Hu'. rewrite Hu in Hu'.
  injection Hu' as <-. simpl. by rewrite <- app_assoc.
Qed.

Lemma unconfirmed_transfer_is_paid_twice_witness :
  let env := {| now := 3000; now_completed := 3000; uuid := id_1;
                fetch_verify := verifier_accepts;
                account_address := Ok "0x1111111111111111111111111111111111111111";
                balanceOf := Ok 1000000;
                writeContract := fun _ _ => Ok "0xfeed";
                waitForTransactionReceipt := fun _ =>
                  Throw (Error "Timed out while waiting for transaction");
                viem_version := "2.21.0" |} in
  let w := world_of (intent_settled "0.05") in
  transfers (trace (fst (triggerBasePayment cfg_default (env_funded 4000 950000) id_1
                           (fst (triggerBasePayment cfg_default env id_1 w)))))
  = [EvTransfer "0x036CbD53842c5426634e7929541eC2318f3dCF7e" recipient_1 50000;
     EvTransfer "0x036CbD53842c5426634e7929541eC2318f3dCF7e" recipient_1 50000].
Proof.
  intros env w.
  destruct (unconfirmed_transfer_is_paid_twice cfg_default env
              (env_funded 4000 950000) id_1 w (intent_settled "0.05")
              "0x1111111111111111111111111111111111111111" 50000 1000000
              "0xfeed" (Error "Timed out while waiting for transaction")
              (mkResult "0xfeed" (Some "base_settlement_0xfeed")))
    as (_ & _ & _ & H); [reflexivity..|exact H].
Defined.

Lemma balance_check_passed balance units :
  JS.lt (JS.Number_of_bigint balance) (JS.Number_of_bigint units) = false ->
  0 <= balance <= 2 ^ 53 -> 0 <= units <= 2 ^ 53 ->
  units <= balance.
Proof.
  intros Hlt Hb Hu. rewrite balance_check_exact in Hlt by done. lia.
Qed.

(** X8.  [executePayment] returns a transaction hash exactly when the
    account resolved, the amount parsed, the balance query answered a
    balance that as a double is not below the amount as a double,
    [writeContract] returned that hash and the wait for its receipt
    succeeded; the calls it then made are, in this order, the balance
    query, one transfer of the parsed amount to the recipient and the
    wait, and the proof it returns is the hash behind the prefix
    "base_settlement_".  The comparison of the doubles is the comparison
    of the integers as long as both are at most [2^53] base units: there
    a result means a balance not below the amount. *)
Theorem executePayment_succeeds_exactly_when_confirmed cfg env request res :
  (execute_result cfg env request = Ok res
   <-> exists acct units balance,
         account_address env = Ok acct
         /\ amountInUsdc (req_amount request) = Ok units
         /\ balanceOf env = Ok balance
         /\ JS.lt (JS.Number_of_bigint balance) (JS.Number_of_bigint units) = false
         /\ writeContract env (req_recipientAddress request) units = Ok (txHash res)
         /\ waitForTransactionReceipt env (txHash res) = Ok tt
         /\ proof res = Some ("base_settlement_" ++ txHash res)
         /\ execute_events cfg env request
            = [EvExecute (req_intentId request);
               EvBalanceOf (usdcContractAddress cfg) acct;
               EvTransfer (usdcContractAddress cfg) (req_recipientAddress request) units;
               EvWaitReceipt (txHash res)])
  /\ (forall units balance,
        execute_result cfg env request = Ok res ->
        amountInUsdc (req_amount request) = Ok units ->
        balanceOf env = Ok balance ->
        0 <= balance <= 2 ^ 53 ->
        0 <= units <= 2 ^ 53 ->
        units <= balance).
Proof.
  split; [split; [apply execute_ok_inv|]|].
  - intros (acct & units & balance & Ha & Hu & Hb & Hlt & Hw & Hwait & Hp & _).
    unfold execute_result, executePayment. unfold_M; simpl.
    rewrite Ha. simpl. rewrite Hu. simpl. rewrite Hb. simpl. rewrite Hlt. simpl.
    rewrite Hw. simpl. rewrite Hwait. simpl.
    destruct res as [h p]. simpl in *. by rewrite Hp.
  - intros units balance Hok Hu Hb Hbr Hur.
    destruct (execute_ok_inv _ _ _ _ Hok)
      as (acct & units' & balance' & _ & Hu' & Hb' & Hlt & _).
    rewrite Hu in Hu'. rewrite Hb in Hb'. simplify_eq.
    by apply balance_check_passed.
Qed.

Lemma executePayment_succeeds_exactly_when_confirmed_witness :
  (exists acct units balance,
    account_address (env_funded 3000 1000000) = Ok acct
    /\ amountInUsdc (req_amount (request_of (intent_settled "0.05"))) = Ok units
    /\ balanceOf (env_funded 3000 1000000) = Ok balance
    /\ JS.lt (JS.Number_of_bigint balance) (JS.Number_of_bigint units) = false
    /\ writeContract (env_funded 3000 1000000)
         (req_recipientAddress (request_of (intent_settled "0.05"))) units
       = Ok "0xfeed"
    /\ waitForTransactionReceipt (env_funded 3000 1000000) "0xfeed" = Ok tt
    /\ Some "base_settlement_0xfeed" = Some ("base_settlement_" ++ "0xfeed")
    /\ execute_events cfg_default (env_funded 3000 1000000)
         (request_of (intent_settled "0.05"))
       = [EvExecute id_1;
          EvBalanceOf (usdcContractAddress cfg_default) acct;
          EvTransfer (usdcContractAddress cfg_default) recipient_1 units;
          EvWaitReceipt "0xfeed"])
  /\ 50000 <= 1000000.
Proof.
  destruct (executePayment_succeeds_exactly_when_confirmed cfg_default
              (env_funded 3000 1000000) (request_of (intent_settled "0.05"))
              (mkResult "0xfeed" (Some "base_settlement_0xfeed")))
    as [Hiff Hexact].
  split.
  - apply (proj1 Hiff). vm_compute. reflexivity.
  - apply (Hexact 50000 1000000).
    + vm_compute. reflexivity.
    + vm_compute. reflexivity.
    + reflexivity.
    + lia.
    + lia.
Defined.

Lemma execute_transfer_inv cfg env request :
  (length (transfers (execute_events cfg env request)) <= 1)%nat
  /\ forall contract to value,
       In (EvTransfer contract to value) (execute_events cfg env request) ->
       exists acct balance rest,
         account_address env = Ok acct
         /\ amountInUsdc (req_amount request) = Ok value
         /\ balanceOf env = Ok balance
         /\ JS.lt (JS.Number_of_bigint balance) (JS.Number_of_bigint value) = false
         /\ contract = usdcContractAddress cfg
         /\ to = req_recipientAddress request
         /\ execute_events cfg env request
            = EvExecute (req_intentId request)
              :: EvBalanceOf contract acct
              :: EvTransfer contract to value :: rest
         /\ Forall (fun ev => is_transfer ev = false) rest.
Proof.
  unfold execute_events, executePayment, transfers. unfold_M; simpl.
  destruct (account_address env) as [acct|]; simpl;
    [|split; [lia|intros ? ? ? [?|[]]; discriminate]].
  destruct (amountInUsdc _) as [units|]; simpl;
    [|split; [lia|intros ? ? ? [?|[]]; discriminate]].
  destruct (balanceOf env) as [balance|]; simpl;
    [|split; [lia|intros ? ? ? [?|[?|[]]]; discriminate]].
  destruct (JS.lt _ _) eqn:Hlt; simpl;
    [split; [lia|intros ? ? ? [?|[?|[]]]; discriminate]|].
  assert (Hin : forall rest contract to value,
             Forall (fun ev => is_transfer ev = false) rest ->
             In (EvTransfer contract to value)
               (EvExecute (req_intentId request)
                :: EvBalanceOf (usdcContractAddress cfg) acct
                :: EvTransfer (usdcContractAddress cfg)
                     (req_recipientAddress request) units :: rest) ->
             contract = usdcContractAddress cfg
             /\ to = req_recipientAddress request /\ value = units).
  { intros rest c r v Hrest [?|[?|[[= <- <- <-]|Hin]]]; try discriminate; [done|].
    rewrite List.Forall_forall in Hrest. apply Hrest in Hin. discriminate Hin. }
  destruct (writeContract env _ _) as [hash|]; simpl.
  - destruct (waitForTransactionReceipt env _); simpl;
      (split; [lia|]);
      intros c r v Hev;
      destruct (Hin [EvWaitReceipt hash] c r v) as (-> & -> & ->);
      [by repeat constructor|exact Hev| |by repeat constructor|exact Hev|];
      exists acct, balance, [EvWaitReceipt hash];
      repeat split; try done; by repeat constructor.
  - split; [lia|]. intros c r v Hev.
    destruct (Hin [] c r v) as (-> & -> & ->); [constructor|exact Hev|].
    exists acct, balance, []. repeat split; try done.
Qed.

(** X9.  [executePayment] submits at most one transfer per call, and only
    behind the balance check: a transfer in its trace means the balance
    query answered, the balance as a double was not below the amount as a
    double (for a balance and an amount of at most [2^53] base units: the
    balance was not below the amount), and the transfer is for the parsed
    amount of the request, to its recipient, on the configured USDC
    contract, right after the balance query. *)
Theorem executePayment_transfers_once_after_the_balance_check cfg env request :
  (length (transfers (execute_events cfg env request)) <= 1)%nat
  /\ forall contract to value,
       In (EvTransfer contract to value) (execute_events cfg env request) ->
       exists acct balance rest,
         account_address env = Ok acct
         /\ amountInUsdc (req_amount request) = Ok value
         /\ balanceOf env = Ok balance
         /\ JS.lt (JS.Number_of_bigint balance) (JS.Number_of_bigint value) = false
         /\ (0 <= balance <= 2 ^ 53 -> 0 <= value <= 2 ^ 53 -> value <= balance)
         /\ contract = usdcContractAddress cfg
         /\ to = req_recipientAddress request
         /\ execute_events cfg env request
            = EvExecute (req_intentId request)
              :: EvBalanceOf contract acct
              :: EvTransfer contract to value :: rest
         /\ Forall (fun ev => is_transfer ev = false) rest.
Proof.
  destruct (execute_transfer_inv cfg env request) as [Hlen Hinv].
  split; [exact Hlen|]. intros contract to value Hin.
  destruct (Hinv contract to value Hin)
    as (acct & balance & rest & Ha & Hu & Hb & Hlt & Hrest).
  exists acct, balance, rest.
  split; [exact Ha|]. split; [exact Hu|]. split; [exact Hb|].
  split; [exact Hlt|]. split; [|exact Hrest].
  by apply balance_check_passed.
Qed.

Lemma executePayment_transfers_once_after_the_balance_check_witness :
  exists acct balance rest,
    account_address (env_funded 3000 1000000) = Ok acct
    /\ amountInUsdc (req_amount (request_of (intent_settled "0.05"))) = Ok 50000
    /\ balanceOf (env_funded 3000 1000000) = Ok balance
    /\ JS.lt (JS.Number_of_bigint balance) (JS.Number_of_bigint 50000) = false
    /\ (0 <= balance <= 2 ^ 53 -> 0 <= 50000 <= 2 ^ 53 -> 50000 <= balance)
    /\ "0x036CbD53842c5426634e7929541eC2318f3dCF7e" = usdcContractAddress cfg_default
    /\ recipient_1 = req_recipientAddress (request_of (intent_settled "0.05"))
    /\ execute_events cfg_default (env_funded 3000 1000000)
         (request_of (intent_settled "0.05"))
       = EvExecute (req_intentId (request_of (intent_settled "0.05")))
         :: EvBalanceOf "0x036CbD53842c5426634e7929541eC2318f3dCF7e" acct
         :: EvTransfer "0x036CbD53842c5426634e7929541eC2318f3dCF7e" recipient_1 50000
         :: rest
    /\ Forall (fun ev => is_transfer ev = false) rest.
Proof.
  apply (proj2 (executePayment_transfers_once_after_the_balance_check cfg_default
                  (env_funded 3000 1000000) (request_of (intent_settled "0.05")))).
  vm_compute. right. right. left. reflexivity.
Defined.

Lemma app_assoc_s (a b c : string) : ((a ++ b) ++ c)%string = (a ++ b ++ c)%string.
Proof. induction a; rewrite ?app_nil_l_s, ?app_cons_s; [reflexivity|congruence]. Qed.

(** X10.  An amount whose text [parseUnits] rejects (exponent notation from
    1e21 upwards, NaN from a stored amount that is no number) never
    reaches the chain: [executePayment] throws viem's error before the
    balance query, and [triggerBasePayment] fails with the
    internal-server error that carries viem's message (the rejected
    text, a blank line and the version of the library) and leaves the
    store as it was. *)
Theorem unparsable_amount_never_reaches_the_chain cfg env id w i acct :
  db w !! id = Some i ->
  status i = SOL_SETTLED ->
  account_address env = Ok acct ->
  Viem.parseUnits (JS.toString (JS.parseFloat (amount i))) 6 = None ->
  execute_events cfg env (request_of i) = [EvExecute (intent_id i)]
  /\ fst (triggerBasePayment cfg env id w)
     = mkWorld (db w) (trace w ++ [EvExecute (intent_id i)])
  /\ snd (triggerBasePayment cfg env id w)
     = Throw (InternalServerErrorException
                ("Base payment failed: Number `"
                 ++ JS.toString (JS.parseFloat (amount i))
                 ++ "` is not a valid decimal number."
                 ++ nl ++ nl ++ "Version: viem@" ++ viem_version env)).
Proof.
  intros Hi Hs Hacct Hparse.
  assert (He : execute_events cfg env (request_of i) = [EvExecute (intent_id i)]
               /\ execute_result cfg env (request_of i)
                  = Throw (Error (BaseError_message (viem_version env)
                                    ("Number `" ++ JS.toString (JS.parseFloat (amount i))
                                     ++ "` is not a valid decimal number.")))).
  { unfold execute_events, execute_result, executePayment, amountInUsdc.
    unfold_M; simpl. rewrite Hacct. simpl. rewrite Hparse. by simpl. }
  destruct He as [Hev Hr].
  rewrite (trigger_rolls_back _ _ _ _ _ Hi Hs _ Hr), Hev.
  split; [done|]. split; [done|]. simpl. unfold BaseError_message.
  by rewrite !app_assoc_s.
Qed.

Lemma unparsable_amount_never_reaches_the_chain_witness :
  execute_events cfg_default (env_funded 3000 1000000)
    (request_of (intent_settled "1e+21"))
  = [EvExecute id_1].
Proof.
  apply (unparsable_amount_never_reaches_the_chain cfg_default
           (env_funded 3000 1000000) id_1 (world_of (intent_settled "1e+21"))
           (intent_settled "1e+21") "0x1111111111111111111111111111111111111111").
  - reflexivity.
  - reflexivity.
  - reflexivity.
  - vm_compute. reflexivity.
Defined.

(** ** The verifier *)



(** ** Calls in the wrong state, or for no intent *)

Lemma update_lookup id' d w id i :
  db w !! id = Some i ->
  db (fst (update id' d w)) !! id
    = Some (if decide (id' = id) then apply_data d i else i).
Proof.
  intros Hi. unfold update.
  destruct (decide (id' = id)) as [->|Hne].
  - rewrite Hi. simpl. apply lookup_insert_eq.
  - destruct (db w !! id'); simpl; [by rewrite lookup_insert_ne|done].
Qed.

Lemma create_lookup j w id i :
  db w !! id = Some i -> db (fst (create j w)) !! id = Some i.
Proof.
  intros Hi. unfold create.
  destruct (db w !! intent_id j) eqn:Hj; simpl; [done|].
  rewrite lookup_insert_ne; [done|]. intros Heq. rewrite Heq in Hj. congruence.
Qed.

(** No write of the service stores PENDING over another status, and none
    but the proof update touches the Solana leg. *)
Lemma act_past_pending a w id i :
  db w !! id = Some i ->
  status i <> PENDING ->
  exists i',
    db (act a w) !! id = Some i'
    /\ status i' <> PENDING
    /\ (writes_proof_for id a = false -> source_leg_same i' i).
Proof.
  intros Hi Hs.
  assert (Hsame : source_leg_same i i) by (repeat split).
  destruct a as [env dto|id'|env id' dto|id'|env id' res|id'|ev]; simpl.
  - exists i. split; [by apply create_lookup|done].
  - rewrite (update_lookup _ _ _ _ _ Hi).
    destruct (decide (id' = id)); eexists; (split; [reflexivity|]); by simpl.
  - rewrite (update_lookup _ _ _ _ _ Hi).
    destruct (decide (id' = id)) as [->|Hne]; eexists;
      (split; [reflexivity|]); simpl; [|done].
    split; [done|]. by rewrite bool_decide_eq_true_2.
  - rewrite (update_lookup _ _ _ _ _ Hi).
    destruct (decide (id' = id)); eexists; (split; [reflexivity|]); by simpl.
  - rewrite (update_lookup _ _ _ _ _ Hi).
    destruct (decide (id' = id)); eexists; (split; [reflexivity|]); by simpl.
  - rewrite (update_lookup _ _ _ _ _ Hi).
    destruct (decide (id' = id)); eexists; (split; [reflexivity|]); by simpl.
  - by exists i.
Qed.

Lemma run_actions_past_pending actions : forall w id i,
  db w !! id = Some i ->
  status i <> PENDING ->
  exists i',
    db (run_actions actions w) !! id = Some i'
    /\ status i' <> PENDING
    /\ (Forall (fun a => writes_proof_for id a = false) actions ->
        source_leg_same i' i).
Proof.
  induction actions as [|a actions IH]; intros w id i Hi Hs.
  - exists i. repeat split; done.
  - destruct (act_past_pending a w id i Hi Hs) as (i1 & H1 & Hs1 & Hl1).
    destruct (IH (act a w) id i1 H1 Hs1) as (i2 & H2 & Hs2 & Hl2).
    exists i2. split; [exact H2|]. split; [exact Hs2|].
    intros Hall. inversion Hall; subst.
    eapply source_leg_same_trans; eauto.
Qed.

(** X12.  A proof can be submitted once.  After a submission that was
    verified, whatever the service writes afterwards, by whatever calls
    and in whatever order (the trigger that the submission schedules
    included), the intent is never PENDING again, and every further
    [submitSolanaProof] for it, whatever it carries, fails with the
    not-PENDING [BadRequestException] that names the status then stored,
    without a request to the facilitator and without a write. *)
Theorem second_proof_is_refused cfg env env' id dto dto' actions w i :
  db w !! id = Some i ->
  status i = PENDING ->
  verify_result cfg env (settle_proof dto) = Ok tt ->
  let w2 := run_actions actions (fst (submitSolanaProof cfg env id dto w)) in
  exists i2,
    db w2 !! id = Some i2
    /\ status i2 <> PENDING
    /\ submitSolanaProof cfg env' id dto' w2
       = (w2, Throw (BadRequestException
                       ("Payment intent " ++ id
                        ++ " is not in PENDING status (current: "
                        ++ status_name (status i2) ++ ")"))).
Proof.
  intros Hi Hs Hv w2. subst w2.
  rewrite (submit_accepted _ _ _ _ _ _ Hi Hs Hv). simpl.
  set (w1 := mkWorld _ _).
  destruct (run_actions_past_pending actions w1 id
              (apply_data (proof_data env dto) i))
    as (i2 & H2 & Hs2 & _); [apply lookup_insert_eq|done|].
  exists i2. split; [exact H2|]. split; [exact Hs2|].
  by apply submit_wrong_status.
Qed.

Lemma second_proof_is_refused_witness :
  let w := world_of (intent_pending "0.05" 600000) in
  let w2 := run_actions [WMark id_1]
              (fst (submitSolanaProof cfg_default (env_funded 1000 0) id_1
                      proof_dto_1 w)) in
  exists i2,
    db w2 !! id_1 = Some i2
    /\ status i2 <> PENDING
    /\ submitSolanaProof cfg_default (env_funded 2000 0) id_1
         (mkProofDto "proof-2" "S2" None) w2
       = (w2, Throw (BadRequestException
                       ("Payment intent " ++ id_1
                        ++ " is not in PENDING status (current: "
                        ++ status_name (status i2) ++ ")"))).
Proof.
  intros w w2.
  apply (second_proof_is_refused cfg_default (env_funded 1000 0) (env_funded 2000 0)
           id_1 proof_dto_1 (mkProofDto "proof-2" "S2" None) [WMark id_1] w
           (intent_pending "0.05" 600000)).
  - reflexivity.
  - reflexivity.
  - reflexivity.
Defined.

(** X13.  For an id no record is stored under, [getIntent] and
    [getReceipt] answer null and [submitSolanaProof] and
    [triggerBasePayment] throw [NotFoundException]; none of the four
    contacts the facilitator or the chain, and none writes. *)
Theorem unknown_intent_changes_nothing cfg env id dto w :
  db w !! id = None ->
  getIntent env id w = (w, Ok None)
  /\ getReceipt cfg id w = (w, Ok None)
  /\ submitSolanaProof cfg env id dto w
     = (w, Throw (NotFoundException ("Payment intent " ++ id ++ " not found")))
  /\ triggerBasePayment cfg env id w
     = (w, Throw (NotFoundException ("Payment intent " ++ id ++ " not found"))).
Proof.
  intros H. split; [by apply getIntent_not_found|].
  split; [unfold getReceipt; unfold_M; by rewrite H|].
  split; [by apply submit_not_found|by apply trigger_not_found].
Qed.

Lemma unknown_intent_changes_nothing_witness :
  triggerBasePayment cfg_default (env_funded 1000 1000000) "nobody" empty_world
  = (empty_world,
     Throw (NotFoundException ("Payment intent " ++ "nobody" ++ " not found"))).
Proof.
  apply (unknown_intent_changes_nothing cfg_default (env_funded 1000 1000000)
           "nobody" proof_dto_1 empty_world).
  reflexivity.
Defined.

(** X14.  The status guards: [submitSolanaProof] contacts the facilitator
    or writes only for an intent stored as PENDING, [triggerBasePayment]
    enters the executor or writes only for an intent stored as
    SOL_SETTLED, and [getIntent] writes only for a PENDING intent whose
    expiry time is past.  In every other case the world after the call is
    the world before it. *)
Theorem calls_act_only_in_their_status cfg env id dto w :
  (fst (submitSolanaProof cfg env id dto w) <> w ->
   exists i, db w !! id = Some i /\ status i = PENDING)
  /\ (fst (triggerBasePayment cfg env id w) <> w ->
      exists i, db w !! id = Some i /\ status i = SOL_SETTLED)
  /\ (fst (getIntent env id w) <> w ->
      exists i, db w !! id = Some i /\ status i = PENDING /\ is_past env i = true).
Proof.
  split; [|split]; intros Hne; destruct (db w !! id) as [i|] eqn:Hi.
  - destruct (decide (status i = PENDING)); [by exists i|].
    by rewrite (submit_wrong_status _ _ _ _ _ _ Hi) in Hne.
  - by rewrite submit_not_found in Hne.
  - destruct (decide (status i = SOL_SETTLED)); [by exists i|].
    by rewrite (trigger_wrong_status _ _ _ _ _ Hi) in Hne.
  - by rewrite trigger_not_found in Hne.
  - destruct (decide (status i = PENDING)) as [Hs|Hs];
      [destruct (is_past env i) eqn:Hp; [by exists i|]|];
      by rewrite (getIntent_reads _ _ _ _ Hi) in Hne by auto.
  - by rewrite getIntent_not_found in Hne.
Qed.

Lemma calls_act_only_in_their_status_witness :
  exists i,
    db (world_of (intent_settled "0.05")) !! id_1 = Some i
    /\ status i = SOL_SETTLED.
Proof.
  apply (proj1 (proj2 (calls_act_only_in_their_status cfg_default
                         (env_funded 3000 1000000) id_1 proof_dto_1
                         (world_of (intent_settled "0.05"))))).
  vm_compute. discriminate.
Defined.

(** ** [getIntent] *)

(** X15.  [getIntent] reports the status it leaves stored, writes no
    column but [status], adds nothing to the trace, and asked again at
    the same time answers the same and writes nothing more. *)
Theorem getIntent_reports_what_it_leaves_stored env id w :
  snd (getIntent env id w)
    = Ok ((fun i => view_of i (status i)) <$> db (fst (getIntent env id w)) !! id)
  /\ trace (fst (getIntent env id w)) = trace w
  /\ getIntent env id (fst (getIntent env id w))
     = (fst (getIntent env id w), snd (getIntent env id w))
  /\ (forall i, db w !! id = Some i ->
      exists i', db (fst (getIntent env id w)) !! id = Some i'
                 /\ same_but_status i' i).
Proof.
  destruct (db w !! id) as [i|] eqn:Hi.
  - destruct (decide (status i = PENDING)) as [Hs|Hs];
      [destruct (is_past env i) eqn:Hp|].
    + rewrite (getIntent_expires _ _ _ _ Hi Hs Hp). simpl.
      rewrite lookup_insert_eq. simpl.
      split; [done|]. split; [done|]. split.
      * rewrite (getIntent_reads env id _ (apply_data (data_status EXPIRED) i));
          [done|apply lookup_insert_eq|by left].
      * intros ? [= <-]. eexists. split; [done|]. repeat split.
    + rewrite (getIntent_reads _ _ _ _ Hi) by auto. simpl. rewrite Hi. simpl.
      split; [done|]. split; [done|]. split.
      * by rewrite (getIntent_reads _ _ _ _ Hi) by auto.
      * intros ? [= <-]. exists i. repeat split; done.
    + rewrite (getIntent_reads _ _ _ _ Hi) by auto. simpl. rewrite Hi. simpl.
      split; [done|]. split; [done|]. split.
      * by rewrite (getIntent_reads _ _ _ _ Hi) by auto.
      * intros ? [= <-]. exists i. repeat split; done.
  - rewrite getIntent_not_found by done. simpl. rewrite Hi.
    split; [done|]. split; [done|]. split; [|done].
    by rewrite getIntent_not_found.
Qed.

Lemma getIntent_reports_what_it_leaves_stored_witness :
  let w := world_of (intent_pending "0.05" 600000) in
  let env := env_funded 700000 0 in
  exists i', db (fst (getIntent env id_1 w)) !! id_1 = Some i'
             /\ same_but_status i' (intent_pending "0.05" 600000).
Proof.
  intros w env.
  apply (proj2 (proj2 (proj2 (getIntent_reports_what_it_leaves_stored env id_1 w)))).
  reflexivity.
Defined.

(** ** From creation to receipt *)

(** X16.  The three calls compose: an intent created from a valid body
    under a fresh id, then given a proof the facilitator accepts, then
    triggered with an executor that confirms, ends BASE_SETTLED, and its
    receipt carries the Solana leg as submitted and the Base leg as
    executed, each with its explorer link and settlement time, and the
    completion time.  Nothing in the chain of calls looks at the expiry
    time. *)
Theorem create_submit_trigger_completes
    cfg env1 env2 env3 dto pdto res w :
  db w !! uuid env1 = None ->
  valid_CreateIntentDto dto = true ->
  verify_result cfg env2 (settle_proof pdto) = Ok tt ->
  execute_result cfg env3 (request_of (new_intent env1 dto)) = Ok res ->
  tx_hash pdto <> "" ->
  txHash res <> "" ->
  let w3 := run_ops cfg
              [OpCreate env1 dto;
               OpSubmit env2 (uuid env1) pdto;
               OpTrigger env3 (uuid env1)] w in
  exists r,
    snd (getReceipt cfg (uuid env1) w3) = Ok (Some r)
    /\ r_status r = BASE_SETTLED
    /\ r_amount r = JS.toString (dto_amount dto)
    /\ r_merchant_recipient r = dto_merchant_recipient dto
    /\ (exists sol,
          r_solana_payment r = Some sol
          /\ leg_tx_hash sol = tx_hash pdto
          /\ leg_settle_proof sol = Some (settle_proof pdto)
          /\ leg_settled_at sol = Some (now env2))
    /\ (exists base,
          r_base_payment r = Some base
          /\ leg_tx_hash base = txHash res
          /\ leg_settle_proof base = Some ("base_settlement_" ++ txHash res)
          /\ leg_settled_at base = Some (now env3))
    /\ r_created_at r = now env1
    /\ r_expires_at r = Some (now env1 + ten_minutes)
    /\ r_completed_at r = Some (now_completed env3).
Proof.
  intros Hfresh Hvalid Hverify Hexec Htx Hhash w3. subst w3.
  pose proof (execute_result_proof _ _ _ _ Hexec) as Hproof.
  destruct res as [h p]. simpl in Hproof, Hhash. subst p.
  unfold run_ops. simpl.
  rewrite post_intents_valid, createIntent_fresh by done. simpl.
  set (w1 := mkWorld _ _).
  assert (H1 : db w1 !! uuid env1 = Some (new_intent env1 dto))
    by apply lookup_insert_eq.
  rewrite (submit_accepted cfg env2 (uuid env1) pdto w1 _ H1 eq_refl Hverify).
  simpl. set (w2 := mkWorld _ _).
  set (i2 := apply_data (proof_data env2 pdto) (new_intent env1 dto)).
  assert (H2 : db w2 !! uuid env1 = Some i2) by apply lookup_insert_eq.
  rewrite (trigger_settles cfg env3 (uuid env1) w2 i2 H2 eq_refl _ Hexec).
  simpl. unfold getReceipt. unfold_M; simpl. rewrite lookup_insert_eq. simpl.
  eexists. split; [reflexivity|].
  unfold receipt_of, leg_of. simpl.
  apply String.eqb_neq in Htx, Hhash. rewrite Htx, Hhash.
  repeat split; eexists; repeat split.
Qed.

Lemma create_submit_trigger_completes_witness :
  let w3 := run_ops cfg_default
              [OpCreate (env_funded 1000 0)
                 (mkCreateDto (JS.parseFloat "0.05") recipient_1);
               OpSubmit (env_funded 2000 0) id_1 proof_dto_1;
               OpTrigger (env_funded 3000 1000000) id_1] empty_world in
  exists r,
    snd (getReceipt cfg_default id_1 w3) = Ok (Some r)
    /\ r_status r = BASE_SETTLED.
Proof.
  intros w3.
  destruct (create_submit_trigger_completes cfg_default
              (env_funded 1000 0) (env_funded 2000 0) (env_funded 3000 1000000)
              (mkCreateDto (JS.parseFloat "0.05") recipient_1) proof_dto_1
              (mkResult "0xfeed" (Some "base_settlement_0xfeed")) empty_world)
    as (r & Hr & Hs & _);
    [reflexivity|vm_compute; reflexivity|reflexivity|vm_compute; reflexivity
    |discriminate|discriminate|].
  exists r. split; [exact Hr|exact Hs].
Defined.

(** ** Interleaved triggers *)

Lemma executions_app (l1 l2 : list Event) :
  executions (l1 ++ l2) = (executions l1 + executions l2)%nat.
Proof. unfold executions. by rewrite List.filter_app, length_app. Qed.

Lemma execute_events_executions cfg env request :
  executions (execute_events cfg env request) = 1%nat.
Proof.
  unfold execute_events, executePayment, executions. unfold_M; simpl.
  destruct (account_address env); simpl; [|done].
  destruct (amountInUsdc _); simpl; [|done].
  destruct (balanceOf env); simpl; [|done].
  destruct (JS.lt _ _); simpl; [done|].
  destruct (writeContract env _ _); simpl; [|done].
  by destruct (waitForTransactionReceipt env _).
Qed.

Lemma update_base_leg id d w :
  base_leg_write d ->
  forall id0 i, db w !! id0 = Some i ->
    exists i', db (fst (update id d w)) !! id0 = Some i'
               /\ creation_fields_same i' i /\ source_leg_same i' i.
Proof.
  intros (Hd1 & Hd2 & Hd3 & Hd4) id0 i Hi. unfold update.
  destruct (db w !! id) as [j|] eqn:Hj; simpl.
  - destruct (decide (id = id0)) as [->|Hne].
    + rewrite lookup_insert_eq. simplify_eq. eexists. split; [done|].
      unfold source_leg_same. simpl. rewrite Hd1, Hd2, Hd3, Hd4.
      repeat split.
    + rewrite lookup_insert_ne by done. exists i. repeat split; done.
  - exists i. repeat split; done.
Qed.

(** A step never takes a call back to before [executePayment]. *)
Lemma step_trigger_before cfg env t w :
  (before_execute (snd (step_trigger cfg env t w)) <= before_execute t)%nat.
Proof.
  destruct t as [id|id i|id i|id res|id e|r]; simpl.
  - destruct (db w !! id) as [i|]; simpl; [|lia].
    destruct (negb _); simpl; lia.
  - unfold update. destruct (db w !! id); simpl; lia.
  - rewrite executePayment_frame.
    destruct (execute_result cfg env (request_of i)); simpl; lia.
  - unfold update. destruct (db w !! id); simpl; lia.
  - unfold update. destruct (db w !! id); simpl; lia.
  - lia.
Qed.

Lemma step_trigger_exec cfg env id i w :
  before_execute (snd (step_trigger cfg env (TExec id i) w)) = 0%nat.
Proof.
  simpl. rewrite executePayment_frame.
  by destruct (execute_result cfg env (request_of i)).
Qed.

(** [executePayment] is entered by the step from [TExec] and by no
    other. *)
Lemma step_trigger_executions cfg env t w :
  executions (trace (fst (step_trigger cfg env t w)))
  = (executions (trace w)
     + match t with TExec _ _ => 1 | _ => 0 end)%nat.
Proof.
  destruct t as [id|id i|id i|id res|id e|r]; simpl.
  - destruct (db w !! id) as [i|]; simpl; [|lia].
    destruct (negb _); simpl; lia.
  - unfold update. destruct (db w !! id); simpl; lia.
  - rewrite executePayment_frame.
    destruct (execute_result cfg env (request_of i)); simpl;
      by rewrite executions_app, execute_events_executions.
  - unfold update. destruct (db w !! id); simpl; lia.
  - unfold update. destruct (db w !! id); simpl; lia.
  - lia.
Qed.

Lemma step_trigger_keeps cfg env t w id0 i :
  db w !! id0 = Some i ->
  exists i', db (fst (step_trigger cfg env t w)) !! id0 = Some i'
             /\ creation_fields_same i' i /\ source_leg_same i' i.
Proof.
  intros Hi.
  assert (Hsame : exists i', db w !! id0 = Some i'
                             /\ creation_fields_same i' i /\ source_leg_same i' i)
    by (exists i; repeat split; done).
  assert (Hst : forall s, base_leg_write (data_status s)) by (repeat split).
  destruct t as [id|id j|id j|id res|id e|r]; simpl.
  - destruct (db w !! id) as [k|]; simpl; [|done].
    by destruct (negb _).
  - pose proof (update_base_leg id (data_status BASE_SETTLING) w (Hst _) id0 i Hi).
    by destruct (update id _ w) as [w' [?|?]].
  - rewrite executePayment_frame.
    by destruct (execute_result cfg env (request_of j)).
  - pose proof (update_base_leg id (settled_data env res) w
                  ltac:(repeat split) id0 i Hi).
    by destruct (update id _ w) as [w' [?|?]].
  - pose proof (update_base_leg id (data_status SOL_SETTLED) w (Hst _) id0 i Hi).
    by destruct (update id _ w) as [w' [?|?]].
  - done.
Qed.

Lemma run_calls_cons cfg k schedule st :
  run_calls cfg (k :: schedule) st = run_calls cfg schedule (step_call cfg k st).
Proof. reflexivity. Qed.

Lemma entries_cons cfg k schedule st :
  entries cfg (k :: schedule) st
  = ((if enters_execute (fst st) k then [k] else [])
       ++ entries cfg schedule (step_call cfg k st))%list.
Proof. reflexivity. Qed.

Lemma step_call_none cfg k pool w :
  pool !! k = None -> step_call cfg k (pool, w) = (pool, w).
Proof. intros H. unfold step_call. by rewrite H. Qed.

Lemma step_call_some cfg k pool w env t :
  pool !! k = Some (env, t) ->
  step_call cfg k (pool, w)
  = (<[k := (env, snd (step_trigger cfg env t w))]> pool,
     fst (step_trigger cfg env t w)).
Proof.
  intros H. unfold step_call. rewrite H.
  by destruct (step_trigger cfg env t w).
Qed.

Lemma run_calls_keeps cfg schedule : forall pool w id0 i,
  db w !! id0 = Some i ->
  exists i',
    db (snd (run_calls cfg schedule (pool, w))) !! id0 = Some i'
    /\ creation_fields_same i' i /\ source_leg_same i' i.
Proof.
  induction schedule as [|k schedule IH]; intros pool w id0 i Hi.
  - exists i. repeat split; done.
  - rewrite run_calls_cons.
    destruct (pool !! k) as [[env t]|] eqn:Hk;
      [|rewrite (step_call_none _ _ _ _ Hk); by apply IH].
    rewrite (step_call_some _ _ _ _ _ _ Hk).
    destruct (step_trigger_keeps cfg env t w id0 i Hi) as (i1 & H1 & Hc1 & Hl1).
    destruct (IH (<[k := (env, snd (step_trigger cfg env t w))]> pool)
                (fst (step_trigger cfg env t w)) id0 i1 H1)
      as (i2 & H2 & Hc2 & Hl2).
    exists i2. split; [exact H2|].
    split; [by eapply creation_fields_same_trans
           |by eapply source_leg_same_trans].
Qed.

(** The calls in [done] are past [executePayment]. *)
Lemma run_calls_entries cfg schedule : forall pool w (done : list nat),
  NoDup done ->
  (forall k env t, k ∈ done -> pool !! k = Some (env, t) ->
                   before_execute t = 0%nat) ->
  NoDup (done ++ entries cfg schedule (pool, w))
  /\ executions (trace (snd (run_calls cfg schedule (pool, w))))
     = (executions (trace w) + length (entries cfg schedule (pool, w)))%nat
  /\ Forall (fun k => (k < length pool)%nat) (entries cfg schedule (pool, w)).
Proof.
  induction schedule as [|k schedule IH]; intros pool w done Hnd Hdone.
  - simpl. rewrite app_nil_r. repeat split; [done|lia|constructor].
  - rewrite run_calls_cons, entries_cons. unfold enters_execute. cbn [fst].
    destruct (pool !! k) as [[env t]|] eqn:Hk;
      [|rewrite (step_call_none _ _ _ _ Hk);
        destruct (IH pool w done Hnd Hdone) as (H1 & H2 & H3); by simpl].
    rewrite (step_call_some _ _ _ _ _ _ Hk).
    pose proof (step_trigger_before cfg env t w) as Hbefore.
    pose proof (step_trigger_executions cfg env t w) as Hexec.
    set (w' := fst (step_trigger cfg env t w)) in *.
    set (t' := snd (step_trigger cfg env t w)) in *.
    assert (Hlen : length (<[k := (env, t')]> pool) = length pool)
      by apply length_insert.
    assert (Hkeep : forall (done' : list nat),
               (forall k0 env0 t0, k0 ∈ done' -> k0 <> k ->
                                   pool !! k0 = Some (env0, t0) ->
                                   before_execute t0 = 0%nat) ->
               (k ∈ done' -> before_execute t' = 0%nat) ->
               forall k0 env0 t0, k0 ∈ done' ->
                 <[k := (env, t')]> pool !! k0 = Some (env0, t0) ->
                 before_execute t0 = 0%nat).
    { intros done' Hothers Hk' k0 env0 t0 Hin Hlook.
      destruct (decide (k0 = k)) as [->|Hne].
      - rewrite list_lookup_insert_eq in Hlook
          by (by apply lookup_lt_Some in Hk).
        simplify_eq. by apply Hk'.
      - rewrite list_lookup_insert_ne in Hlook by done. by eapply Hothers. }
    assert (Hother : (forall id i, t <> TExec id i) ->
               NoDup (done ++ [] ++ entries cfg schedule
                                      (<[k := (env, t')]> pool, w'))
               /\ executions (trace (snd (run_calls cfg schedule
                                            (<[k := (env, t')]> pool, w'))))
                  = (executions (trace w)
                     + length ([] ++ entries cfg schedule
                                       (<[k := (env, t')]> pool, w')))%nat
               /\ Forall (fun k => (k < length pool)%nat)
                    ([] ++ entries cfg schedule (<[k := (env, t')]> pool, w'))).
    { intros Hnot.
      destruct (IH (<[k := (env, t')]> pool) w' done Hnd) as (H1 & H2 & H3).
      - apply Hkeep; [intros; by eapply Hdone|].
        intros Hin. pose proof (Hdone k env _ Hin Hk). lia.
      - rewrite Hlen in H3. simpl. split; [exact H1|]. split; [|exact H3].
        rewrite H2, Hexec. destruct t; try lia. by destruct (Hnot intentId intent). }
    destruct t as [id|id i|id i|id res|id e|r];
      try (apply Hother; discriminate).
    assert (Hnotin : k ∉ done).
    { intros Hin. by pose proof (Hdone k env _ Hin Hk). }
    assert (Ht' : before_execute t' = 0%nat) by apply step_trigger_exec.
    destruct (IH (<[k := (env, t')]> pool) w' (done ++ [k])%list) as (H1 & H2 & H3).
    + apply NoDup_app. split; [done|]. split; [|apply NoDup_singleton].
      intros x Hx Hx'. apply list_elem_of_singleton in Hx'. by subst.
    + apply Hkeep; [|done].
      intros k0 env0 t0 Hin Hne Hlook.
      apply elem_of_app in Hin as [Hin|Hin]; [by eapply Hdone|].
      apply list_elem_of_singleton in Hin. done.
    + rewrite Hlen in H3. rewrite <- app_assoc in H1. simpl in *.
      split; [exact H1|]. split; [rewrite H2, Hexec; lia|].
      constructor; [by apply lookup_lt_Some in Hk|exact H3].
Qed.

(** X17.  However the outside answers each of the concurrent
    [triggerBasePayment] calls (one transfer confirmed, another failing
    and rolled back) and under every interleaving of their steps, no call
    enters [executePayment] twice, the executions recorded are exactly
    those entries, so there are at most as many as there are calls, and
    whatever the calls write, every stored intent stays stored with its
    creation-time columns and its Solana leg unchanged. *)
Theorem interleaved_triggers_keep_the_source_leg cfg schedule calls w id0 i :
  db w !! id0 = Some i ->
  let start := (start_calls calls, w) in
  NoDup (entries cfg schedule start)
  /\ executions (trace (snd (run_calls cfg schedule start)))
     = (executions (trace w) + length (entries cfg schedule start))%nat
  /\ (length (entries cfg schedule start) <= length calls)%nat
  /\ exists i',
       db (snd (run_calls cfg schedule start)) !! id0 = Some i'
       /\ creation_fields_same i' i /\ source_leg_same i' i.
Proof.
  intros Hi start. subst start.
  destruct (run_calls_entries cfg schedule (start_calls calls) w [])
    as (Hnd & Hexec & Hlt); [constructor|intros ? ? ? Hin; by inversion Hin|].
  simpl in Hnd. split; [exact Hnd|]. split; [exact Hexec|].
  split; [|by apply run_calls_keeps].
  assert (Hlen : length (start_calls calls) = length calls)
    by apply length_map.
  rewrite Hlen in Hlt.
  assert (Hsub : entries cfg schedule (start_calls calls, w)
                 ⊆+ seq 0 (length calls)).
  { apply NoDup_submseteq; [exact Hnd|]. intros k Hk.
    rewrite List.Forall_forall in Hlt.
    apply elem_of_seq. split; [lia|]. apply Hlt. by apply list_elem_of_In. }
  apply submseteq_length in Hsub. by rewrite length_seq in Hsub.
Qed.

Lemma interleaved_triggers_keep_the_source_leg_witness :
  let w := world_of (intent_settled "0.05") in
  let failing := env_verifier 4000 (FetchRejects "unused") in
  let start := (start_calls [(env_funded 5000 1000000, id_1); (failing, id_1)], w) in
  let schedule := [0; 1; 0; 1; 0; 1; 0; 1]%nat in
  NoDup (entries cfg_default schedule start)
  /\ executions (trace (snd (run_calls cfg_default schedule start)))
     = (executions (trace w) + length (entries cfg_default schedule start))%nat
  /\ (length (entries cfg_default schedule start) <= 2)%nat
  /\ exists i',
       db (snd (run_calls cfg_default schedule start)) !! id_1 = Some i'
       /\ creation_fields_same i' (intent_settled "0.05")
       /\ source_leg_same i' (intent_settled "0.05").
Proof.
  intros w failing start schedule.
  apply (interleaved_triggers_keep_the_source_leg cfg_default schedule
           [(env_funded 5000 1000000, id_1); (failing, id_1)] w id_1
           (intent_settled "0.05")).
  reflexivity.
Defined.

(** ** The solana-proof route *)

Lemma submit_ok_inv cfg env id dto w ack :
  snd (submitSolanaProof cfg env id dto w) = Ok ack ->
  exists i, db w !! id = Some i /\ status i = PENDING
            /\ verify_result cfg env (settle_proof dto) = Ok tt.
Proof.
  intros Hok. destruct (db w !! id) as [i|] eqn:Hi.
  - destruct (decide (status i = PENDING)) as [Hs|Hs].
    + destruct (verify_result cfg env (settle_proof dto)) as [[]|e] eqn:Hv.
      * by exists i.
      * by rewrite (submit_rejected _ _ _ _ _ _ _ Hi Hs Hv) in Hok.
    + by rewrite (submit_wrong_status _ _ _ _ _ _ Hi Hs) in Hok.
  - by rewrite submit_not_found in Hok.
Qed.

Lemma receipt_after_submit cfg env id dto w ack actions :
  snd (submitSolanaProof cfg env id dto w) = Ok ack ->
  Forall (fun a => writes_proof_for id a = false) actions ->
  exists i2,
    snd (getReceipt cfg id
           (run_actions actions (fst (submitSolanaProof cfg env id dto w))))
      = Ok (Some (receipt_of cfg i2))
    /\ status i2 <> PENDING
    /\ sol_tx_hash i2 = Some (tx_hash dto)
    /\ sol_settle_proof i2 = Some (settle_proof dto)
    /\ sol_settled_at i2 = Some (now env).
Proof.
  intros Hok Hall.
  destruct (submit_ok_inv _ _ _ _ _ _ Hok) as (i & Hi & Hs & Hv).
  rewrite (submit_accepted _ _ _ _ _ _ Hi Hs Hv). simpl.
  set (w1 := mkWorld _ _).
  destruct (run_actions_past_pending actions w1 id
              (apply_data (proof_data env dto) i))
    as (i2 & H2 & Hs2 & Hleg); [apply lookup_insert_eq|done|].
  destruct (Hleg Hall) as (_ & Hp & Ht & Hat).
  exists i2. split; [|by rewrite Hp, Ht, Hat].
  unfold getReceipt. unfold_M; simpl. by rewrite H2.
Qed.

(** X18.  POST intents/:id/solana-proof refuses a body whose
    [settle_proof] or [tx_hash] is empty with a BadRequestException,
    before the store is read or the facilitator is contacted.  A proof
    the route accepts shows on every later receipt: whatever the service
    writes afterwards other than another proof for the same intent (the
    trigger that the submission schedules included), the receipt has a
    status other than PENDING and a Solana leg with the submitted hash
    and proof.  The check is the route's, not the service's:
    [submitSolanaProof] called with an empty [tx_hash] settles the
    intent all the same, and the receipt then has no Solana leg. *)
Theorem accepted_proof_shows_on_the_receipt cfg env id dto w actions :
  ((settle_proof dto = "" \/ tx_hash dto = "") ->
   exists msg,
     post_solana_proof cfg env id dto w = (w, Throw (BadRequestException msg)))
  /\ (forall ack,
        snd (post_solana_proof cfg env id dto w) = Ok ack ->
        Forall (fun a => writes_proof_for id a = false) actions ->
        exists r leg,
          snd (getReceipt cfg id
                 (run_actions actions (fst (post_solana_proof cfg env id dto w))))
            = Ok (Some r)
          /\ r_status r <> PENDING
          /\ r_solana_payment r = Some leg
          /\ leg_tx_hash leg = tx_hash dto
          /\ leg_settle_proof leg = Some (settle_proof dto)
          /\ leg_settled_at leg = Some (now env))
  /\ (forall ack,
        snd (submitSolanaProof cfg env id dto w) = Ok ack ->
        tx_hash dto = "" ->
        Forall (fun a => writes_proof_for id a = false) actions ->
        exists r,
          snd (getReceipt cfg id
                 (run_actions actions (fst (submitSolanaProof cfg env id dto w))))
            = Ok (Some r)
          /\ r_status r <> PENDING
          /\ r_solana_payment r = None).
Proof.
  split; [|split].
  - unfold post_solana_proof, validate_SolanaProofDto, IsNotEmpty.
    intros [-> | ->]; simpl.
    + destruct (negb (tx_hash dto =? "")%string); by eexists.
    + destruct (negb (settle_proof dto =? "")%string); by eexists.
  - intros ack. unfold post_solana_proof, validate_SolanaProofDto, IsNotEmpty.
    destruct (String.eqb (settle_proof dto) "") eqn:Hp; simpl;
      [by destruct (negb (tx_hash dto =? "")%string)|].
    destruct (String.eqb (tx_hash dto) "") eqn:Ht; simpl; [done|].
    intros Hok Hall.
    destruct (receipt_after_submit _ _ _ _ _ _ _ Hok Hall)
      as (i2 & Hr & Hs2 & Htx & Hpr & Hat).
    rewrite Hr. unfold receipt_of, leg_of. simpl. rewrite Htx, Ht, Hpr, Hat.
    do 2 eexists. repeat split. exact Hs2.
  - intros ack Hok Ht Hall.
    destruct (receipt_after_submit _ _ _ _ _ _ _ Hok Hall)
      as (i2 & Hr & Hs2 & Htx & _).
    rewrite Hr. unfold receipt_of, leg_of. simpl. rewrite Htx, Ht. simpl.
    eexists. repeat split. exact Hs2.
Qed.

Lemma accepted_proof_shows_on_the_receipt_witness :
  let w := world_of (intent_pending "0.05" 5000) in
  let env := env_funded 1000 0 in
  let later := [WMark id_1; Outside (EvExecute id_1); WRollback id_1] in
  exists r leg,
    snd (getReceipt cfg_default id_1
           (run_actions later
              (fst (post_solana_proof cfg_default env id_1 proof_dto_1 w))))
      = Ok (Some r)
    /\ r_status r <> PENDING
    /\ r_solana_payment r = Some leg
    /\ leg_tx_hash leg = tx_hash proof_dto_1.
Proof.
  intros w env later.
  destruct (proj1 (proj2 (accepted_proof_shows_on_the_receipt cfg_default env
                            id_1 proof_dto_1 w later))
              {| s_success := true;
                 s_message := "Solana payment verified";
                 s_intent_id := id_1;
                 s_status := SOL_SETTLED |})
    as (r & leg & Hr & Hs & Hl & Ht & _);
    [reflexivity|by repeat constructor|].
  exists r, leg. repeat split; assumption.
Defined.

(** ** Configuration *)

(** X19.  The facilitator URL in the configuration is never read:
    [configuration()] files FACILITATOR_URL under [facilitator.url],
    while the service asks for [x402.facilitatorUrl], a key that
    [configuration()] does not have.  Whatever the environment sets,
    every proof is posted to the built-in address. *)
Theorem facilitator_url_setting_is_never_read penv env proof w :
  penv !! "x402.facilitatorUrl" = None ->
  get_path (configuration penv) ["facilitator"; "url"]
    = JString (or_else (penv !! "FACILITATOR_URL") "https://x402.org/facilitator")
  /\ trace (fst (verifyX402Proof (config_of penv) env proof w))
     = (trace w ++ [EvFetch "https://x402.org/facilitator/verify" proof])%list.
Proof.
  intros Hnone. split; [reflexivity|].
  rewrite verifyX402Proof_frame. simpl.
  unfold facilitatorUrl, config_of, get_string, ConfigService_get. simpl.
  rewrite Hnone. reflexivity.
Qed.

Lemma facilitator_url_setting_is_never_read_witness :
  let penv : ProcessEnv := {[ "FACILITATOR_URL" := "https://facilitator.example" ]} in
  get_path (configuration penv) ["facilitator"; "url"]
    = JString "https://facilitator.example"
  /\ trace (fst (verifyX402Proof (config_of penv)
                   (env_funded 1000 0) "proof" empty_world))
     = [EvFetch "https://x402.org/facilitator/verify" "proof"].
Proof.
  intros penv.
  destruct (facilitator_url_setting_is_never_read penv
              (env_funded 1000 0) "proof" empty_world)
    as (Hc & Ht); [reflexivity|].
  split; [exact Hc|exact Ht].
Defined.



Lemma str_split_cons sep s :
  exists piece pieces, str_split sep s = piece :: pieces.
Proof.
  destruct s as [|c r]; simpl; [by eexists _, _|].
  destruct (Ascii.eqb c sep); [by eexists _, _|].
  destruct (str_split sep r); by eexists _, _.
Qed.

Lemma concat_cons_cons sep (x y : string) ys :
  String.concat sep (x :: y :: ys) = (x ++ sep ++ String.concat sep (y :: ys))%string.
Proof. reflexivity. Qed.

Lemma str_split_concat sep s :
  String.concat (String sep "") (str_split sep s) = s.
Proof.
  induction s as [|c r IH]; [reflexivity|]. simpl.
  destruct (str_split_cons sep r) as (p & ps & Hr). rewrite Hr in *.
  destruct (Ascii.eqb_spec c sep) as [->|Hne].
  - rewrite concat_cons_cons, IH.
    by rewrite app_nil_l_s, app_cons_s, app_nil_l_s.
  - destruct ps as [|q qs].
    + simpl in *. by rewrite IH.
    + rewrite concat_cons_cons in *. by rewrite app_cons_s, IH.
Qed.

Lemma str_split_no_sep s :
  Forall (fun piece => has_comma piece = false) (str_split "," s).
Proof.
  induction s as [|c r IH]; [by repeat constructor|]. simpl.
  destruct (Ascii.eqb c ",") eqn:Hc; [by constructor|].
  assert (Hhead : forall p, has_comma p = false -> has_comma (String c p) = false).
  { intros p Hp. unfold has_comma in *. cbn [list_ascii_of_string existsb].
    by rewrite Hp, Ascii.eqb_sym, Hc. }
  destruct (str_split "," r) as [|p ps].
  - constructor; [by apply Hhead|constructor].
  - inversion IH; subst. constructor; [by apply Hhead|done].
Qed.

Lemma str_split_length s :
  length (str_split "," s) = S (comma_count s).
Proof.
  induction s as [|c r IH]; [reflexivity|].
  unfold comma_count in *. cbn [str_split list_ascii_of_string List.filter].
  rewrite (Ascii.eqb_sym "," c).
  destruct (Ascii.eqb c ","); cbn [length]; [by rewrite IH|].
  destruct (str_split "," r); [done|]. by rewrite <- IH.
Qed.

(** X21.  [cors.origins] loses nothing of CORS_ORIGINS: the origins are
    the pieces between the commas, one more than there are commas, none
    has a comma, and joined by commas they give the variable back.  The
    default is used only when the variable is unset; set to the empty
    string it gives one origin, the empty one. *)
Theorem cors_origins_are_the_pieces_of_the_variable penv :
  exists origins,
    get_path (configuration penv) ["cors"; "origins"] = JArray origins
    /\ match penv !! "CORS_ORIGINS" with
       | Some s =>
           String.concat "," origins = s
           /\ length origins = S (comma_count s)
           /\ Forall (fun origin => has_comma origin = false) origins
       | None => origins = ["http://localhost:3000"]
       end.
Proof.
  eexists. split; [reflexivity|]. unfold origins_or.
  destruct (penv !! "CORS_ORIGINS") as [s|]; [|done].
  split; [apply str_split_concat|split; [apply str_split_length|apply str_split_no_sep]].
Qed.

Lemma or_else_truthy v dflt :
  dflt <> "" -> negb (String.eqb (or_else v dflt) "") = true.
Proof.
  intros Hd. apply String.eqb_neq in Hd. unfold or_else.
  destruct v as [s|]; [|by rewrite Hd].
  destruct (String.eqb s "") eqn:Hs; by rewrite ?Hd, ?Hs.
Qed.

Lemma number_or_truthy n dflt :
  Number_truthy (JS.Number_of_bigint dflt) = true ->
  Number_truthy (number_or n dflt) = true.
Proof. intros Hd. unfold number_or. by destruct (Number_truthy n) eqn:Hn. Qed.

(** X22.  No setting that [configuration()] gives a default is ever
    falsy: whatever the environment, the port and the two rate limits
    are neither NaN nor zero, the defaulted strings are not empty, and
    the origins are an array.  So PORT=0, like an unparsable PORT, gives
    port 3001. *)
Theorem defaulted_settings_are_never_falsy penv :
  Forall (fun path => setting_truthy (get_path (configuration penv) path) = true)
    defaulted_settings
  /\ (Number_truthy (parseInt10 (penv !! "PORT")) = false ->
      get_path (configuration penv) ["port"] = JNumber (JS.Number_of_bigint 3001)).
Proof.
  split.
  - repeat constructor; cbn [get_path fold_left get_field configuration field_of
                               String.eqb Ascii.eqb Bool.eqb setting_truthy];
      try (apply or_else_truthy; discriminate);
      apply number_or_truthy; reflexivity.
  - intros Hf. cbn. unfold number_or. by rewrite Hf.
Qed.

Lemma defaulted_settings_are_never_falsy_witness :
  get_path (configuration {[ "PORT" := "0" ]}) ["port"]
    = JNumber (JS.Number_of_bigint 3001).
Proof.
  apply (proj2 (defaulted_settings_are_never_falsy {[ "PORT" := "0" ]})).
  reflexivity.
Defined.
